(** * AI image generator: a shallow embedding of the Flask application

    The development follows the layout of the repository:

    - [Base64]   [base64.b64encode] / [base64.b64decode] of the Python
                 standard library (RFC 4648 alphabet, lenient decoder);
    - [Py]       the fragment of Python's dynamic values the handlers rely on
                 (truthiness, [dict.get], [in], subscripting, [str.split]);
    - [Bcrypt]   password hashes the way Flask-Bcrypt handles them, over a
                 key derivation that stays a parameter;
    - [Models]   models.py: the three tables and their queries;
    - [Runtime]  the world of a request and the monad of the handlers;
    - [Metrics]  cloudwatch_helper.py;
    - [App]      app.py: helpers and routes;
    - [Pages]    app.py: the pages, /api/models and the create-admin
                 command;
    - [Thumbnail] lambda_thumbnail.py;
    - [Spec], [Notions]  the vocabulary of the properties;
    - [Sample], [Cases]  data on which the properties are also evaluated.

    Effects are threaded explicitly: a handler is a function from the
    world (database, session, media folder, bucket, logs) to a result and
    a new world; everything the outside decides (HTTP answers, whether an
    upload or a commit goes through, clock, random identifiers) is read
    from an environment record.

    What the model takes for granted: queries do not fail (a commit and
    a write to the media folder may); the counters of a stats row are
    never NULL; a string is a Python [str] whose code points are below
    256, one character each; bcrypt is the release that refuses a
    password of more than 72 bytes (5.0 and later); the fixed routes are
    requested without a query string.  The clock is read once per request
    by the handlers, and once more for every image row, whose
    [created_at] is filled in when the row is inserted. *)

From Stdlib Require Import String Ascii List NArith ZArith Lia Bool Arith.
From Stdlib Require Import DecimalString.
From Stdlib Require Import Sorted Permutation.
From Stdlib.Strings Require Import Byte.
Import ListNotations.

Set Warnings "-register-all".

Local Open Scope string_scope.
Local Open Scope list_scope.

(** ** Exceptions and results *)

Inductive exn : Type :=
| AttributeError
| TypeError
| KeyError
| IndexError
| ValueError
| BinasciiError
| RequestException
| ClientError
| DatabaseError
| BadRequest
| OSError.

Inductive result (A : Type) : Type :=
| Ok (a : A)
| Raise (e : exn).

Arguments Ok {A} a.
Arguments Raise {A} e.

Definition result_map {A B} (f : A -> B) (r : result A) : result B :=
  match r with
  | Ok a => Ok (f a)
  | Raise e => Raise e
  end.

Definition bytes : Type := list byte.

(** the numbers below [n], for checks by enumeration *)
Definition below (n : nat) : list N := map N.of_nat (seq 0 n).

(** ** Base64 (Python standard library) *)

Module Base64.

Definition alphabet : string :=
  "ABCDEFGHIJKLMNOPQRSTUVWXYZabcdefghijklmnopqrstuvwxyz0123456789+/".

Definition BASE64_PAD : ascii := "="%char.

(** [table_b2a_base64]: the character of a sextet. *)
Definition table_b2a (n : N) : ascii :=
  match String.get (N.to_nat n) alphabet with
  | Some c => c
  | None => BASE64_PAD
  end.

Fixpoint index_of (c : ascii) (s : string) : option N :=
  match s with
  | EmptyString => None
  | String d s' =>
      if Ascii.eqb c d then Some 0%N
      else option_map N.succ (index_of c s')
  end.

(** [table_a2b_base64]: the sextet of a character, [None] for a
    character outside the alphabet. *)
Definition table_a2b (c : ascii) : option N := index_of c alphabet.

(** the characters the encoder can produce *)
Definition b64char (c : ascii) : bool :=
  match table_a2b c with
  | Some _ => true
  | None => Ascii.eqb c BASE64_PAD
  end.

Definition byte_of_N (n : N) : byte := byte_of_ascii (ascii_of_N n).

Definition sextet1 (a : N) : N := N.shiftr a 2.
Definition sextet2 (a b : N) : N :=
  N.lor (N.shiftl (N.land a 3) 4) (N.shiftr b 4).
Definition sextet3 (b c : N) : N :=
  N.lor (N.shiftl (N.land b 15) 2) (N.shiftr c 6).
Definition sextet4 (c : N) : N := N.land c 63.

(** [binascii.b2a_base64(s, newline=False)], three bytes at a time. *)
Fixpoint b64encode (bs : bytes) : string :=
  match bs with
  | [] => ""
  | [a] =>
      let a := Byte.to_N a in
      String (table_b2a (sextet1 a))
        (String (table_b2a (sextet2 a 0))
           (String BASE64_PAD (String BASE64_PAD "")))
  | [a; b] =>
      let a := Byte.to_N a in
      let b := Byte.to_N b in
      String (table_b2a (sextet1 a))
        (String (table_b2a (sextet2 a b))
           (String (table_b2a (sextet3 b 0)) (String BASE64_PAD "")))
  | a :: b :: c :: rest =>
      let a := Byte.to_N a in
      let b := Byte.to_N b in
      let c := Byte.to_N c in
      String (table_b2a (sextet1 a))
        (String (table_b2a (sextet2 a b))
           (String (table_b2a (sextet3 b c))
              (String (table_b2a (sextet4 c)) (b64encode rest))))
  end.

Definition emit (b : N) (r : result bytes) : result bytes :=
  result_map (cons (byte_of_N b)) r.

(** [binascii.a2b_base64] with [strict_mode] off: the loop over the input
    with its three registers.  Characters outside the alphabet are
    skipped; a pad sequence that completes a quad ends the parse; input
    that stops inside a quad is an error. *)
Fixpoint a2b_loop (s : string) (quad_pos : nat) (leftchar : N) (pads : nat)
  : result bytes :=
  match s with
  | EmptyString =>
      match quad_pos with
      | O => Ok []
      | _ => Raise BinasciiError
      end
  | String this_ch s' =>
      if Ascii.eqb this_ch BASE64_PAD then
        if (2 <=? quad_pos)%nat then
          if (4 <=? quad_pos + S pads)%nat then Ok []
          else a2b_loop s' quad_pos leftchar (S pads)
        else a2b_loop s' quad_pos leftchar pads
      else
        match table_a2b this_ch with
        | None => a2b_loop s' quad_pos leftchar pads
        | Some v =>
            match quad_pos with
            | 0%nat => a2b_loop s' 1%nat v 0%nat
            | 1%nat =>
                emit (N.lor (N.shiftl leftchar 2) (N.shiftr v 4))
                  (a2b_loop s' 2%nat (N.land v 15) 0%nat)
            | 2%nat =>
                emit (N.lor (N.shiftl leftchar 4) (N.shiftr v 2))
                  (a2b_loop s' 3%nat (N.land v 3) 0%nat)
            | _ =>
                emit (N.lor (N.shiftl leftchar 6) v)
                  (a2b_loop s' 0%nat 0%N 0%nat)
            end
        end
  end.

Definition a2b_base64 (s : string) : result bytes := a2b_loop s 0%nat 0%N 0%nat.

Definition is_ascii (c : ascii) : bool := (N_of_ascii c <? 128)%N.

Fixpoint all_chars (p : ascii -> bool) (s : string) : bool :=
  match s with
  | EmptyString => true
  | String c s' => p c && all_chars p s'
  end.

(** [base64.b64decode(s)] on a [str]: the text is encoded as ASCII
    (a [ValueError] otherwise) and handed to [a2b_base64]. *)
Definition b64decode (s : string) : result bytes :=
  if all_chars is_ascii s then a2b_base64 s else Raise ValueError.

End Base64.

(** ** Python values

    What [request.get_json()] and [response.json()] return, with the
    operations the handlers apply to them.  An operation that Python
    rejects for the value at hand raises the exception Python raises.
    JSON numbers are kept as integers: the handlers only test them for
    truth. *)

Module Py.

(** A [string] stands for a Python [str] whose code points are all below
    256, one character for each code point; text with other code points
    is outside the model. *)

Inductive value : Type :=
| PNone
| PBool (b : bool)
| PNum (n : Z)
| PStr (s : string)
| PList (l : list value)
| PDict (kv : list (string * value)).

(** [bool(v)] *)
Definition truthy (v : value) : bool :=
  match v with
  | PNone => false
  | PBool b => b
  | PNum n => negb (n =? 0)%Z
  | PStr s => negb (s =? "")
  | PList l => match l with [] => false | _ => true end
  | PDict kv => match kv with [] => false | _ => true end
  end.

Definition str_truthy (s : string) : bool := negb (s =? "").

(** truth of an optional string, as in [if not username] *)
Definition opt_truthy (o : option string) : bool :=
  match o with
  | Some s => str_truthy s
  | None => false
  end.

Fixpoint lookup {A} (key : string) (kv : list (string * A)) : option A :=
  match kv with
  | [] => None
  | (k, v) :: kv' => if k =? key then Some v else lookup key kv'
  end.

(** [v.get(key, default)] *)
Definition get (v : value) (key : string) (default : value) : result value :=
  match v with
  | PDict kv =>
      match lookup key kv with
      | Some x => Ok x
      | None => Ok default
      end
  | _ => Raise AttributeError
  end.

Fixpoint chars (s : string) : list value :=
  match s with
  | EmptyString => []
  | String c s' => PStr (String c "") :: chars s'
  end.

(** the elements a [for] loop sees *)
Definition iterate (v : value) : result (list value) :=
  match v with
  | PList l => Ok l
  | PDict kv => Ok (map (fun p => PStr (fst p)) kv)
  | PStr s => Ok (chars s)
  | _ => Raise TypeError
  end.

(** [s.startswith(p)] *)
Fixpoint startswith (s p : string) : bool :=
  match p with
  | EmptyString => true
  | String c p' =>
      match s with
      | EmptyString => false
      | String d s' => Ascii.eqb c d && startswith s' p'
      end
  end.

(** [needle in hay] on strings *)
Fixpoint is_substring (needle hay : string) : bool :=
  startswith hay needle
  || match hay with
     | EmptyString => false
     | String _ hay' => is_substring needle hay'
     end.

Definition is_str (key : string) (v : value) : bool :=
  match v with
  | PStr s => s =? key
  | _ => false
  end.

(** [key in v] for a string [key] *)
Definition contains (key : string) (v : value) : result bool :=
  match v with
  | PDict kv =>
      Ok (match lookup key kv with Some _ => true | None => false end)
  | PList l => Ok (existsb (is_str key) l)
  | PStr s => Ok (is_substring key s)
  | _ => Raise TypeError
  end.

(** [v[key]] for a string [key] *)
Definition getitem (v : value) (key : string) : result value :=
  match v with
  | PDict kv =>
      match lookup key kv with
      | Some x => Ok x
      | None => Raise KeyError
      end
  | _ => Raise TypeError
  end.

(** [s.split(sep)] for a one-character separator *)
Fixpoint split (sep : ascii) (s : string) : list string :=
  match s with
  | EmptyString => [""]
  | String c s' =>
      if Ascii.eqb c sep then "" :: split sep s'
      else
        match split sep s' with
        | [] => [String c ""]
        | h :: t => String c h :: t
        end
  end.

(** no character of [s] is [sep] *)
Fixpoint free_of (sep : ascii) (s : string) : bool :=
  match s with
  | EmptyString => true
  | String c s' => negb (Ascii.eqb c sep) && free_of sep s'
  end.

(** [c.isspace()], the white space [str.strip()] removes: among the
    code points below 256 these are U+0009 to U+000D, U+001C to U+0020,
    U+0085 and U+00A0 *)
Definition isspace (c : ascii) : bool :=
  let n := N_of_ascii c in
  ((9 <=? n) && (n <=? 13) || (28 <=? n) && (n <=? 32)
   || (n =? 133) || (n =? 160))%N.

(** [bool(s.strip())] *)
Fixpoint strip_truthy (s : string) : bool :=
  match s with
  | EmptyString => false
  | String c s' => negb (isspace c) || strip_truthy s'
  end.

Definition string_of_nat (n : nat) : string :=
  NilZero.string_of_uint (Nat.to_uint n).

(** [len(s.encode('utf-8'))]: a code point from 128 on takes two bytes *)
Fixpoint utf8_length (s : string) : nat :=
  match s with
  | EmptyString => 0
  | String c s' =>
      (if (N_of_ascii c <? 128)%N then 1 else 2) + utf8_length s'
  end.

Definition hex_digit (n : N) : ascii :=
  if (n <? 10)%N then ascii_of_N (48 + n) else ascii_of_N (55 + n).

(** ["%XX"] for the byte [b], followed by [rest] *)
Definition percent (b : N) (rest : string) : string :=
  String "%" (String (hex_digit (b / 16)) (String (hex_digit (b mod 16)) rest)).

(** letters, digits and [_.-~] *)
Definition unreserved (c : ascii) : bool :=
  let n := N_of_ascii c in
  ((48 <=? n) && (n <=? 57) || (65 <=? n) && (n <=? 90)
   || (97 <=? n) && (n <=? 122)
   || (n =? 45) || (n =? 46) || (n =? 95) || (n =? 126))%N.

(** [urllib.parse.quote_plus(s)], which [urlencode] applies to a value:
    a blank becomes [+], every other reserved character the percent
    escapes of its UTF-8 bytes *)
Fixpoint quote_plus (s : string) : string :=
  match s with
  | EmptyString => EmptyString
  | String c s' =>
      let n := N_of_ascii c in
      if unreserved c then String c (quote_plus s')
      else if (n =? 32)%N then String "+" (quote_plus s')
      else if (n <? 128)%N then percent n (quote_plus s')
      else percent (192 + n / 64) (percent (128 + n mod 64) (quote_plus s'))
  end.

(** [s.endswith("/")] *)
Fixpoint ends_with_slash (s : string) : bool :=
  match s with
  | EmptyString => false
  | String c EmptyString => Ascii.eqb c "/"
  | String _ s' => ends_with_slash s'
  end.

(** [os.path.join(a, b)] *)
Definition path_join (a b : string) : string :=
  if startswith b "/" then b
  else if (a =? "") || ends_with_slash a then a ++ b
  else a ++ "/" ++ b.

End Py.

(** ** bcrypt, as Flask-Bcrypt drives it

    A stored hash carries its salt; verification re-derives the digest
    from the candidate password under the stored salt and compares.  The
    key derivation itself is a parameter of the development. *)

(** The model follows bcrypt from release 5.0 on, which refuses a
    password of more than 72 bytes; earlier releases hashed the first 72
    bytes and ignored the rest. *)

Module Bcrypt.

Record pw_hash : Type := { salt : string; digest : string }.

Definition pw_hash_eqb (h1 h2 : pw_hash) : bool :=
  (salt h1 =? salt h2) && (digest h1 =? digest h2).

(** more than 72 bytes once encoded *)
Definition too_long (password : string) : bool :=
  (72 <? Py.utf8_length password)%nat.

Section Kdf.
Variable kdf : string -> string -> string.

(** [bcrypt.hashpw(password, salt)] *)
Definition hashpw (password : string) (s : string) : pw_hash :=
  {| salt := s; digest := kdf s password |}.

(** [bcrypt.generate_password_hash(password)] with a fresh salt: an
    empty password is refused by Flask-Bcrypt, one of more than 72 bytes
    by [bcrypt.hashpw] *)
Definition generate_password_hash (gensalt : string) (password : string)
  : result pw_hash :=
  if Py.str_truthy password then
    if too_long password then Raise ValueError
    else Ok (hashpw password gensalt)
  else Raise ValueError.

(** [bcrypt.check_password_hash(pw_hash, password)], which hashes the
    password with the salt of [pw_hash] and compares *)
Definition check_password_hash (h : pw_hash) (password : option string)
  : result bool :=
  match password with
  | None => Raise TypeError
  | Some p =>
      if too_long p then Raise ValueError
      else Ok (pw_hash_eqb (hashpw p (salt h)) h)
  end.
End Kdf.

End Bcrypt.

(** ** models.py *)

Module Models.

(** Clock readings are seconds since some origin. *)
Definition datetime : Type := nat.

Definition strftime (t : datetime) : string := Py.string_of_nat t.

Record User : Type := {
  u_id : nat;
  u_username : string;
  u_email : string;
  u_password_hash : Bcrypt.pw_hash;
  u_is_admin : bool;
  u_created_at : datetime
}.

(** An [Image] object has neither [id] nor [created_at] until it is
    flushed. *)
Record Image : Type := {
  i_id : option nat;
  i_user_id : nat;
  i_prompt : Py.value;
  i_model : Py.value;
  i_filename : string;
  i_s3_key : option string;
  i_thumbnail_key : option string;
  i_cloudfront_url : option string;
  i_size : Py.value;
  i_quality : Py.value;
  i_created_at : option datetime
}.

Record UserStats : Type := {
  s_id : nat;
  s_user_id : nat;
  s_total_generations : Z;
  s_last_generation : option datetime;
  s_total_images : Z
}.

Definition opt_str (o : option string) : Py.value :=
  match o with
  | Some s => Py.PStr s
  | None => Py.PNone
  end.

Definition opt_num (o : option nat) : Py.value :=
  match o with
  | Some n => Py.PNum (Z.of_nat n)
  | None => Py.PNone
  end.

(** [Image.to_dict], [now] being [datetime.utcnow()] *)
Definition to_dict (now : datetime) (self : Image) : Py.value :=
  let created_at_str :=
    match i_created_at self with
    | Some t => strftime t
    | None => strftime now
    end in
  Py.PDict
    [ ("id", opt_num (i_id self));
      ("prompt", i_prompt self);
      ("model", i_model self);
      ("filename", Py.PStr (i_filename self));
      ("url",
        if Py.opt_truthy (i_cloudfront_url self)
        then opt_str (i_cloudfront_url self)
        else Py.PStr ("/media/" ++ i_filename self));
      ("thumbnail",
        if Py.opt_truthy (i_thumbnail_key self)
        then opt_str (i_thumbnail_key self)
        else Py.PNone);
      ("size",
        if Py.truthy (i_size self) then i_size self
        else Py.PStr "1024x1024");
      ("quality",
        if Py.truthy (i_quality self) then i_quality self
        else Py.PStr "standard");
      ("created_at", Py.PStr created_at_str) ].

(** The three tables, rows in insertion order. *)
Record Database : Type := {
  users : list User;
  images : list Image;
  user_stats : list UserStats
}.

Definition empty_db : Database :=
  {| users := []; images := []; user_stats := [] |}.

(** AUTO_INCREMENT: one more than the largest key in use. *)
Definition fresh (ids : list nat) : nat := S (list_max ids).

Definition image_key (i : Image) : nat :=
  match i_id i with
  | Some n => n
  | None => 0
  end.

(** [User.query.filter_by(username=...).first()] *)
Definition user_by_username (name : option string) (db : Database)
  : option User :=
  match name with
  | Some n => find (fun u => u_username u =? n) (users db)
  | None => None
  end.

(** [User.query.filter_by(email=...).first()] *)
Definition user_by_email (mail : option string) (db : Database)
  : option User :=
  match mail with
  | Some m => find (fun u => u_email u =? m) (users db)
  | None => None
  end.

(** [User.query.get(id)] *)
Definition user_by_id (id : nat) (db : Database) : option User :=
  find (fun u => u_id u =? id)%nat (users db).

(** [UserStats.query.filter_by(user_id=...).first()] *)
Definition stats_by_user (uid : nat) (db : Database) : option UserStats :=
  find (fun s => s_user_id s =? uid)%nat (user_stats db).

(** [Image.query.filter_by(user_id=...)] *)
Definition images_of_user (uid : nat) (db : Database) : list Image :=
  filter (fun i => i_user_id i =? uid)%nat (images db).

(** INSERT of a user: the row receives its key, [is_admin] and
    [created_at] their defaults. *)
Definition insert_user (now : datetime) (name mail : string)
    (h : Bcrypt.pw_hash) (db : Database) : User * Database :=
  let u := {| u_id := fresh (map u_id (users db));
              u_username := name;
              u_email := mail;
              u_password_hash := h;
              u_is_admin := false;
              u_created_at := now |} in
  (u, {| users := users db ++ [u];
         images := images db;
         user_stats := user_stats db |}).

(** INSERT of a stats row; columns left out take their defaults. *)
Definition insert_stats (uid : nat) (gens imgs : Z)
    (last : option datetime) (db : Database) : Database :=
  let s := {| s_id := fresh (map s_id (user_stats db));
              s_user_id := uid;
              s_total_generations := gens;
              s_last_generation := last;
              s_total_images := imgs |} in
  {| users := users db;
     images := images db;
     user_stats := user_stats db ++ [s] |}.

(** INSERT of an image; [now] is [datetime.utcnow()] as read for the
    [created_at] default of this row *)
Definition insert_image (now : datetime) (img : Image) (db : Database)
  : Database :=
  let row := {| i_id := Some (fresh (map image_key (images db)));
                i_user_id := i_user_id img;
                i_prompt := i_prompt img;
                i_model := i_model img;
                i_filename := i_filename img;
                i_s3_key := i_s3_key img;
                i_thumbnail_key := i_thumbnail_key img;
                i_cloudfront_url := i_cloudfront_url img;
                i_size := i_size img;
                i_quality := i_quality img;
                i_created_at := Some now |} in
  {| users := users db;
     images := images db ++ [row];
     user_stats := user_stats db |}.

(** UPDATE of the stats row with primary key [s_id s] *)
Definition update_stats (s : UserStats) (db : Database) : Database :=
  {| users := users db;
     images := images db;
     user_stats :=
       map (fun r => if (s_id r =? s_id s)%nat then s else r)
         (user_stats db) |}.

End Models.

(** ** config.py and the module-level clients *)

Record Config : Type := {
  API_BASE_URL : string;
  API_KEY : option string;
  AWS_REGION : string;
  USE_S3 : bool;
  S3_BUCKET_NAME : option string;
  CLOUDFRONT_DOMAIN : string;
  SNS_TOPIC_ARN : string;
  CLOUDWATCH_NAMESPACE : string;
  MEDIA_FOLDER : string;
  (** [s3_client], [sns_client] and [cloudwatch.cloudwatch] are [None]
      when the client could not be created at start-up *)
  s3_client : bool;
  sns_client : bool;
  cloudwatch_client : bool
}.

(** ** The world a request runs in *)

Module Runtime.
Import Models.

Record MetricDatum : Type := {
  MetricName : string;
  Value : Z;
  Unit : string;
  Timestamp : datetime;
  Dimensions : list (string * Py.value)
}.

(** One call of [CloudWatchHelper.put_metric] and what it returned. *)
Record MetricCall : Type := {
  mc_datum : MetricDatum;
  mc_sent : bool
}.

Inductive message : Type :=
| WelcomeMessage (username : string)
| GenerationComplete (prompt_head : Py.value).

Record Notification : Type := {
  n_subject : string;
  n_message : message
}.

Record GenerationPayload : Type := {
  p_model : Py.value;
  p_prompt : Py.value;
  p_size : Py.value;
  p_quality : Py.value;
  p_n : nat
}.

(** What the outside answers during one request.  [None] from an HTTP
    call stands for a network error (the call raises); a [false] from
    [put_object], [commit_accepted], [put_metric_data], [publish] or
    [write_accepted] means that the call raises.

    [write_accepted filename data] tells whether the file can be opened
    in the media folder and written.  [cwd] is the working directory of
    the process, against which [open] resolves a relative path, and
    [root_path] is [app.root_path], against which [send_from_directory]
    resolves one; [files_elsewhere dir name] is the content of a folder
    that the application does not write.  [row_clock i] is
    [datetime.utcnow()] as read for the [created_at] default of the image
    row of entry [i], the rows of a request being inserted one after the
    other. *)
Record Env : Type := {
  requests_get : string -> option (nat * bytes);
  requests_post : GenerationPayload -> option (nat * option Py.value);
  put_object : string -> bytes -> bool;
  commit_accepted : Database -> bool;
  put_metric_data : MetricDatum -> bool;
  publish : Notification -> bool;
  utcnow : datetime;
  now_stamp : string;
  uuid_hex8 : nat -> string;
  gensalt : string;
  elapsed_ms : Z;
  write_accepted : string -> bytes -> bool;
  cwd : string;
  root_path : string;
  files_elsewhere : string -> string -> option bytes;
  row_clock : nat -> datetime
}.

Record World : Type := {
  committed : Database;     (** what the database holds *)
  session : Database;       (** what [db.session] shows the request *)
  login_id : option nat;    (** the user id flask-login keeps *)
  media : list (string * bytes);   (** files of the media folder *)
  bucket : list (string * bytes);  (** objects of the S3 bucket *)
  metric_calls : list MetricCall;
  api_calls : list GenerationPayload;  (** requests sent to the generation API *)
  notifications : list Notification;
  flashes : list (string * string)
}.

Definition set_committed (d : Database) (w : World) : World :=
  {| committed := d; session := session w; login_id := login_id w;
     media := media w; bucket := bucket w; metric_calls := metric_calls w;
     api_calls := api_calls w; notifications := notifications w; flashes := flashes w |}.

Definition set_session (d : Database) (w : World) : World :=
  {| committed := committed w; session := d; login_id := login_id w;
     media := media w; bucket := bucket w; metric_calls := metric_calls w;
     api_calls := api_calls w; notifications := notifications w; flashes := flashes w |}.

Definition set_login_id (o : option nat) (w : World) : World :=
  {| committed := committed w; session := session w; login_id := o;
     media := media w; bucket := bucket w; metric_calls := metric_calls w;
     api_calls := api_calls w; notifications := notifications w; flashes := flashes w |}.

Definition set_media (m : list (string * bytes)) (w : World) : World :=
  {| committed := committed w; session := session w; login_id := login_id w;
     media := m; bucket := bucket w; metric_calls := metric_calls w;
     api_calls := api_calls w; notifications := notifications w; flashes := flashes w |}.

Definition set_bucket (b : list (string * bytes)) (w : World) : World :=
  {| committed := committed w; session := session w; login_id := login_id w;
     media := media w; bucket := b; metric_calls := metric_calls w;
     api_calls := api_calls w; notifications := notifications w; flashes := flashes w |}.

Definition set_metric_calls (l : list MetricCall) (w : World) : World :=
  {| committed := committed w; session := session w; login_id := login_id w;
     media := media w; bucket := bucket w; metric_calls := l;
     api_calls := api_calls w; notifications := notifications w; flashes := flashes w |}.

Definition set_api_calls (l : list GenerationPayload) (w : World) : World :=
  {| committed := committed w; session := session w; login_id := login_id w;
     media := media w; bucket := bucket w; metric_calls := metric_calls w;
     api_calls := l; notifications := notifications w; flashes := flashes w |}.

Definition set_notifications (l : list Notification) (w : World) : World :=
  {| committed := committed w; session := session w; login_id := login_id w;
     media := media w; bucket := bucket w; metric_calls := metric_calls w;
     api_calls := api_calls w; notifications := l; flashes := flashes w |}.

Definition set_flashes (l : list (string * string)) (w : World) : World :=
  {| committed := committed w; session := session w; login_id := login_id w;
     media := media w; bucket := bucket w; metric_calls := metric_calls w;
     api_calls := api_calls w; notifications := notifications w; flashes := l |}.

(** A computation reads and updates the world and returns or raises. *)
Definition M (A : Type) : Type := World -> result A * World.

Definition ret {A} (a : A) : M A := fun w => (Ok a, w).

Definition raise {A} (e : exn) : M A := fun w => (Raise e, w).

Definition bind {A B} (m : M A) (k : A -> M B) : M B :=
  fun w =>
    match m w with
    | (Ok a, w') => k a w'
    | (Raise e, w') => (Raise e, w')
    end.

(** [try: m except Exception as e: h e]; what [m] did to the world before
    it raised stays done. *)
Definition try_except {A} (m : M A) (h : exn -> M A) : M A :=
  fun w =>
    match m w with
    | (Ok a, w') => (Ok a, w')
    | (Raise e, w') => h e w'
    end.

Definition lift {A} (r : result A) : M A := fun w => (r, w).

Definition gets {A} (f : World -> A) : M A := fun w => (Ok (f w), w).

Definition modify (f : World -> World) : M unit := fun w => (Ok tt, f w).

(** [db.session.commit()]: the database takes the session's state or
    refuses it. *)
Definition commit (env : Env) : M unit :=
  fun w =>
    if commit_accepted env (session w)
    then (Ok tt, set_committed (session w) w)
    else (Raise DatabaseError, w).

(** [db.session.rollback()] *)
Definition rollback : M unit :=
  modify (fun w => set_session (committed w) w).

(** [flash(message, category)] *)
Definition flash (msg category : string) : M unit :=
  modify (fun w => set_flashes (flashes w ++ [(msg, category)]) w).

End Runtime.

Declare Scope app_scope.
Delimit Scope app_scope with app.
Notation "x <- m ;; k" := (Runtime.bind m (fun x => k))
  (at level 61, m at next level, right associativity) : app_scope.
Notation "m ;;; k" := (Runtime.bind m (fun _ => k))
  (at level 61, right associativity) : app_scope.

(** ** cloudwatch_helper.py *)

Module Metrics.
Import Runtime.
Local Open Scope app_scope.

Section CloudWatchHelper.
Variable cfg : Config.
Variable env : Env.

(** The log keeps every call together with the value it returns:
    [False] without a client or when [put_metric_data] raises. *)
Definition put_metric (metric_name : string) (value : Z) (unit : string)
    (dimensions : list (string * Py.value)) : M bool :=
  fun w =>
    let metric_data :=
      {| MetricName := metric_name;
         Value := value;
         Unit := unit;
         Timestamp := utcnow env;
         Dimensions := dimensions |} in
    let returned (b : bool) :=
      (Ok b,
       set_metric_calls
         (metric_calls w ++ [{| mc_datum := metric_data; mc_sent := b |}])
         w) in
    if negb (cloudwatch_client cfg) then returned false
    else if put_metric_data env metric_data then returned true
    else returned false.

Definition increment_counter (metric_name : string)
    (dimensions : list (string * Py.value)) : M bool :=
  put_metric metric_name 1 "Count" dimensions.

Definition record_time (metric_name : string) (milliseconds : Z) : M bool :=
  put_metric metric_name milliseconds "Milliseconds" [].

Definition record_generation (success : bool) (model : Py.value) : M bool :=
  let dimensions :=
    [("Status", Py.PStr (if success then "Success" else "Failed"))] in
  let dimensions :=
    if Py.truthy model then dimensions ++ [("Model", model)]
    else dimensions in
  increment_counter "ImageGenerations" dimensions.

Definition record_user_registration : M bool :=
  increment_counter "UserRegistrations" [].

Definition record_login : M bool :=
  increment_counter "UserLogins" [].

Definition record_error (error_type : string) : M bool :=
  increment_counter "ApplicationErrors" [("ErrorType", Py.PStr error_type)].

End CloudWatchHelper.

End Metrics.

(** ** app.py *)

Module App.
Import Models Runtime.
Local Open Scope app_scope.

Inductive body : Type :=
| ErrorBody (error : string)
| ServerErrorBody (e : exn)
| GeneratedBody (images : list Py.value) (message : string)
| StatsBody (total_generations total_images : Z)
    (last_generation : option datetime).

Inductive response : Type :=
| Redirect (location : string)
| Render (template : string)
| Json (status : nat) (b : body)
| SendFile (content : bytes)
| NotFound.

Definition status_code (r : response) : nat :=
  match r with
  | Redirect _ => 302
  | Render _ => 200
  | Json status _ => status
  | SendFile _ => 200
  | NotFound => 404
  end.

Inductive http_method : Type := GET | POST.

Record FormRequest : Type := {
  r_method : http_method;
  r_form : list (string * string);
  r_next : option string
}.

(** What [upload_to_s3] hands back: a bare [None] or a pair. *)
Inductive upload_result : Type :=
| UNone
| UPair (s3_key cloudfront_url : option string).

(** [a, b = r] *)
Definition unpack (r : upload_result)
  : result (option string * option string) :=
  match r with
  | UNone => Raise TypeError
  | UPair a b => Ok (a, b)
  end.

Definition fmt_opt (o : option string) : string :=
  match o with
  | Some s => s
  | None => "None"
  end.

Section Handlers.
Variable bcrypt_kdf : string -> string -> string.
Variable cfg : Config.
Variable env : Env.

(** *** Helper functions *)

Definition load_user (user_id : nat) : M (option User) :=
  gets (fun w => user_by_id user_id (session w)).

Definition current_user : M (option User) :=
  o <- gets login_id ;;
  match o with
  | Some user_id => load_user user_id
  | None => ret None
  end.

(** [login_manager.login_message], flashed under the default category *)
Definition login_message : string := "Please log in to access this page.".

(** The address Flask-Login sends an anonymous requester to: the login
    view with the path of the request, quoted by [urlencode], in [next]. *)
Definition login_url (path : string) : string :=
  "/login?next=" ++ Py.quote_plus path.

(** [@login_required]; [path] is the path of [request.url] (the
    requests of the model carry no query string) *)
Definition login_required (path : string) (view : User -> M response)
  : M response :=
  u <- current_user ;;
  match u with
  | Some user => view user
  | None =>
      flash login_message "message" ;;;
      ret (Redirect (login_url path))
  end.

Definition get_cloudfront_url (s3_key : string) : string :=
  if Py.str_truthy (CLOUDFRONT_DOMAIN cfg)
     && Py.strip_truthy (CLOUDFRONT_DOMAIN cfg)
  then "https://" ++ CLOUDFRONT_DOMAIN cfg ++ "/" ++ s3_key
  else "https://" ++ fmt_opt (S3_BUCKET_NAME cfg) ++ ".s3."
       ++ AWS_REGION cfg ++ ".amazonaws.com/" ++ s3_key.

Definition s3_put_object (key : string) (data : bytes) : M unit :=
  if put_object env key data
  then modify (fun w => set_bucket ((key, data) :: bucket w) w)
  else raise ClientError.

Definition upload_to_s3 (file_data : bytes) (filename : string)
  : M upload_result :=
  if negb (s3_client cfg) || negb (Py.opt_truthy (S3_BUCKET_NAME cfg))
  then ret UNone
  else
    try_except
      (let s3_key := ("images/" ++ filename)%string in
       s3_put_object s3_key file_data ;;;
       let cloudfront_url := get_cloudfront_url s3_key in
       ret (UPair (Some s3_key) (Some cloudfront_url)))
      (fun _ =>
         Metrics.record_error cfg env "S3Upload" ;;;
         ret (UPair None None)).

(** [with open(filepath, 'wb') as f: f.write(data)], [filepath] being
    [MEDIA_FOLDER/filename]: [media] holds the files of that folder by
    name; a file written again replaces the older one, and a file that
    cannot be opened or written raises *)
Definition write_file (filename : string) (data : bytes) : M unit :=
  if write_accepted env filename data
  then modify (fun w => set_media ((filename, data) :: media w) w)
  else raise OSError.

Definition save_local (data : bytes) (filename : string)
  : M (option string * option string) :=
  write_file filename data ;;;
  ret (Some filename, Some ("/media/" ++ filename)%string).

(** the storage step shared by the two [save_*] functions: S3 first
    when configured, the media folder when the key comes back empty *)
Definition store (data : bytes) (filename : string)
  : M (option string * option string) :=
  if USE_S3 cfg then
    r <- upload_to_s3 data filename ;;
    p <- lift (unpack r) ;;
    let '(s3_key, cloudfront_url) := p in
    if Py.opt_truthy s3_key then ret (s3_key, cloudfront_url)
    else save_local data filename
  else save_local data filename.

(** [requests.get(image_url)]: status code and content; the call raises
    on a network error and on anything that is not a string *)
Definition http_get (image_url : Py.value) : M (nat * bytes) :=
  match image_url with
  | Py.PStr url =>
      match requests_get env url with
      | Some response => ret response
      | None => raise RequestException
      end
  | _ => raise RequestException
  end.

Definition save_image_from_url (image_url : Py.value) (filename : string)
  : M (option string * option string) :=
  try_except
    (response <- http_get image_url ;;
     let '(status, content) := response in
     if (status =? 200)%nat then store content filename
     else ret (None, None))
    (fun _ =>
       Metrics.record_error cfg env "ImageSave" ;;;
       ret (None, None)).

(** lines 107-110 of [save_base64_image]: the bytes of the payload *)
Definition decode_payload (base64_data : Py.value) : result bytes :=
  match base64_data with
  | Py.PStr s =>
      match
        (if Py.startswith s "data:image"
         then match nth_error (Py.split ","%char s) 1 with
              | Some part => Ok part
              | None => Raise IndexError
              end
         else Ok s)
      with
      | Ok s' => Base64.b64decode s'
      | Raise e => Raise e
      end
  | _ => Raise AttributeError
  end.

Definition save_base64_image (base64_data : Py.value) (filename : string)
  : M (option string * option string) :=
  try_except
    (image_data <- lift (decode_payload base64_data) ;;
     store image_data filename)
    (fun _ =>
       Metrics.record_error cfg env "Base64Save" ;;;
       ret (None, None)).

Definition generate_image (prompt model_id size quality : Py.value)
  : M Py.value :=
  try_except
    (let payload :=
       {| p_model := model_id; p_prompt := prompt; p_size := size;
          p_quality := quality; p_n := 1 |} in
     modify (fun w => set_api_calls (api_calls w ++ [payload]) w) ;;;
     match requests_post env payload with
     | None => raise RequestException
     | Some (status, json) =>
         Metrics.record_time cfg env "APIResponseTime" (elapsed_ms env) ;;;
         if (status =? 200)%nat then
           match json with
           | Some v => ret v
           | None => raise ValueError
           end
         else
           Metrics.record_error cfg env "APIGeneration" ;;;
           ret Py.PNone
     end)
    (fun _ =>
       Metrics.record_error cfg env "APIGeneration" ;;;
       ret Py.PNone).

Definition send_sns_notification (email : string) (subject : string)
    (msg : message) : M bool :=
  if negb (sns_client cfg) || negb (Py.str_truthy (SNS_TOPIC_ARN cfg))
  then ret false
  else
    let n := {| n_subject := subject; n_message := msg |} in
    if publish env n
    then modify (fun w => set_notifications (notifications w ++ [n]) w) ;;;
         ret true
    else ret false.

(** *** Session helpers *)

Definition the (o : option string) : string :=
  match o with
  | Some s => s
  | None => ""
  end.

(** [db.session.add(User(...))]; the answer is the row as flushed *)
Definition add_user (username email : string) (h : Bcrypt.pw_hash)
  : M User :=
  fun w =>
    let '(u, db) := insert_user (utcnow env) username email h (session w) in
    (Ok u, set_session db w).

(** [db.session.add(UserStats(...))] *)
Definition add_stats (user_id : nat) (gens imgs : Z)
    (last : option datetime) : M unit :=
  modify (fun w => set_session (insert_stats user_id gens imgs last (session w)) w).

(** [db.session.add(Image(...))] for entry [i]; the row takes its
    [created_at] from the clock when it is inserted *)
Definition add_image (i : nat) (img : Image) : M unit :=
  modify (fun w =>
            set_session (insert_image (row_clock env i) img (session w)) w).

(** [login_user(user)] *)
Definition login_user (user : User) : M unit :=
  modify (set_login_id (Some (u_id user))).

(** [logout_user()] *)
Definition logout_user : M unit := modify (set_login_id None).

(** *** Routes *)

Definition register (request : FormRequest) : M response :=
  u <- current_user ;;
  match u with
  | Some _ => ret (Redirect "/dashboard")
  | None =>
      match r_method request with
      | GET => ret (Render "register.html")
      | POST =>
          try_except
            (let username := Py.lookup "username" (r_form request) in
             let email := Py.lookup "email" (r_form request) in
             let password := Py.lookup "password" (r_form request) in
             if negb (Py.opt_truthy username)
                || negb (Py.opt_truthy email)
                || negb (Py.opt_truthy password)
             then
               flash "All fields are required" "error" ;;;
               ret (Render "register.html")
             else
               by_name <- gets (fun w => user_by_username username (session w)) ;;
               match by_name with
               | Some _ =>
                   flash "Username already exists" "error" ;;;
                   ret (Render "register.html")
               | None =>
                   by_mail <- gets (fun w => user_by_email email (session w)) ;;
                   match by_mail with
                   | Some _ =>
                       flash "Email already registered" "error" ;;;
                       ret (Render "register.html")
                   | None =>
                       hashed_password <-
                         lift (Bcrypt.generate_password_hash bcrypt_kdf
                                 (gensalt env) (the password)) ;;
                       new_user <-
                         add_user (the username) (the email) hashed_password ;;
                       commit env ;;;
                       add_stats (u_id new_user) 0 0 None ;;;
                       commit env ;;;
                       Metrics.record_user_registration cfg env ;;;
                       send_sns_notification (the email)
                         "Welcome to AI Image Generator"
                         (WelcomeMessage (the username)) ;;;
                       flash "Registration successful! Please log in."
                         "success" ;;;
                       ret (Redirect "/login")
                   end
               end)
            (fun _ =>
               rollback ;;;
               Metrics.record_error cfg env "Registration" ;;;
               flash "An error occurred. Please try again." "error" ;;;
               ret (Render "register.html"))
      end
  end.

Definition login (request : FormRequest) : M response :=
  u <- current_user ;;
  match u with
  | Some _ => ret (Redirect "/dashboard")
  | None =>
      match r_method request with
      | GET => ret (Render "login.html")
      | POST =>
          let username := Py.lookup "username" (r_form request) in
          let password := Py.lookup "password" (r_form request) in
          user <- gets (fun w => user_by_username username (session w)) ;;
          match user with
          | Some user =>
              ok <- lift (Bcrypt.check_password_hash bcrypt_kdf
                            (u_password_hash user) password) ;;
              if ok then
                login_user user ;;;
                Metrics.record_login cfg env ;;;
                flash "Login successful!" "success" ;;;
                ret (Redirect (if Py.opt_truthy (r_next request)
                               then the (r_next request)
                               else "/dashboard"))
              else
                flash "Invalid username or password" "error" ;;;
                ret (Render "login.html")
          | None =>
              flash "Invalid username or password" "error" ;;;
              ret (Render "login.html")
          end
      end
  end.

Definition logout : M response :=
  login_required "/logout"
    (fun _ =>
       logout_user ;;;
       flash "You have been logged out." "info" ;;;
       ret (Redirect "/login")).

(** [prompt[:100]] *)
Definition head100 (prompt : Py.value) : result Py.value :=
  match prompt with
  | Py.PStr s => Ok (Py.PStr (substring 0 100 s))
  | Py.PList l => Ok (Py.PList (firstn 100 l))
  | _ => Raise TypeError
  end.

(** the body of the [for] loop of [api_generate], entry by entry;
    [saved_images] is the list built so far *)
Fixpoint save_images (user : User) (prompt model_id size quality : Py.value)
    (i : nat) (entries : list Py.value) (saved_images : list Py.value)
  : M (list Py.value) :=
  match entries with
  | [] => ret saved_images
  | image_data :: rest =>
      let filename :=
        (now_stamp env ++ "_" ++ uuid_hex8 env i ++ "_"
         ++ Py.string_of_nat (i + 1) ++ ".png")%string in
      has_url <- lift (Py.contains "url" image_data) ;;
      saved <-
        (if has_url then
           url <- lift (Py.getitem image_data "url") ;;
           r <- save_image_from_url url filename ;;
           ret (Some r)
         else
           has_b64 <- lift (Py.contains "b64_json" image_data) ;;
           if has_b64 then
             b64 <- lift (Py.getitem image_data "b64_json") ;;
             r <- save_base64_image b64 filename ;;
             ret (Some r)
           else ret None) ;;
      match saved with
      | None => save_images user prompt model_id size quality (S i) rest saved_images
      | Some (s3_key, image_url) =>
          if Py.opt_truthy image_url then
            let new_image :=
              {| i_id := None;
                 i_user_id := u_id user;
                 i_prompt := prompt;
                 i_model := model_id;
                 i_filename := filename;
                 i_s3_key := if USE_S3 cfg then s3_key else None;
                 i_thumbnail_key := None;
                 i_cloudfront_url := if USE_S3 cfg then image_url else None;
                 i_size := size;
                 i_quality := quality;
                 i_created_at := None |} in
            add_image i new_image ;;;
            save_images user prompt model_id size quality (S i) rest
              (saved_images ++ [to_dict (utcnow env) new_image])
          else
            save_images user prompt model_id size quality (S i) rest saved_images
      end
  end.

(** lines 405-420: update or create the user's stats *)
Definition record_stats (user : User) (image_count : nat) : M unit :=
  stats <- gets (fun w => stats_by_user (u_id user) (session w)) ;;
  match stats with
  | Some stats =>
      modify (fun w =>
        set_session
          (update_stats
             {| s_id := s_id stats;
                s_user_id := s_user_id stats;
                s_total_generations := (s_total_generations stats + 1)%Z;
                s_last_generation := Some (utcnow env);
                s_total_images :=
                  (s_total_images stats + Z.of_nat image_count)%Z |}
             (session w)) w)
  | None =>
      add_stats (u_id user) 1 (Z.of_nat image_count) (Some (utcnow env))
  end.

Definition api_generate_view (json : option Py.value) (user : User)
  : M response :=
  try_except
    (data <- lift (match json with
                   | Some v => Ok v
                   | None => Raise BadRequest
                   end) ;;
     prompt <- lift (Py.get data "prompt" (Py.PStr "")) ;;
     model_id <- lift (Py.get data "model" (Py.PStr "img3")) ;;
     size <- lift (Py.get data "size" (Py.PStr "1024x1024")) ;;
     quality <- lift (Py.get data "quality" (Py.PStr "standard")) ;;
     if negb (Py.truthy prompt) then
       ret (Json 400 (ErrorBody "Prompt is required"))
     else
       result <- generate_image prompt model_id size quality ;;
       if negb (Py.truthy result) then
         Metrics.record_generation cfg env false model_id ;;;
         ret (Json 500 (ErrorBody "Failed to generate image"))
       else
         data_field <- lift (Py.get result "data" (Py.PList [])) ;;
         entries <- lift (Py.iterate data_field) ;;
         saved_images <-
           save_images user prompt model_id size quality 0 entries [] ;;
         record_stats user (length saved_images) ;;;
         commit env ;;;
         Metrics.record_generation cfg env true model_id ;;;
         try_except
           (head <- lift (head100 prompt) ;;
            send_sns_notification (u_email user)
              "Image Generation Complete" (GenerationComplete head) ;;;
            ret tt)
           (fun _ => ret tt) ;;;
         ret (Json 200
                (GeneratedBody saved_images
                   ("Generated " ++ Py.string_of_nat (length saved_images)
                    ++ " image(s) successfully!")%string)))
    (fun e =>
       rollback ;;;
       Metrics.record_error cfg env "Generation" ;;;
       ret (Json 500 (ServerErrorBody e))).

Definition api_generate (json : option Py.value) : M response :=
  login_required "/api/generate" (api_generate_view json).

Definition api_user_stats : M response :=
  login_required "/api/user/stats"
    (fun user =>
       stats <- gets (fun w => stats_by_user (u_id user) (session w)) ;;
       match stats with
       | Some stats =>
           ret (Json 200
                  (StatsBody (s_total_generations stats)
                     (s_total_images stats) (s_last_generation stats)))
       | None => ret (Json 200 (StatsBody 0 0 None))
       end).

(** the folder [save_*] write to: [MEDIA_FOLDER] as [open] resolves it *)
Definition written_folder : string :=
  Py.path_join (cwd env) (MEDIA_FOLDER cfg).

(** the folder [send_from_directory] reads: [MEDIA_FOLDER] under
    [app.root_path] *)
Definition served_folder : string :=
  Py.path_join (root_path env) (MEDIA_FOLDER cfg).

(** the file [send_from_directory(Config.MEDIA_FOLDER, filename)] finds *)
Definition served_file (filename : string) (w : World) : option bytes :=
  if served_folder =? written_folder then Py.lookup filename (media w)
  else files_elsewhere env served_folder filename.

(** [url] is the path of [request.url], of which the router has decoded
    the last segment to [filename] *)
Definition serve_media (url filename : string) : M response :=
  login_required url
    (fun _ =>
       file <- gets (served_file filename) ;;
       match file with
       | Some content => ret (SendFile content)
       | None => ret NotFound
       end).

End Handlers.

(** A request starts with a session that shows the database and ends
    with the session discarded. *)
Definition handle {A} (view : M A) (w : World) : result A * World :=
  let '(r, w') := view (set_session (committed w) w) in
  (r, set_session (committed w') w').

End App.

(** ** Vocabulary of the properties *)

Module Spec.
Import Models Runtime.

(** the requester is signed in as [user] *)
Definition logged_in (user : User) (w : World) : Prop :=
  login_id w = Some (u_id user)
  /\ user_by_id (u_id user) (committed w) = Some user.

(** nobody is signed in *)
Definition anonymous (w : World) : Prop := login_id w = None.

(** the database part of the world is the same in [w'] as in [w] *)
Definition same_db (w w' : World) : Prop :=
  committed w' = committed w
  /\ session w' = session w
  /\ login_id w' = login_id w.

(** a computation that leaves the database part alone *)
Definition quiet {A} (m : M A) : Prop :=
  forall w, same_db w (snd (m w)).

(** a computation that never raises *)
Definition safe {A} (m : M A) : Prop :=
  forall w, exists a, fst (m w) = Ok a.

(** the counters of a user, zero when there is no row
    (what [/api/user/stats] shows) *)
Definition generations_of (uid : nat) (db : Database) : Z :=
  match stats_by_user uid db with
  | Some s => s_total_generations s
  | None => 0
  end.

Definition images_counted (uid : nat) (db : Database) : Z :=
  match stats_by_user uid db with
  | Some s => s_total_images s
  | None => 0
  end.

Definition last_generation_of (uid : nat) (db : Database)
  : option datetime :=
  match stats_by_user uid db with
  | Some s => s_last_generation s
  | None => None
  end.

(** the database after the INSERT of a user by [register] *)
Definition with_user (kdf : string -> string -> string) (env : Env)
    (username email password : string) (db : Database) : Database :=
  snd (insert_user (utcnow env) username email
         (Bcrypt.hashpw kdf password (gensalt env)) db).

(** the row of that user *)
Definition new_user (kdf : string -> string -> string) (env : Env)
    (username email password : string) (db : Database) : User :=
  fst (insert_user (utcnow env) username email
         (Bcrypt.hashpw kdf password (gensalt env)) db).

(** the database after the INSERT of the zero-valued stats row *)
Definition with_stats (user_id : nat) (db : Database) : Database :=
  insert_stats user_id 0 0 None db.

(** a POST of the registration form with the three fields filled in *)
Definition registration (request : App.FormRequest)
    (username email password : string) : Prop :=
  App.r_method request = App.POST
  /\ Py.lookup "username" (App.r_form request) = Some username
  /\ Py.lookup "email" (App.r_form request) = Some email
  /\ Py.lookup "password" (App.r_form request) = Some password
  /\ username <> "" /\ email <> "" /\ password <> "".

(** a POST of the login form *)
Definition credentials (request : App.FormRequest)
    (username password : string) : Prop :=
  App.r_method request = App.POST
  /\ Py.lookup "username" (App.r_form request) = Some username
  /\ Py.lookup "password" (App.r_form request) = Some password.

(** a login attempt turned down: the form comes back with the error
    notice, nobody is signed in, nothing is written *)
Definition rejected (w : World) (out : result App.response * World)
  : Prop :=
  fst out = Ok (App.Render "login.html")
  /\ login_id (snd out) = None
  /\ committed (snd out) = committed w
  /\ flashes (snd out)
     = flashes w ++ [("Invalid username or password", "error")].

(** a registration turned down with the notice [msg]: the form comes
    back and the database is what it was *)
Definition refused (msg : string) (w : World)
    (out : result App.response * World) : Prop :=
  fst out = Ok (App.Render "register.html")
  /\ flashes (snd out) = flashes w ++ [(msg, "error")]
  /\ committed (snd out) = committed w
  /\ users (committed (snd out)) = users (committed w)
  /\ user_stats (committed (snd out)) = user_stats (committed w).

Definition zero_stats (s : UserStats) : Prop :=
  s_total_generations s = 0%Z
  /\ s_total_images s = 0%Z
  /\ s_last_generation s = None.

(** number of user rows with a given name *)
Definition count_username (name : string) (db : Database) : nat :=
  length (filter (fun u => u_username u =? name) (users db)).

Definition field (key : string) (default : Py.value)
    (fields : list (string * Py.value)) : Py.value :=
  match Py.lookup key fields with
  | Some v => v
  | None => default
  end.

(** the request [api_generate] sends for a JSON object body *)
Definition payload_of (fields : list (string * Py.value))
  : GenerationPayload :=
  {| p_model := field "model" (Py.PStr "img3") fields;
     p_prompt := field "prompt" (Py.PStr "") fields;
     p_size := field "size" (Py.PStr "1024x1024") fields;
     p_quality := field "quality" (Py.PStr "standard") fields;
     p_n := 1 |}.

(** the generation API call fails: network error or a status other
    than 200 *)
Definition generation_fails (env : Env) (p : GenerationPayload) : Prop :=
  match requests_post env p with
  | None => True
  | Some (status, _) => status <> 200
  end.

(** what [generate_image] returns *)
Definition gateway_answer (env : Env) (p : GenerationPayload) : Py.value :=
  match requests_post env p with
  | Some (status, Some v) => if (status =? 200)%nat then v else Py.PNone
  | _ => Py.PNone
  end.

Definition is_dict (v : Py.value) : bool :=
  match v with
  | Py.PDict _ => true
  | _ => false
  end.

(** the documented shape of a generation result: an object whose
    [data], when present, is a list of objects *)
Definition well_shaped (v : Py.value) : bool :=
  match v with
  | Py.PDict kv =>
      match Py.lookup "data" kv with
      | None => true
      | Some (Py.PList l) => forallb is_dict l
      | Some _ => false
      end
  | _ => false
  end.

(** the rows an image loop may add: images of [user], nothing else *)
Definition grown (user : User) (new : list Image) (w w' : World) : Prop :=
  committed w' = committed w
  /\ login_id w' = login_id w
  /\ users (session w') = users (session w)
  /\ user_stats (session w') = user_stats (session w)
  /\ images (session w') = images (session w) ++ new
  /\ Forall (fun im => i_user_id im = u_id user) new.

(** the rows a generation request of [user] asks the database to commit:
    the users as [before], the images of [before] followed by images of
    [user] *)
Definition request_rows (user : User) (before db : Database) : Prop :=
  users db = users before
  /\ exists new,
       images db = images before ++ new
       /\ Forall (fun im => i_user_id im = u_id user) new.

Definition images_in (r : App.response) : nat :=
  match r with
  | App.Json _ (App.GeneratedBody images _) => length images
  | _ => 0
  end.

(** the outcome of a [save_*] call that kept the image in the media
    folder: the local name and URL are returned, the file holds the
    bytes, and /media/<filename> serves them to the signed-in requester,
    whatever the text of the request *)
Definition kept_locally (cfg : Config) (env : Env) (filename : string)
    (data : bytes)
    (out : result (option string * option string) * World) : Prop :=
  fst out = Ok (Some filename, Some ("/media/" ++ filename)%string)
  /\ Py.lookup filename (media (snd out)) = Some data
  /\ forall url,
       fst (App.handle (App.serve_media cfg env url filename) (snd out))
       = Ok (App.SendFile data).

(** the outcome of a [save_*] call that dropped the image *)
Definition dropped (w : World)
    (out : result (option string * option string) * World) : Prop :=
  fst out = Ok (None, None)
  /\ media (snd out) = media w
  /\ bucket (snd out) = bucket w.

(** the log entry of [record_error(error_type)] *)
Definition error_call (env : Env) (error_type : string) (sent : bool)
  : MetricCall :=
  {| mc_datum :=
       {| MetricName := "ApplicationErrors"; Value := 1; Unit := "Count";
          Timestamp := utcnow env;
          Dimensions := [("ErrorType", Py.PStr error_type)] |};
     mc_sent := sent |}.

Definition images_reported (r : result App.response) : nat :=
  match r with
  | Ok x => images_in x
  | Raise _ => 0
  end.

(** requests to /api/generate served one after the other, each with
    the answers of its own environment *)
Fixpoint serve_all (cfg : Config) (reqs : list (Env * option Py.value))
    (w : World) : list (result App.response) * World :=
  match reqs with
  | [] => ([], w)
  | (env, json) :: rest =>
      let '(r, w1) := App.handle (App.api_generate cfg env json) w in
      let '(rs, w2) := serve_all cfg rest w1 in
      (r :: rs, w2)
  end.

Definition status_of (r : result App.response) : nat :=
  match r with
  | Ok x => App.status_code x
  | Raise _ => 500
  end.

(** the metric [record_generation(success=False, model)] sends *)
Definition generation_failed_datum (env : Env) (model : Py.value)
  : MetricDatum :=
  {| MetricName := "ImageGenerations";
     Value := 1;
     Unit := "Count";
     Timestamp := utcnow env;
     Dimensions :=
       if Py.truthy model
       then [("Status", Py.PStr "Failed"); ("Model", model)]
       else [("Status", Py.PStr "Failed")] |}.

End Spec.

(** ** Sample data

    A small configuration, a few environments and the worlds they lead
    to, on which the properties below are also evaluated. *)

Module Sample.
Import Models Runtime.

(** a stand-in for the key derivation: salt and password side by side *)
Definition kdf (salt password : string) : string := salt ++ password.

Definition cfg : Config :=
  {| API_BASE_URL := "https://api.infip.pro";
     API_KEY := Some "secret";
     AWS_REGION := "us-east-1";
     USE_S3 := true;
     S3_BUCKET_NAME := Some "generated-images";
     CLOUDFRONT_DOMAIN := "";
     SNS_TOPIC_ARN := "";
     CLOUDWATCH_NAMESPACE := "ImageGenerator/Metrics";
     MEDIA_FOLDER := "media";
     s3_client := true;
     sns_client := true;
     cloudwatch_client := true |}.

(** the same, the S3 client having failed to start *)
Definition cfg_without_client : Config :=
  {| API_BASE_URL := API_BASE_URL cfg;
     API_KEY := API_KEY cfg;
     AWS_REGION := AWS_REGION cfg;
     USE_S3 := true;
     S3_BUCKET_NAME := S3_BUCKET_NAME cfg;
     CLOUDFRONT_DOMAIN := CLOUDFRONT_DOMAIN cfg;
     SNS_TOPIC_ARN := SNS_TOPIC_ARN cfg;
     CLOUDWATCH_NAMESPACE := CLOUDWATCH_NAMESPACE cfg;
     MEDIA_FOLDER := MEDIA_FOLDER cfg;
     s3_client := false;
     sns_client := true;
     cloudwatch_client := true |}.

Definition png : bytes := [x89; x50; x4e; x47].

(** the gateway answers with one inline image *)
Definition one_image : Py.value :=
  Py.PDict
    [("data",
      Py.PList [Py.PDict [("b64_json", Py.PStr (Base64.b64encode png))]])].

(** everything outside works *)
Definition env : Env :=
  {| requests_get := fun _ => Some (200, png);
     requests_post := fun _ => Some (200, Some one_image);
     put_object := fun _ _ => true;
     commit_accepted := fun _ => true;
     put_metric_data := fun _ => true;
     publish := fun _ => true;
     utcnow := 7;
     now_stamp := "20240101_120000";
     uuid_hex8 := fun _ => "0a1b2c3d";
     gensalt := "salt";
     elapsed_ms := 120;
     write_accepted := fun _ _ => true;
     cwd := "/srv/app";
     root_path := "/srv/app";
     files_elsewhere := fun _ _ => None;
     row_clock := fun i => 7 + i |}.

(** the generation API answers 503 *)
Definition env_gateway_down : Env :=
  {| requests_get := requests_get env;
     requests_post := fun _ => Some (503, None);
     put_object := put_object env;
     commit_accepted := commit_accepted env;
     put_metric_data := put_metric_data env;
     publish := publish env;
     utcnow := utcnow env;
     now_stamp := now_stamp env;
     uuid_hex8 := uuid_hex8 env;
     gensalt := gensalt env;
     elapsed_ms := elapsed_ms env;
     write_accepted := write_accepted env;
     cwd := cwd env;
     root_path := root_path env;
     files_elsewhere := files_elsewhere env;
     row_clock := row_clock env |}.

(** every upload to S3 fails *)
Definition env_s3_down : Env :=
  {| requests_get := requests_get env;
     requests_post := requests_post env;
     put_object := fun _ _ => false;
     commit_accepted := commit_accepted env;
     put_metric_data := put_metric_data env;
     publish := publish env;
     utcnow := utcnow env;
     now_stamp := now_stamp env;
     uuid_hex8 := uuid_hex8 env;
     gensalt := gensalt env;
     elapsed_ms := elapsed_ms env;
     write_accepted := write_accepted env;
     cwd := cwd env;
     root_path := root_path env;
     files_elsewhere := files_elsewhere env;
     row_clock := row_clock env |}.

(** the database refuses any transaction that holds a stats row *)
Definition env_stats_refused : Env :=
  {| requests_get := requests_get env;
     requests_post := requests_post env;
     put_object := put_object env;
     commit_accepted :=
       fun db => match user_stats db with [] => true | _ => false end;
     put_metric_data := put_metric_data env;
     publish := publish env;
     utcnow := utcnow env;
     now_stamp := now_stamp env;
     uuid_hex8 := uuid_hex8 env;
     gensalt := gensalt env;
     elapsed_ms := elapsed_ms env;
     write_accepted := write_accepted env;
     cwd := cwd env;
     root_path := root_path env;
     files_elsewhere := files_elsewhere env;
     row_clock := row_clock env |}.

(** an empty installation, nobody signed in *)
Definition w0 : World :=
  {| committed := empty_db; session := empty_db; login_id := None;
     media := []; bucket := []; metric_calls := []; api_calls := [];
     notifications := []; flashes := [] |}.

Definition register_form : App.FormRequest :=
  {| App.r_method := App.POST;
     App.r_form := [("username", "alice"); ("email", "alice@x.com");
                    ("password", "pw123")];
     App.r_next := None |}.

Definition login_form : App.FormRequest :=
  {| App.r_method := App.POST;
     App.r_form := [("username", "alice"); ("password", "pw123")];
     App.r_next := None |}.


Definition alice : User :=
  Spec.new_user kdf env "alice" "alice@x.com" "pw123" empty_db.

(** alice has registered *)
Definition w_registered : World :=
  snd (App.handle (App.register kdf cfg env register_form) w0).

(** and signed in *)
Definition w_signed_in : World :=
  snd (App.handle (App.login kdf cfg env login_form) w_registered).

Definition cat : list (string * Py.value) := [("prompt", Py.PStr "a cat")].

Definition no_prompt : list (string * Py.value) :=
  [("model", Py.PStr "img3")].

(** the registration that the database lets down at the second commit *)
Definition half_registered : result App.response * World :=
  App.handle (App.register kdf cfg env_stats_refused register_form) w0.

End Sample.

(** ** app.py: the remaining routes and the CLI command *)

Module Pages.
Import Models Runtime.
Local Open Scope app_scope.

(** what a template is rendered with *)
Inductive context : Type :=
| DashboardContext (stats : option UserStats) (recent_images : list Image)
| GalleryContext (images : list Image) (storage_info : Py.value)
(** [images=[], storage_info={}, error=str(e)] *)
| GalleryFailed (error : exn)
| AdminContext (total_users total_images : nat) (total_generations : Z)
    (recent_users : list User) (recent_images : list Image).

Inductive view : Type :=
| Response (r : App.response)
| Template (name : string) (ctx : context)
| Jsonify (v : Py.value).

(** [ORDER BY key DESC]: rows with the same key stay in table order *)
Fixpoint insert_desc {A} (key : A -> nat) (x : A) (l : list A) : list A :=
  match l with
  | [] => [x]
  | y :: l' =>
      if (key y <=? key x)%nat then x :: l else y :: insert_desc key x l'
  end.

Definition order_by_desc {A} (key : A -> nat) (l : list A) : list A :=
  fold_right (insert_desc key) [] l.

(** the sort key of [Image.created_at]; NULL sorts below every date *)
Definition image_created_at (i : Image) : nat :=
  match i_created_at i with
  | Some t => S t
  | None => 0
  end.

Definition opt_value (b : bool) (o : option string) : Py.value :=
  if b then opt_str o else Py.PNone.

(** [login_required] on a route that renders a template *)
Definition login_required (path : string) (route : User -> M view) : M view :=
  u <- App.current_user ;;
  match u with
  | Some user => route user
  | None =>
      flash App.login_message "message" ;;;
      ret (Response (App.Redirect (App.login_url path)))
  end.

Definition index : M view :=
  u <- App.current_user ;;
  match u with
  | Some _ => ret (Response (App.Redirect "/generate"))
  | None => ret (Response (App.Redirect "/login"))
  end.

Definition dashboard : M view :=
  login_required "/dashboard"
    (fun user =>
       stats <- gets (fun w => stats_by_user (u_id user) (session w)) ;;
       recent_images <-
         gets (fun w =>
                 firstn 6
                   (order_by_desc image_created_at
                      (images_of_user (u_id user) (session w)))) ;;
       ret (Template "dashboard.html" (DashboardContext stats recent_images))).

Section Routes.
Variable bcrypt_kdf : string -> string -> string.
Variable cfg : Config.
Variable env : Env.
(** the answer to [GET /v1/models]: [None] for a network error, else the
    status and the JSON body ([None] when the body is not JSON) *)
Variable models_answer : option (nat * option Py.value).

Definition gallery : M view :=
  login_required "/gallery"
    (fun user =>
       try_except
         (images <-
            gets (fun w =>
                    order_by_desc image_created_at
                      (images_of_user (u_id user) (session w))) ;;
          let storage_info :=
            Py.PDict
              [("storage_type",
                Py.PStr (if USE_S3 cfg then "AWS S3 + CloudFront"
                         else "Local Storage"));
               ("bucket_name", opt_value (USE_S3 cfg) (S3_BUCKET_NAME cfg));
               ("total_images", Py.PNum (Z.of_nat (length images)))] in
          ret (Template "gallery.html" (GalleryContext images storage_info)))
         (fun e =>
            Metrics.record_error cfg env "Gallery" ;;;
            ret (Template "gallery.html" (GalleryFailed e)))).

Definition admin : M view :=
  login_required "/admin"
    (fun user =>
       if negb (u_is_admin user) then
         flash "Access denied. Admin privileges required." "error" ;;;
         ret (Response (App.Redirect "/dashboard"))
       else
         total_users <- gets (fun w => length (users (session w))) ;;
         total_images <- gets (fun w => length (images (session w))) ;;
         total_generations <-
           gets (fun w =>
                   fold_right Z.add 0%Z
                     (map s_total_generations (user_stats (session w)))) ;;
         recent_users <-
           gets (fun w => firstn 10 (order_by_desc u_created_at
                                       (users (session w)))) ;;
         recent_images <-
           gets (fun w => firstn 10 (order_by_desc image_created_at
                                       (images (session w)))) ;;
         ret (Template "admin.html"
                (AdminContext total_users total_images total_generations
                   recent_users recent_images))).

Definition no_models : Py.value := Py.PDict [("data", Py.PList [])].

Definition get_available_models : M Py.value :=
  try_except
    (match models_answer with
     | None => raise RequestException
     | Some (status, json) =>
         if (status =? 200)%nat then
           match json with
           | Some v => ret v
           | None => raise ValueError
           end
         else ret no_models
     end)
    (fun _ =>
       Metrics.record_error cfg env "APIModels" ;;;
       ret no_models).

Definition api_models : M view :=
  login_required "/api/models"
    (fun _ =>
       models <- get_available_models ;;
       ret (Jsonify models)).

Definition api_storage_info : M view :=
  login_required "/api/storage-info"
    (fun _ =>
       ret (Jsonify
              (Py.PDict
                 [("storage_type",
                   Py.PStr (if USE_S3 cfg then "AWS S3 + CloudFront"
                            else "Local Storage"));
                  ("bucket_name", opt_value (USE_S3 cfg) (S3_BUCKET_NAME cfg));
                  ("cloudfront_domain",
                   if Py.str_truthy (CLOUDFRONT_DOMAIN cfg)
                   then Py.PStr (CLOUDFRONT_DOMAIN cfg) else Py.PNone);
                  ("region",
                   if USE_S3 cfg then Py.PStr (AWS_REGION cfg) else Py.PNone);
                  ("s3_configured", Py.PBool (s3_client cfg));
                  ("use_s3", Py.PBool (USE_S3 cfg))]))).

(** INSERT of a user with [is_admin=True] *)
Definition insert_admin (now : datetime) (name mail : string)
    (h : Bcrypt.pw_hash) (db : Database) : User * Database :=
  let u := {| u_id := fresh (map u_id (users db));
              u_username := name;
              u_email := mail;
              u_password_hash := h;
              u_is_admin := true;
              u_created_at := now |} in
  (u, {| users := users db ++ [u];
         images := images db;
         user_stats := user_stats db |}).

(** the [create-admin] command, the three answers to its prompts given;
    nothing catches what it raises *)
Definition create_admin (username email password : string) : M unit :=
  hashed_password <-
    lift (Bcrypt.generate_password_hash bcrypt_kdf (gensalt env) password) ;;
  admin_user <-
    (fun w =>
       let '(u, db) :=
         insert_admin (utcnow env) username email hashed_password (session w) in
       (Ok u, set_session db w)) ;;
  commit env ;;;
  App.add_stats (u_id admin_user) 0 0 None ;;;
  commit env ;;;
  ret tt.

End Routes.

End Pages.

(** ** lambda_thumbnail.py *)

Module Thumbnail.

(** the objects of S3, by bucket and key *)
Definition objects : Type := list ((string * string) * bytes).

Definition same_place (p q : string * string) : bool :=
  (fst p =? fst q) && (snd p =? snd q).

Fixpoint get_object (os : objects) (bucket key : string) : option bytes :=
  match os with
  | [] => None
  | (p, data) :: os' =>
      if same_place p (bucket, key) then Some data
      else get_object os' bucket key
  end.

Inductive outcome : Type :=
| AlreadyThumbnail
| Created (thumbnail_key : string)
| Failed (e : exn).

Record answer : Type := { statusCode : nat; body : outcome }.

(** [v[0]] *)
Definition first_item (v : Py.value) : result Py.value :=
  match v with
  | Py.PList (x :: _) => Ok x
  | Py.PList [] => Raise IndexError
  | Py.PStr (String c _) => Ok (Py.PStr (String c ""))
  | Py.PStr EmptyString => Raise IndexError
  | Py.PDict _ => Raise KeyError
  | _ => Raise TypeError
  end.

Definition and_then {A B} (r : result A) (k : A -> result B) : result B :=
  match r with
  | Ok a => k a
  | Raise e => Raise e
  end.

(** [event['Records'][0]['s3'][what][field]] *)
Definition record_field (event : Py.value) (what field : string)
  : result Py.value :=
  and_then (Py.getitem event "Records") (fun records =>
  and_then (first_item records) (fun record =>
  and_then (Py.getitem record "s3") (fun s3 =>
  and_then (Py.getitem s3 what) (fun o =>
  Py.getitem o field)))).

(** [key.split('/')[-1]] *)
Definition last_segment (key : string) : string :=
  last (Py.split "/" key) "".

Section Handler.
(** Pillow: the PNG of the 200x200 thumbnail, [None] when the bytes are
    not an image it can open *)
Variable thumbnail_png : bytes -> option bytes.
(** whether [put_object] goes through *)
Variable put_accepted : string -> string -> bytes -> bool.

(** the [try] block of [lambda_handler] *)
Definition create_thumbnail (event : Py.value) (os : objects)
  : result outcome * objects :=
  match record_field event "bucket" "name" with
  | Raise e => (Raise e, os)
  | Ok bucket =>
      match record_field event "object" "key" with
      | Raise e => (Raise e, os)
      | Ok (Py.PStr key) =>
          if Py.startswith key "thumbnails/" then (Ok AlreadyThumbnail, os)
          else
            match bucket with
            | Py.PStr bucket =>
                match get_object os bucket key with
                | None => (Raise ClientError, os)
                | Some image_data =>
                    match thumbnail_png image_data with
                    | None => (Raise ValueError, os)
                    | Some png =>
                        let thumbnail_key :=
                          ("thumbnails/" ++ last_segment key)%string in
                        if put_accepted bucket thumbnail_key png
                        then (Ok (Created thumbnail_key),
                              ((bucket, thumbnail_key), png) :: os)
                        else (Raise ClientError, os)
                    end
                end
            | _ => (Raise ClientError, os)
            end
      | Ok _ => (Raise AttributeError, os)
      end
  end.

Definition lambda_handler (event : Py.value) (os : objects)
  : answer * objects :=
  match create_thumbnail event os with
  | (Ok o, os') => ({| statusCode := 200; body := o |}, os')
  | (Raise e, os') => ({| statusCode := 500; body := Failed e |}, os')
  end.

End Handler.

(** the event S3 sends for an object *)
Definition s3_event (bucket key : string) : Py.value :=
  Py.PDict
    [("Records",
      Py.PList
        [Py.PDict
           [("s3",
             Py.PDict
               [("bucket", Py.PDict [("name", Py.PStr bucket)]);
                ("object", Py.PDict [("key", Py.PStr key)])])]])].

End Thumbnail.

(** ** Further vocabulary *)

Module Notions.
Import Models Runtime Spec.

(** the characters of a text that the base64 decoder looks at *)
Fixpoint significant (s : string) : string :=
  match s with
  | EmptyString => EmptyString
  | String c s' =>
      if Base64.b64char c then String c (significant s') else significant s'
  end.

(** a computation that leaves one component [f] of the world alone *)
Definition keeps {A X} (f : World -> X) (m : M A) : Prop :=
  forall w, f (snd (m w)) = f w.

(** the files and objects stored *)
Definition stored (w : World)
  : list (string * bytes) * list (string * bytes) :=
  (media w, bucket w).

(** an entry of a generation result that carries neither a URL nor an
    inline payload *)
Definition useless (v : Py.value) : bool :=
  match v with
  | Py.PDict kv =>
      match Py.lookup "url" kv, Py.lookup "b64_json" kv with
      | None, None => true
      | _, _ => false
      end
  | _ => false
  end.

(** an image row kept in the media folder of [w]: no storage key, no
    public URL, and a file under its name *)
Definition local_row (w : World) (im : Image) : Prop :=
  i_s3_key im = None
  /\ i_cloudfront_url im = None
  /\ Py.lookup (i_filename im) (media w) <> None.

(** an image descriptor of a response whose URL is a file of the media
    folder of [w] *)
Definition local_descriptor (w : World) (d : Py.value) : Prop :=
  exists filename,
    Py.getitem d "url" = Ok (Py.PStr ("/media/" ++ filename))
    /\ Py.getitem d "filename" = Ok (Py.PStr filename)
    /\ Py.lookup filename (media w) <> None.

(** in local mode a [save_*] call either drops the image or writes the
    file it names *)
Definition local_outcome (filename : string) (w : World)
    (out : result (option string * option string) * World) : Prop :=
  exists r w1,
    out = (Ok r, w1)
    /\ same_db w w1
    /\ bucket w1 = bucket w
    /\ ((r = (None, None) /\ media w1 = media w)
        \/ exists data,
             r = (Some filename, Some ("/media/" ++ filename)%string)
             /\ media w1 = (filename, data) :: media w).

(** what the image loop has done in local mode *)
Definition local_loop (w : World) (saved : list Py.value)
    (out : result (list Py.value) * World) : Prop :=
  exists new reported,
    images (session (snd out)) = images (session w) ++ new
    /\ bucket (snd out) = bucket w
    /\ (forall f, Py.lookup f (media w) <> None ->
                  Py.lookup f (media (snd out)) <> None)
    /\ Forall (local_row (snd out)) new
    /\ Forall (local_descriptor (snd out)) reported
    /\ (forall saved', fst out = Ok saved' -> saved' = saved ++ reported).


(** a property of the world that a computation preserves *)
Definition invariant {A} (I : World -> Prop) (m : M A) : Prop :=
  forall w, I w -> I (snd (m w)).

Definition not_admin (u : User) : Prop := u_is_admin u = false.

(** [l'] is [l] followed by rows without admin rights *)
Definition extended (l l' : list User) : Prop :=
  exists added, l' = l ++ added /\ Forall not_admin added.

(** while [register] runs: the requester is who it was, and the user
    table has only grown, in the session and in the database, by rows
    without admin rights *)
Definition registering (who : option nat) (before : list User) (w : World)
  : Prop :=
  login_id w = who
  /\ extended before (users (committed w))
  /\ extended (users (committed w)) (users (session w)).

(** rows in descending order of [key] *)
Definition newest_first {A} (key : A -> nat) (l : list A) : Prop :=
  StronglySorted (fun a b => key b <= key a) l.

(** the part of the world that monitoring and notifications do not
    touch is the same in [w1] and [w2] *)
Definition alike (w1 w2 : World) : Prop :=
  committed w1 = committed w2
  /\ session w1 = session w2
  /\ login_id w1 = login_id w2
  /\ media w1 = media w2
  /\ bucket w1 = bucket w2
  /\ api_calls w1 = api_calls w2
  /\ flashes w1 = flashes w2.

(** two computations that answer alike from worlds alike *)
Definition agree {A} (m1 m2 : M A) : Prop :=
  forall w1 w2,
    alike w1 w2 ->
    fst (m1 w1) = fst (m2 w2) /\ alike (snd (m1 w1)) (snd (m2 w2)).

(** a computation that returns and touches monitoring data only *)
Definition silent {A} (m : M A) : Prop :=
  forall w, (exists a, fst (m w) = Ok a) /\ alike w (snd (m w)).

(** the configuration with other monitoring and notification settings *)
Definition monitoring_set (cloudwatch sns : bool) (topic namespace : string)
    (cfg : Config) : Config :=
  {| API_BASE_URL := API_BASE_URL cfg;
     API_KEY := API_KEY cfg;
     AWS_REGION := AWS_REGION cfg;
     USE_S3 := USE_S3 cfg;
     S3_BUCKET_NAME := S3_BUCKET_NAME cfg;
     CLOUDFRONT_DOMAIN := CLOUDFRONT_DOMAIN cfg;
     SNS_TOPIC_ARN := topic;
     CLOUDWATCH_NAMESPACE := namespace;
     MEDIA_FOLDER := MEDIA_FOLDER cfg;
     s3_client := s3_client cfg;
     sns_client := sns;
     cloudwatch_client := cloudwatch |}.

(** the environment with other answers from CloudWatch and SNS, and
    another duration measured for the generation call *)
Definition monitoring_answers (metrics : MetricDatum -> bool)
    (topic : Notification -> bool) (elapsed : Z) (env : Env) : Env :=
  {| requests_get := requests_get env;
     requests_post := requests_post env;
     put_object := put_object env;
     commit_accepted := commit_accepted env;
     put_metric_data := metrics;
     publish := topic;
     utcnow := utcnow env;
     now_stamp := now_stamp env;
     uuid_hex8 := uuid_hex8 env;
     gensalt := gensalt env;
     elapsed_ms := elapsed;
     write_accepted := write_accepted env;
     cwd := cwd env;
     root_path := root_path env;
     files_elsewhere := files_elsewhere env;
     row_clock := row_clock env |}.

(** two views answer a request alike and leave worlds alike *)
Definition same_outcome {A} (w : World) (view view' : M A) : Prop :=
  fst (App.handle view' w) = fst (App.handle view w)
  /\ alike (snd (App.handle view' w)) (snd (App.handle view w)).

(** Hoare triples on computations: from a world with [P], the result and
    the world left satisfy [Q] *)
Definition hoare {A} (P : World -> Prop) (m : M A)
    (Q : result A -> World -> Prop) : Prop :=
  forall w, P w -> Q (fst (m w)) (snd (m w)).

(** the bytes of an image row are where the row says: an object of the
    bucket under ["images/<filename>"], or, in local mode and after a
    failed upload, a file of the media folder; after a failed upload the
    row's [s3_key] holds the bare file name and its [cloudfront_url] the
    local URL *)
Definition placed (cfg : Config) (w : World) (im : Image) : Prop :=
  let key := ("images/" ++ i_filename im)%string in
  (USE_S3 cfg = true
   /\ i_s3_key im = Some key
   /\ i_cloudfront_url im = Some (App.get_cloudfront_url cfg key)
   /\ Py.lookup key (bucket w) <> None)
  \/ (Py.lookup (i_filename im) (media w) <> None
      /\ i_s3_key im = (if USE_S3 cfg then Some (i_filename im) else None)
      /\ i_cloudfront_url im
         = (if USE_S3 cfg then Some ("/media/" ++ i_filename im)%string
            else None)).

(** the rows the session has added to [before] are placed *)
Definition placing (cfg : Config) (before : list Image) (w : World) : Prop :=
  exists new,
    images (session w) = before ++ new /\ Forall (placed cfg w) new.

(** the pair a [save_*] call has returned, when its URL is set, makes a
    placed row *)
Definition place_found (cfg : Config) (filename : string)
    (r : option string * option string) (w : World) : Prop :=
  Py.opt_truthy (snd r) = true ->
  forall im,
    i_filename im = filename ->
    i_s3_key im = (if USE_S3 cfg then fst r else None) ->
    i_cloudfront_url im = (if USE_S3 cfg then snd r else None) ->
    placed cfg w im.

(** what a [save_*] call leaves: the rows placed so far stay placed, and
    the pair returned leads to bytes *)
Definition saving (cfg : Config) (before : list Image) (filename : string)
    (r : result (option string * option string)) (w : World) : Prop :=
  placing cfg before w
  /\ forall p, r = Ok p -> place_found cfg filename p w.

(** every file and every object of [w] is still there in [w'] *)
Definition nothing_lost (w w' : World) : Prop :=
  (forall f, Py.lookup f (media w) <> None -> Py.lookup f (media w') <> None)
  /\ (forall k, Py.lookup k (bucket w) <> None ->
                Py.lookup k (bucket w') <> None).

End Notions.

(** ** Further sample data *)

Module Cases.
Import Models Runtime.

(** the sample configuration with object storage switched off *)
Definition cfg_local : Config :=
  {| API_BASE_URL := API_BASE_URL Sample.cfg;
     API_KEY := API_KEY Sample.cfg;
     AWS_REGION := AWS_REGION Sample.cfg;
     USE_S3 := false;
     S3_BUCKET_NAME := S3_BUCKET_NAME Sample.cfg;
     CLOUDFRONT_DOMAIN := CLOUDFRONT_DOMAIN Sample.cfg;
     SNS_TOPIC_ARN := SNS_TOPIC_ARN Sample.cfg;
     CLOUDWATCH_NAMESPACE := CLOUDWATCH_NAMESPACE Sample.cfg;
     MEDIA_FOLDER := MEDIA_FOLDER Sample.cfg;
     s3_client := s3_client Sample.cfg;
     sns_client := sns_client Sample.cfg;
     cloudwatch_client := cloudwatch_client Sample.cfg |}.

(** the sample configuration with a CloudFront domain that holds one
    no-break space (U+00A0) *)
Definition cfg_blank_domain : Config :=
  {| API_BASE_URL := API_BASE_URL Sample.cfg;
     API_KEY := API_KEY Sample.cfg;
     AWS_REGION := AWS_REGION Sample.cfg;
     USE_S3 := USE_S3 Sample.cfg;
     S3_BUCKET_NAME := S3_BUCKET_NAME Sample.cfg;
     CLOUDFRONT_DOMAIN := String (ascii_of_nat 160) "";
     SNS_TOPIC_ARN := SNS_TOPIC_ARN Sample.cfg;
     CLOUDWATCH_NAMESPACE := CLOUDWATCH_NAMESPACE Sample.cfg;
     MEDIA_FOLDER := MEDIA_FOLDER Sample.cfg;
     s3_client := s3_client Sample.cfg;
     sns_client := sns_client Sample.cfg;
     cloudwatch_client := cloudwatch_client Sample.cfg |}.

(** the gateway answers 200 with an empty list of images *)
Definition env_no_images : Env :=
  {| requests_get := requests_get Sample.env;
     requests_post := fun _ => Some (200, Some (Py.PDict [("data", Py.PList [])]));
     put_object := put_object Sample.env;
     commit_accepted := commit_accepted Sample.env;
     put_metric_data := put_metric_data Sample.env;
     publish := publish Sample.env;
     utcnow := utcnow Sample.env;
     now_stamp := now_stamp Sample.env;
     uuid_hex8 := uuid_hex8 Sample.env;
     gensalt := gensalt Sample.env;
     elapsed_ms := elapsed_ms Sample.env;
     write_accepted := write_accepted Sample.env;
     cwd := cwd Sample.env;
     root_path := root_path Sample.env;
     files_elsewhere := files_elsewhere Sample.env;
     row_clock := row_clock Sample.env |}.

(** alice has generated a cat *)
Definition w_generated : World :=
  snd (App.handle
         (App.api_generate Sample.cfg Sample.env (Some (Py.PDict Sample.cat)))
         Sample.w_signed_in).

(** the base64 text of [Sample.png], broken by a line feed *)
Definition broken_payload : string :=
  "iVBO" ++ String (ascii_of_nat 10) "Rw==".

(** a data URI cut before its comma *)
Definition cut_payload : Py.value := Py.PStr "data:image/png;base64".

Definition admin_login_form : App.FormRequest :=
  {| App.r_method := App.POST;
     App.r_form := [("username", "root"); ("password", "s3cret")];
     App.r_next := None |}.

(** a stand-in for Pillow: it reads what starts like a PNG and keeps the
    first two bytes *)
Definition shrink (data : bytes) : option bytes :=
  match data with
  | x89 :: _ => Some (firstn 2 data)
  | _ => None
  end.

Definition put_always (bucket key : string) (data : bytes) : bool := true.

(** a bucket with one uploaded image *)
Definition uploaded : Thumbnail.objects :=
  [(("generated-images", "images/cat.png"), Sample.png)].

(** a password of 73 bytes *)
Definition long_password : string :=
  string_of_list_ascii (repeat "a"%char 73).

Definition long_register_form : App.FormRequest :=
  {| App.r_method := App.POST;
     App.r_form := [("username", "bob"); ("email", "bob@x.com");
                    ("password", long_password)];
     App.r_next := None |}.

(** the login that follows [long_register_form] *)
Definition long_bob_login_form : App.FormRequest :=
  {| App.r_method := App.POST;
     App.r_form := [("username", "bob"); ("password", long_password)];
     App.r_next := None |}.


(** every upload to S3 fails and the media folder cannot be written *)
Definition env_disk_full : Env :=
  {| requests_get := requests_get Sample.env_s3_down;
     requests_post := requests_post Sample.env_s3_down;
     put_object := put_object Sample.env_s3_down;
     commit_accepted := commit_accepted Sample.env_s3_down;
     put_metric_data := put_metric_data Sample.env_s3_down;
     publish := publish Sample.env_s3_down;
     utcnow := utcnow Sample.env_s3_down;
     now_stamp := now_stamp Sample.env_s3_down;
     uuid_hex8 := uuid_hex8 Sample.env_s3_down;
     gensalt := gensalt Sample.env_s3_down;
     elapsed_ms := elapsed_ms Sample.env_s3_down;
     write_accepted := fun _ _ => false;
     cwd := cwd Sample.env_s3_down;
     root_path := root_path Sample.env_s3_down;
     files_elsewhere := files_elsewhere Sample.env_s3_down;
     row_clock := row_clock Sample.env_s3_down |}.

(** every upload to S3 fails, and the process was started in another
    directory than the one of the application *)
Definition env_started_elsewhere : Env :=
  {| requests_get := requests_get Sample.env_s3_down;
     requests_post := requests_post Sample.env_s3_down;
     put_object := put_object Sample.env_s3_down;
     commit_accepted := commit_accepted Sample.env_s3_down;
     put_metric_data := put_metric_data Sample.env_s3_down;
     publish := publish Sample.env_s3_down;
     utcnow := utcnow Sample.env_s3_down;
     now_stamp := now_stamp Sample.env_s3_down;
     uuid_hex8 := uuid_hex8 Sample.env_s3_down;
     gensalt := gensalt Sample.env_s3_down;
     elapsed_ms := elapsed_ms Sample.env_s3_down;
     write_accepted := write_accepted Sample.env_s3_down;
     cwd := "/";
     root_path := root_path Sample.env_s3_down;
     files_elsewhere := files_elsewhere Sample.env_s3_down;
     row_clock := row_clock Sample.env_s3_down |}.

(** the gateway answers 200 with a list that holds [null] *)
Definition env_null_entry : Env :=
  {| requests_get := requests_get Sample.env;
     requests_post := fun _ => Some (200, Some (Py.PDict [("data", Py.PList [Py.PNone])]));
     put_object := put_object Sample.env;
     commit_accepted := commit_accepted Sample.env;
     put_metric_data := put_metric_data Sample.env;
     publish := publish Sample.env;
     utcnow := utcnow Sample.env;
     now_stamp := now_stamp Sample.env;
     uuid_hex8 := uuid_hex8 Sample.env;
     gensalt := gensalt Sample.env;
     elapsed_ms := elapsed_ms Sample.env;
     write_accepted := write_accepted Sample.env;
     cwd := cwd Sample.env;
     root_path := root_path Sample.env;
     files_elsewhere := files_elsewhere Sample.env;
     row_clock := row_clock Sample.env |}.

(** the gateway answers with seven inline images *)
Definition seven_images : Py.value :=
  Py.PDict
    [("data",
      Py.PList
        (repeat (Py.PDict [("b64_json", Py.PStr (Base64.b64encode Sample.png))])
           7))].

Definition env_seven : Env :=
  {| requests_get := requests_get Sample.env;
     requests_post := fun _ => Some (200, Some seven_images);
     put_object := put_object Sample.env;
     commit_accepted := commit_accepted Sample.env;
     put_metric_data := put_metric_data Sample.env;
     publish := publish Sample.env;
     utcnow := utcnow Sample.env;
     now_stamp := now_stamp Sample.env;
     uuid_hex8 := uuid_hex8 Sample.env;
     gensalt := gensalt Sample.env;
     elapsed_ms := elapsed_ms Sample.env;
     write_accepted := write_accepted Sample.env;
     cwd := cwd Sample.env;
     root_path := root_path Sample.env;
     files_elsewhere := files_elsewhere Sample.env;
     row_clock := row_clock Sample.env |}.

(** alice has generated seven images with one request; their rows were
    inserted at the times 7 to 13 *)
Definition w_seven : World :=
  snd (App.handle
         (App.api_generate Sample.cfg env_seven (Some (Py.PDict Sample.cat)))
         Sample.w_signed_in).

End Cases.

(** * Properties *)

(** ** Base64 *)

Section Base64Facts.
Import Base64.
Local Open Scope N_scope.

Lemma below_complete (n : nat) (x : N) : x < N.of_nat n -> In x (below n).
Proof.
  intros H. unfold below. apply in_map_iff.
  exists (N.to_nat x). split.
  - apply N2Nat.id.
  - apply in_seq. lia.
Qed.

Lemma check_below (p : N -> bool) (n : nat) :
  forallb p (below n) = true -> forall x, x < N.of_nat n -> p x = true.
Proof.
  intros H x Hx. rewrite forallb_forall in H. apply H, below_complete, Hx.
Qed.

Lemma check_below2 (p : N -> N -> bool) (n m : nat) :
  forallb (fun x => forallb (p x) (below m)) (below n) = true ->
  forall x y, x < N.of_nat n -> y < N.of_nat m -> p x y = true.
Proof.
  intros H x y Hx Hy.
  apply (check_below (p x) m); [|exact Hy].
  apply (check_below (fun x => forallb (p x) (below m)) n H x Hx).
Qed.

Lemma to_N_lt (b : byte) : Byte.to_N b < 256.
Proof. pose proof (Byte.to_N_bounded b). lia. Qed.

Lemma byte_of_to_N (b : byte) : byte_of_N (Byte.to_N b) = b.
Proof.
  unfold byte_of_N. rewrite <- ascii_of_byte_via_N.
  apply byte_of_ascii_of_byte.
Qed.

(** *** The two tables *)

Lemma table_a2b_b2a (v : N) : v < 64 -> table_a2b (table_b2a v) = Some v.
Proof.
  intros H.
  apply (check_below
           (fun v => match table_a2b (table_b2a v) with
                     | Some u => u =? v
                     | None => false
                     end) 64) in H; [|vm_compute; reflexivity].
  destruct (table_a2b (table_b2a v)); [|discriminate].
  apply N.eqb_eq in H. now subst.
Qed.

Lemma table_b2a_not_pad (v : N) :
  v < 64 -> Ascii.eqb (table_b2a v) BASE64_PAD = false.
Proof.
  intros H.
  apply (check_below
           (fun v => negb (Ascii.eqb (table_b2a v) BASE64_PAD)) 64) in H;
    [|vm_compute; reflexivity].
  now apply negb_true_iff in H.
Qed.

(** *** Sextets of bytes *)

Lemma sextet1_lt a : a < 256 -> sextet1 a < 64.
Proof.
  intros H. apply N.ltb_lt.
  apply (check_below (fun a => sextet1 a <? 64) 256); [vm_compute|]; easy.
Qed.

Lemma sextet2_lt a b : a < 256 -> b < 256 -> sextet2 a b < 64.
Proof.
  intros Ha Hb. apply N.ltb_lt.
  apply (check_below2 (fun a b => sextet2 a b <? 64) 256 256);
    [vm_compute|..]; easy.
Qed.

Lemma sextet3_lt b c : b < 256 -> c < 256 -> sextet3 b c < 64.
Proof.
  intros Hb Hc. apply N.ltb_lt.
  apply (check_below2 (fun b c => sextet3 b c <? 64) 256 256);
    [vm_compute|..]; easy.
Qed.

Lemma sextet4_lt c : c < 256 -> sextet4 c < 64.
Proof.
  intros H. apply N.ltb_lt.
  apply (check_below (fun c => sextet4 c <? 64) 256); [vm_compute|]; easy.
Qed.

(** *** What the decoder's registers rebuild *)

Lemma first_byte a b :
  a < 256 -> b < 256 ->
  N.lor (N.shiftl (sextet1 a) 2) (N.shiftr (sextet2 a b) 4) = a.
Proof.
  intros Ha Hb. apply N.eqb_eq.
  apply (check_below2
           (fun a b =>
              N.lor (N.shiftl (sextet1 a) 2) (N.shiftr (sextet2 a b) 4) =? a)
           256 256); [vm_compute|..]; easy.
Qed.

Lemma left_of_sextet2 a b :
  a < 256 -> b < 256 -> N.land (sextet2 a b) 15 = N.land b 240 / 16.
Proof.
  intros Ha Hb. apply N.eqb_eq.
  apply (check_below2
           (fun a b => N.land (sextet2 a b) 15 =? N.land b 240 / 16)
           256 256); [vm_compute|..]; easy.
Qed.

Lemma second_byte b c :
  b < 256 -> c < 256 ->
  N.lor (N.shiftl (N.land b 240 / 16) 4) (N.shiftr (sextet3 b c) 2) = b.
Proof.
  intros Hb Hc. apply N.eqb_eq.
  apply (check_below2
           (fun b c =>
              N.lor (N.shiftl (N.land b 240 / 16) 4)
                (N.shiftr (sextet3 b c) 2) =? b)
           256 256); [vm_compute|..]; easy.
Qed.

Lemma third_byte b c :
  b < 256 -> c < 256 ->
  N.lor (N.shiftl (N.land (sextet3 b c) 3) 6) (sextet4 c) = c.
Proof.
  intros Hb Hc. apply N.eqb_eq.
  apply (check_below2
           (fun b c =>
              N.lor (N.shiftl (N.land (sextet3 b c) 3) 6) (sextet4 c) =? c)
           256 256); [vm_compute|..]; easy.
Qed.

(** *** The decoding loop on encoder output *)

Lemma a2b_loop_char (v : N) (s : string) (quad_pos : nat) (leftchar : N)
    (pads : nat) :
  v < 64 ->
  a2b_loop (String (table_b2a v) s) quad_pos leftchar pads =
  match quad_pos with
  | 0%nat => a2b_loop s 1%nat v 0%nat
  | 1%nat =>
      emit (N.lor (N.shiftl leftchar 2) (N.shiftr v 4))
        (a2b_loop s 2%nat (N.land v 15) 0%nat)
  | 2%nat =>
      emit (N.lor (N.shiftl leftchar 4) (N.shiftr v 2))
        (a2b_loop s 3%nat (N.land v 3) 0%nat)
  | _ => emit (N.lor (N.shiftl leftchar 6) v) (a2b_loop s 0%nat 0 0%nat)
  end.
Proof.
  intros H. cbn [a2b_loop].
  rewrite (table_b2a_not_pad v H), (table_a2b_b2a v H). reflexivity.
Qed.

Lemma a2b_loop_pad (s : string) (quad_pos : nat) (leftchar : N) (pads : nat) :
  a2b_loop (String BASE64_PAD s) quad_pos leftchar pads =
  if (2 <=? quad_pos)%nat then
    if (4 <=? quad_pos + S pads)%nat then Ok []
    else a2b_loop s quad_pos leftchar (S pads)
  else a2b_loop s quad_pos leftchar pads.
Proof. reflexivity. Qed.

Lemma emit_byte (b : byte) (r : result bytes) :
  emit (Byte.to_N b) r = result_map (cons b) r.
Proof. unfold emit. now rewrite byte_of_to_N. Qed.

(** a full quad gives back its three bytes and leaves the loop at the
    start of a quad *)
Lemma a2b_loop_quad (a b c : byte) (s : string) (leftchar : N) (pads : nat) :
  a2b_loop (b64encode (a :: b :: c :: []) ++ s) 0 leftchar pads =
  result_map (fun l => a :: b :: c :: l) (a2b_loop s 0 0 0).
Proof.
  pose proof (to_N_lt a) as Ha. pose proof (to_N_lt b) as Hb.
  pose proof (to_N_lt c) as Hc.
  cbn [b64encode String.append].
  rewrite a2b_loop_char by now apply sextet1_lt.
  rewrite a2b_loop_char by now apply sextet2_lt.
  rewrite a2b_loop_char by now apply sextet3_lt.
  rewrite a2b_loop_char by now apply sextet4_lt.
  rewrite first_byte, left_of_sextet2, second_byte, third_byte by assumption.
  rewrite !emit_byte.
  destruct (a2b_loop s 0 0 0); reflexivity.
Qed.

Lemma b64encode_quad (a b c : byte) (rest : bytes) :
  b64encode (a :: b :: c :: rest) =
  (b64encode (a :: b :: c :: []) ++ b64encode rest)%string.
Proof. reflexivity. Qed.

Lemma a2b_loop_one (a : byte) (leftchar : N) (pads : nat) :
  a2b_loop (b64encode [a]) 0 leftchar pads = Ok [a].
Proof.
  pose proof (to_N_lt a) as Ha.
  cbn [b64encode].
  rewrite a2b_loop_char by now apply sextet1_lt.
  rewrite a2b_loop_char by (apply sextet2_lt; [assumption|reflexivity]).
  rewrite first_byte by (assumption || reflexivity).
  rewrite emit_byte, !a2b_loop_pad. reflexivity.
Qed.

Lemma a2b_loop_two (a b : byte) (leftchar : N) (pads : nat) :
  a2b_loop (b64encode [a; b]) 0 leftchar pads = Ok [a; b].
Proof.
  pose proof (to_N_lt a) as Ha. pose proof (to_N_lt b) as Hb.
  cbn [b64encode].
  rewrite a2b_loop_char by now apply sextet1_lt.
  rewrite a2b_loop_char by now apply sextet2_lt.
  rewrite a2b_loop_char by (apply sextet3_lt; [assumption|reflexivity]).
  rewrite first_byte, left_of_sextet2 by assumption.
  rewrite second_byte by (assumption || reflexivity).
  rewrite !emit_byte, a2b_loop_pad. reflexivity.
Qed.

(** induction three bytes at a time, the way the encoder recurses *)
Lemma bytes_ind3 (P : bytes -> Prop) :
  P [] ->
  (forall a, P [a]) ->
  (forall a b, P [a; b]) ->
  (forall a b c rest, P rest -> P (a :: b :: c :: rest)) ->
  forall bs, P bs.
Proof.
  intros H0 H1 H2 H3.
  fix IH 1.
  intros [|a [|b [|c rest]]];
    [exact H0 | apply H1 | apply H2 | apply H3, IH].
Qed.

Lemma a2b_loop_b64encode (bs : bytes) (leftchar : N) (pads : nat) :
  a2b_loop (b64encode bs) 0 leftchar pads = Ok bs.
Proof.
  revert leftchar pads.
  induction bs as [|a|a b|a b c rest IH] using bytes_ind3;
    intros leftchar pads.
  - reflexivity.
  - apply a2b_loop_one.
  - apply a2b_loop_two.
  - rewrite b64encode_quad, a2b_loop_quad, IH. reflexivity.
Qed.

(** *** The characters of encoder output *)

Lemma b64char_table (v : N) : v < 64 -> b64char (table_b2a v) = true.
Proof.
  intros H. unfold b64char. now rewrite table_a2b_b2a.
Qed.

Lemma b64encode_chars (bs : bytes) : all_chars b64char (b64encode bs) = true.
Proof.
  induction bs as [|a|a b|a b c rest IH] using bytes_ind3.
  - reflexivity.
  - pose proof (to_N_lt a).
    cbn [b64encode all_chars].
    rewrite !b64char_table;
      [reflexivity | apply sextet2_lt | apply sextet1_lt]; easy.
  - pose proof (to_N_lt a). pose proof (to_N_lt b).
    cbn [b64encode all_chars].
    rewrite !b64char_table;
      [reflexivity | apply sextet3_lt | apply sextet2_lt | apply sextet1_lt];
      easy.
  - pose proof (to_N_lt a). pose proof (to_N_lt b). pose proof (to_N_lt c).
    cbn [b64encode all_chars].
    rewrite IH, !b64char_table;
      [reflexivity | apply sextet4_lt | apply sextet3_lt | apply sextet2_lt
       | apply sextet1_lt]; easy.
Qed.

Lemma all_chars_impl (p q : ascii -> bool) (s : string) :
  (forall c, p c = true -> q c = true) ->
  all_chars p s = true -> all_chars q s = true.
Proof.
  intros Hpq. induction s as [|c s IH]; cbn; [easy|].
  rewrite !andb_true_iff. intros [Hc Hs]. auto.
Qed.

Lemma all_chars_app (p : ascii -> bool) (s t : string) :
  all_chars p (s ++ t) = all_chars p s && all_chars p t.
Proof.
  induction s as [|c s IH]; cbn; [reflexivity|].
  now rewrite IH, andb_assoc.
Qed.

(** a property of every base64 character, checked on the 256 characters *)
Lemma b64char_check (q : ascii -> bool) :
  forallb (fun n => implb (b64char (ascii_of_N n)) (q (ascii_of_N n)))
    (below 256) = true ->
  forall c, b64char c = true -> q c = true.
Proof.
  intros H c Hc.
  pose proof (check_below _ 256 H (N_of_ascii c) (N_ascii_bounded c)) as Hq.
  cbv beta in Hq. rewrite ascii_N_embedding, Hc in Hq. exact Hq.
Qed.

Lemma b64char_is_ascii (c : ascii) : b64char c = true -> is_ascii c = true.
Proof. revert c. apply (b64char_check is_ascii). vm_compute. reflexivity. Qed.

Theorem b64decode_b64encode (bs : bytes) : b64decode (b64encode bs) = Ok bs.
Proof.
  unfold b64decode, a2b_base64.
  rewrite (all_chars_impl _ _ _ b64char_is_ascii (b64encode_chars bs)).
  apply a2b_loop_b64encode.
Qed.

End Base64Facts.

(** ** Inline payloads *)

Section Payload.
Import Base64.

Lemma split_free (sep : ascii) (s : string) :
  Py.free_of sep s = true -> Py.split sep s = [s].
Proof.
  induction s as [|c s IH]; cbn; [reflexivity|].
  rewrite andb_true_iff, negb_true_iff. intros [Hc Hs].
  now rewrite Hc, (IH Hs).
Qed.

Lemma split_at_sep (sep : ascii) (h t : string) :
  Py.free_of sep h = true ->
  Py.split sep (h ++ String sep t) = h :: Py.split sep t.
Proof.
  induction h as [|c h IH]; cbn.
  - now rewrite Ascii.eqb_refl.
  - rewrite andb_true_iff, negb_true_iff. intros [Hc Hh].
    now rewrite Hc, (IH Hh).
Qed.

Lemma free_of_app (sep : ascii) (s t : string) :
  Py.free_of sep (s ++ t) = Py.free_of sep s && Py.free_of sep t.
Proof.
  induction s as [|c s IH]; cbn; [reflexivity|].
  now rewrite IH, andb_assoc.
Qed.

Lemma b64char_not_comma (c : ascii) :
  b64char c = true -> negb (Ascii.eqb c ","%char) = true.
Proof.
  revert c. apply (b64char_check (fun c => negb (Ascii.eqb c ","%char))).
  vm_compute. reflexivity.
Qed.

Lemma b64char_not_colon (c : ascii) :
  b64char c = true -> negb (Ascii.eqb c ":"%char) = true.
Proof.
  revert c. apply (b64char_check (fun c => negb (Ascii.eqb c ":"%char))).
  vm_compute. reflexivity.
Qed.

Lemma free_of_all_chars (sep : ascii) (s : string) :
  all_chars (fun c => negb (Ascii.eqb c sep)) s = Py.free_of sep s.
Proof. induction s as [|c s IH]; cbn; [reflexivity|]. now rewrite IH. Qed.

Lemma b64encode_free_of_comma (bs : bytes) :
  Py.free_of "," (b64encode bs) = true.
Proof.
  rewrite <- free_of_all_chars.
  apply (all_chars_impl _ _ _ b64char_not_comma), b64encode_chars.
Qed.

(** encoder output is never taken for a data URI: its fifth character
    would have to be a colon *)
Lemma b64_not_data_uri (s : string) :
  Py.free_of ":" s = true -> Py.startswith s "data:image" = false.
Proof.
  intros H.
  destruct (Py.startswith s "data:image") eqn:E; [exfalso|reflexivity].
  destruct s as [|c1 [|c2 [|c3 [|c4 [|c5 s]]]]];
    cbn [Py.startswith] in E;
    repeat match type of E with
      | (_ && _)%bool = true =>
          let Hc := fresh "Hc" in
          apply andb_true_iff in E; destruct E as [Hc E]
      end;
    try discriminate.
  apply Ascii.eqb_eq in Hc3. subst c5.
  cbn [Py.free_of] in H.
  rewrite !andb_true_iff in H.
  destruct H as (_ & _ & _ & _ & H & _). discriminate.
Qed.

Lemma b64encode_not_data_uri (bs : bytes) :
  Py.startswith (b64encode bs) "data:image" = false.
Proof.
  apply b64_not_data_uri. rewrite <- free_of_all_chars.
  apply (all_chars_impl _ _ _ b64char_not_colon), b64encode_chars.
Qed.

Lemma append_assoc (s t u : string) : ((s ++ t) ++ u = s ++ (t ++ u))%string.
Proof. induction s as [|c s IH]; cbn; [reflexivity|]. now rewrite IH. Qed.

(** C7.  For every byte string [bs]: the payload [base64(bs)] behind a
    header ["data:image/<subtype>;base64,"] (whose first comma is the one
    that ends it) decodes to [bs], the header being cut off at that
    comma; and the bare payload [base64(bs)] decodes to the same [bs]. *)
Theorem decode_payload_roundtrip (bs : bytes) (subtype : string) :
  Py.free_of "," subtype = true ->
  App.decode_payload
    (Py.PStr ("data:image/" ++ subtype ++ ";base64," ++ b64encode bs))
  = Ok bs
  /\ nth_error
       (Py.split "," ("data:image/" ++ subtype ++ ";base64," ++ b64encode bs))
       1
     = Some (b64encode bs)
  /\ App.decode_payload (Py.PStr (b64encode bs)) = Ok bs.
Proof.
  intros Hsub.
  assert (Hsplit :
    Py.split "," ("data:image/" ++ subtype ++ ";base64," ++ b64encode bs)
    = [("data:image/" ++ subtype ++ ";base64")%string; b64encode bs]).
  { replace ("data:image/" ++ subtype ++ ";base64," ++ b64encode bs)%string
      with (("data:image/" ++ subtype ++ ";base64")
            ++ String "," (b64encode bs))%string
      by (cbn; now rewrite append_assoc).
    rewrite split_at_sep.
    - now rewrite split_free by apply b64encode_free_of_comma.
    - change ("data:image/" ++ subtype ++ ";base64")%string
        with ("data:image/" ++ (subtype ++ ";base64"))%string.
      rewrite !free_of_app, Hsub. reflexivity. }
  split; [|split].
  - unfold App.decode_payload.
    replace (Py.startswith _ "data:image") with true by reflexivity.
    rewrite Hsplit. cbn [nth_error]. apply b64decode_b64encode.
  - now rewrite Hsplit.
  - unfold App.decode_payload.
    rewrite b64encode_not_data_uri. apply b64decode_b64encode.
Qed.

End Payload.

(** ** Computations that leave the database alone *)

Section Frames.
Import Models Runtime Spec.
Local Open Scope app_scope.

Lemma same_db_refl (w : World) : same_db w w.
Proof. repeat split. Qed.

Lemma same_db_trans (w1 w2 w3 : World) :
  same_db w1 w2 -> same_db w2 w3 -> same_db w1 w3.
Proof.
  intros (A1 & A2 & A3) (B1 & B2 & B3).
  repeat split; congruence.
Qed.

Lemma quiet_ret {A} (a : A) : quiet (ret a).
Proof. intros w. apply same_db_refl. Qed.

Lemma quiet_raise {A} (e : exn) : quiet (@raise A e).
Proof. intros w. apply same_db_refl. Qed.

Lemma quiet_lift {A} (r : result A) : quiet (lift r).
Proof. intros w. apply same_db_refl. Qed.

Lemma quiet_gets {A} (f : World -> A) : quiet (gets f).
Proof. intros w. apply same_db_refl. Qed.

Lemma quiet_bind {A B} (m : M A) (k : A -> M B) :
  quiet m -> (forall a, quiet (k a)) -> quiet (bind m k).
Proof.
  intros Hm Hk w. unfold bind.
  specialize (Hm w). destruct (m w) as [[a|e] w1]; cbn in *.
  - eapply same_db_trans; [exact Hm | apply Hk].
  - exact Hm.
Qed.

Lemma quiet_try {A} (m : M A) (h : exn -> M A) :
  quiet m -> (forall e, quiet (h e)) -> quiet (try_except m h).
Proof.
  intros Hm Hh w. unfold try_except.
  specialize (Hm w). destruct (m w) as [[a|e] w1]; cbn in *.
  - exact Hm.
  - eapply same_db_trans; [exact Hm | apply Hh].
Qed.

Lemma quiet_modify (f : World -> World) :
  (forall w, same_db w (f w)) -> quiet (modify f).
Proof. intros H w. apply H. Qed.

Lemma quiet_if {A} (b : bool) (m1 m2 : M A) :
  quiet m1 -> quiet m2 -> quiet (if b then m1 else m2).
Proof. now destruct b. Qed.

Lemma safe_ret {A} (a : A) : safe (ret a).
Proof. intros w. now exists a. Qed.

Lemma safe_bind {A B} (m : M A) (k : A -> M B) :
  safe m -> (forall a, safe (k a)) -> safe (bind m k).
Proof.
  intros Hm Hk w. unfold bind.
  destruct (Hm w) as [a Ha]. destruct (m w) as [[a'|e] w1]; cbn in *.
  - apply Hk.
  - discriminate.
Qed.

Lemma safe_try {A} (m : M A) (h : exn -> M A) :
  (forall e, safe (h e)) -> safe (try_except m h).
Proof.
  intros Hh w. unfold try_except.
  destruct (m w) as [[a|e] w1]; cbn.
  - now exists a.
  - apply Hh.
Qed.

Lemma safe_modify (f : World -> World) : safe (modify f).
Proof. intros w. now exists tt. Qed.

Lemma safe_if {A} (b : bool) (m1 m2 : M A) :
  safe m1 -> safe m2 -> safe (if b then m1 else m2).
Proof. now destruct b. Qed.

Variable cfg : Config.
Variable env : Env.

Lemma quiet_put_metric name value unit dims :
  quiet (Metrics.put_metric cfg env name value unit dims).
Proof.
  intros w. unfold Metrics.put_metric.
  destruct (negb (cloudwatch_client cfg)); [repeat split|].
  destruct (put_metric_data env _); repeat split.
Qed.

Lemma safe_put_metric name value unit dims :
  safe (Metrics.put_metric cfg env name value unit dims).
Proof.
  intros w. unfold Metrics.put_metric.
  destruct (negb (cloudwatch_client cfg)); [now eexists|].
  destruct (put_metric_data env _); now eexists.
Qed.

Lemma quiet_record_error error_type :
  quiet (Metrics.record_error cfg env error_type).
Proof. apply quiet_put_metric. Qed.

Lemma safe_record_error error_type :
  safe (Metrics.record_error cfg env error_type).
Proof. apply safe_put_metric. Qed.

Lemma quiet_record_generation success model :
  quiet (Metrics.record_generation cfg env success model).
Proof. apply quiet_put_metric. Qed.

Lemma safe_record_generation success model :
  safe (Metrics.record_generation cfg env success model).
Proof. apply safe_put_metric. Qed.

End Frames.

Create HintDb frames.
#[export] Hint Resolve quiet_ret quiet_raise quiet_lift quiet_gets
  quiet_put_metric quiet_record_error quiet_record_generation
  safe_ret safe_modify safe_put_metric safe_record_error
  safe_record_generation same_db_refl : frames.
#[export] Hint Extern 2 (Spec.quiet (Runtime.bind _ _)) =>
  apply quiet_bind; [|intro] : frames.
#[export] Hint Extern 2 (Spec.quiet (Runtime.try_except _ _)) =>
  apply quiet_try; [|intro] : frames.
#[export] Hint Extern 2 (Spec.quiet (if _ then _ else _)) =>
  apply quiet_if : frames.
#[export] Hint Extern 2 (Spec.quiet (Runtime.modify _)) =>
  apply quiet_modify; intro; repeat split : frames.
#[export] Hint Extern 2 (Spec.safe (Runtime.bind _ _)) =>
  apply safe_bind; [|intro] : frames.
#[export] Hint Extern 2 (Spec.safe (Runtime.try_except _ _)) =>
  apply safe_try; intro : frames.
#[export] Hint Extern 2 (Spec.safe (if _ then _ else _)) =>
  apply safe_if : frames.

Section Storage.
Import Models Runtime Spec.
Local Open Scope app_scope.

Variable cfg : Config.
Variable env : Env.

Lemma quiet_upload_to_s3 data filename :
  quiet (App.upload_to_s3 cfg env data filename).
Proof.
  unfold App.upload_to_s3, App.s3_put_object.
  auto 10 with frames.
Qed.

Lemma quiet_store data filename : quiet (App.store cfg env data filename).
Proof.
  pose proof quiet_upload_to_s3.
  unfold App.store, App.save_local, App.write_file.
  apply quiet_if; [|auto 10 with frames].
  apply quiet_bind; [auto|intros r].
  apply quiet_bind; [auto with frames|intros [k u]].
  auto 10 with frames.
Qed.

Lemma quiet_save_image_from_url url filename :
  quiet (App.save_image_from_url cfg env url filename).
Proof.
  pose proof quiet_store.
  unfold App.save_image_from_url, App.http_get.
  apply quiet_try; [|auto 10 with frames].
  apply quiet_bind.
  - destruct url; auto with frames.
    destruct (requests_get env s); auto with frames.
  - intros [status content]. auto with frames.
Qed.

Lemma quiet_save_base64_image b64 filename :
  quiet (App.save_base64_image cfg env b64 filename).
Proof.
  pose proof quiet_store.
  unfold App.save_base64_image. auto 10 with frames.
Qed.

Lemma safe_save_image_from_url url filename :
  safe (App.save_image_from_url cfg env url filename).
Proof. unfold App.save_image_from_url. auto 10 with frames. Qed.

Lemma safe_save_base64_image b64 filename :
  safe (App.save_base64_image cfg env b64 filename).
Proof. unfold App.save_base64_image. auto 10 with frames. Qed.

End Storage.

(** ** The generation endpoint *)

Section Generate.
Import Models Runtime Spec.
Local Open Scope app_scope.

Variable cfg : Config.
Variable env : Env.

Lemma get_field (fields : list (string * Py.value)) key default :
  Py.get (Py.PDict fields) key default = Ok (field key default fields).
Proof.
  unfold Py.get, field. now destruct (Py.lookup key fields).
Qed.

Lemma login_required_logged_in (user : User) path view (w : World) :
  login_id w = Some (u_id user) ->
  user_by_id (u_id user) (session w) = Some user ->
  App.login_required path view w = view user w.
Proof.
  intros Hid Hu.
  unfold App.login_required, App.current_user, App.load_user, bind, gets.
  now rewrite Hid, Hu.
Qed.

Lemma handle_logged_in (user : User) path view (w : World) :
  logged_in user w ->
  App.handle (App.login_required path view) w =
  (fst (view user (set_session (committed w) w)),
   let w' := snd (view user (set_session (committed w) w)) in
   set_session (committed w') w').
Proof.
  intros [Hid Hu]. unfold App.handle.
  rewrite (login_required_logged_in user) by assumption.
  now destruct (view user _).
Qed.

(** every call of [put_metric] adds one entry to the log *)
Lemma put_metric_log name value unit dims (w : World) :
  exists sent,
    Metrics.put_metric cfg env name value unit dims w =
    (Ok sent,
     set_metric_calls
       (metric_calls w ++
        [{| mc_datum := {| MetricName := name; Value := value; Unit := unit;
                           Timestamp := utcnow env; Dimensions := dims |};
            mc_sent := sent |}]) w).
Proof.
  unfold Metrics.put_metric.
  destruct (negb (cloudwatch_client cfg)); [now eexists|].
  destruct (put_metric_data env _); now eexists.
Qed.

(** [generate_image] never raises: it returns the body of a 200 answer
    and [None] for anything else; it sends one request and touches
    nothing but the logs *)
Lemma generate_image_returns prompt model_id size quality (w : World) :
  let payload :=
    {| p_model := model_id; p_prompt := prompt; p_size := size;
       p_quality := quality; p_n := 1 |} in
  exists w',
    App.generate_image cfg env prompt model_id size quality w =
    (Ok (gateway_answer env payload), w')
    /\ same_db w w'
    /\ media w' = media w
    /\ bucket w' = bucket w
    /\ notifications w' = notifications w
    /\ flashes w' = flashes w
    /\ api_calls w' = api_calls w ++ [payload]
    /\ exists calls, metric_calls w' = metric_calls w ++ calls.
Proof.
  intros payload.
  unfold App.generate_image, gateway_answer, try_except, bind, modify, raise,
    ret, Metrics.record_time, Metrics.record_error,
    Metrics.increment_counter.
  fold payload.
  destruct (requests_post env payload) as [[status [v|]]|].
  - destruct (put_metric_log "APIResponseTime" (elapsed_ms env)
                "Milliseconds" []
                (set_api_calls (api_calls w ++ [payload]) w)) as [b1 ->].
    destruct (status =? 200)%nat.
    + eexists. split; [reflexivity|].
      repeat split. eexists. reflexivity.
    + match goal with
      | |- context [Metrics.put_metric cfg env ?n ?v ?u ?d ?w0] =>
          destruct (put_metric_log n v u d w0) as [b2 ->]
      end.
      eexists. split; [reflexivity|].
      repeat split. cbn. rewrite <- app_assoc. eexists. reflexivity.
  - destruct (put_metric_log "APIResponseTime" (elapsed_ms env)
                "Milliseconds" []
                (set_api_calls (api_calls w ++ [payload]) w)) as [b1 ->].
    destruct (status =? 200)%nat;
      match goal with
      | |- context [Metrics.put_metric cfg env ?n ?v ?u ?d ?w0] =>
          destruct (put_metric_log n v u d w0) as [b2 ->]
      end;
      (eexists; split; [reflexivity|];
       repeat split; cbn; rewrite <- app_assoc; eexists; reflexivity).
  - match goal with
    | |- context [Metrics.put_metric cfg env ?n ?v ?u ?d ?w0] =>
        destruct (put_metric_log n v u d w0) as [b2 ->]
    end.
    eexists. split; [reflexivity|].
    repeat split. eexists. reflexivity.
Qed.

Lemma gateway_answer_fails (p : GenerationPayload) :
  generation_fails env p -> gateway_answer env p = Py.PNone.
Proof.
  unfold generation_fails, gateway_answer.
  destruct (requests_post env p) as [[status [v|]]|]; try reflexivity.
  intros H. apply Nat.eqb_neq in H. now rewrite H.
Qed.

(** C2.  A POST to /api/generate with a non-empty prompt whose call to
    the generation API fails (network error or a status other than 200)
    is answered with status 500; a generation-failure metric is the last
    metric recorded; no image row and no stats change is committed, the
    database being what it was. *)
Theorem api_generate_upstream_failure
    (user : User) (fields : list (string * Py.value)) (w : World) :
  logged_in user w ->
  Py.truthy (field "prompt" (Py.PStr "") fields) = true ->
  generation_fails env (payload_of fields) ->
  let out := App.handle (App.api_generate cfg env (Some (Py.PDict fields))) w in
  fst out = Ok (App.Json 500 (App.ErrorBody "Failed to generate image"))
  /\ committed (snd out) = committed w
  /\ session (snd out) = committed w
  /\ images_of_user (u_id user) (committed (snd out))
     = images_of_user (u_id user) (committed w)
  /\ stats_by_user (u_id user) (committed (snd out))
     = stats_by_user (u_id user) (committed w)
  /\ exists calls sent,
       metric_calls (snd out) =
       metric_calls w ++ calls ++
       [{| mc_datum :=
             generation_failed_datum env (field "model" (Py.PStr "img3") fields);
           mc_sent := sent |}].
Proof.
  intros Hlog Hprompt Hfail out. subst out.
  unfold App.api_generate. rewrite (handle_logged_in user) by assumption.
  set (w0 := set_session (committed w) w).
  unfold App.api_generate_view, try_except, bind, lift.
  rewrite !get_field, Hprompt. cbn [negb].
  destruct (generate_image_returns
              (field "prompt" (Py.PStr "") fields)
              (field "model" (Py.PStr "img3") fields)
              (field "size" (Py.PStr "1024x1024") fields)
              (field "quality" (Py.PStr "standard") fields) w0)
    as (w1 & Hgen & (Hc & Hs & Hl) & _ & _ & _ & _ & _ & calls & Hm).
  rewrite Hgen.
  change {| p_model := _; p_prompt := _; p_size := _; p_quality := _;
            p_n := 1 |} with (payload_of fields).
  rewrite (gateway_answer_fails _ Hfail). cbn [Py.truthy negb].
  unfold Metrics.record_generation, Metrics.increment_counter.
  match goal with
  | |- context [Metrics.put_metric cfg env ?n ?v ?u ?d ?w0] =>
      destruct (put_metric_log n v u d w0) as [sent ->]
  end.
  cbn. rewrite Hc. cbn.
  repeat split.
  exists calls, sent. rewrite Hm. cbn. rewrite <- app_assoc.
  unfold generation_failed_datum.
  now destruct (Py.truthy (field "model" (Py.PStr "img3") fields)).
Qed.

Lemma bind_ok {A B} (m : M A) (k : A -> M B) (w w1 : World) (a : A) :
  m w = (Ok a, w1) -> bind m k w = k a w1.
Proof. intros H. unfold bind. now rewrite H. Qed.

Lemma bind_raise {A B} (m : M A) (k : A -> M B) (w w1 : World) (e : exn) :
  m w = (Raise e, w1) -> bind m k w = (Raise e, w1).
Proof. intros H. unfold bind. now rewrite H. Qed.

Lemma quiet_safe_run {A} (m : M A) (w : World) :
  quiet m -> safe m ->
  exists a w1, m w = (Ok a, w1) /\ same_db w w1.
Proof.
  intros Hq Hs. specialize (Hq w). destruct (Hs w) as [a Ha].
  destruct (m w) as [r w1]. cbn in *. subst r. now exists a, w1.
Qed.

Lemma grown_same_db user w w1 w2 new :
  same_db w w1 -> grown user new w1 w2 -> grown user new w w2.
Proof.
  intros (A1 & A2 & A3) (B1 & B2 & B3 & B4 & B5 & B6).
  unfold grown. repeat split; congruence.
Qed.

Lemma grown_nil user w : grown user [] w w.
Proof. unfold grown. rewrite app_nil_r. auto 10. Qed.

Lemma save_images_grows user prompt model_id size quality entries :
  forall i saved w,
    let out :=
      App.save_images cfg env user prompt model_id size quality i entries
        saved w in
    exists new,
      grown user new w (snd out)
      /\ (forall saved', fst out = Ok saved' ->
                         length saved' = length saved + length new)
      /\ (forallb is_dict entries = true -> exists saved', fst out = Ok saved').
Proof.
  induction entries as [|image_data rest IH]; intros i saved w out;
    subst out.
  - exists []. cbn. split; [apply grown_nil|]. split.
    + intros saved' [= <-]. lia.
    + now exists saved.
  - cbn [App.save_images forallb].
    set (filename := (now_stamp env ++ _)%string).
    assert (Hskip : forall w1, same_db w w1 ->
      let out := App.save_images cfg env user prompt model_id size quality
                   (S i) rest saved w1 in
      exists new,
        grown user new w (snd out)
        /\ (forall saved', fst out = Ok saved' ->
                           length saved' = length saved + length new)
        /\ (forallb is_dict rest = true ->
            exists saved', fst out = Ok saved')).
    { intros w1 Hw1. destruct (IH (S i) saved w1) as (new & Hg & Hlen & Hok).
      exists new. split; [|split]; auto.
      eapply grown_same_db; eauto. }
    assert (Hsaved : forall (r : option string * option string) w1,
      same_db w w1 ->
      let out :=
        (let '(s3_key, image_url) := r in
         if Py.opt_truthy image_url then
           App.add_image env i
             {| i_id := None; i_user_id := u_id user; i_prompt := prompt;
                i_model := model_id; i_filename := filename;
                i_s3_key := if USE_S3 cfg then s3_key else None;
                i_thumbnail_key := None;
                i_cloudfront_url := if USE_S3 cfg then image_url else None;
                i_size := size; i_quality := quality;
                i_created_at := None |} ;;;
           App.save_images cfg env user prompt model_id size quality (S i)
             rest
             (saved ++
              [to_dict (utcnow env)
                 {| i_id := None; i_user_id := u_id user; i_prompt := prompt;
                    i_model := model_id; i_filename := filename;
                    i_s3_key := if USE_S3 cfg then s3_key else None;
                    i_thumbnail_key := None;
                    i_cloudfront_url := if USE_S3 cfg then image_url else None;
                    i_size := size; i_quality := quality;
                    i_created_at := None |}])
         else
           App.save_images cfg env user prompt model_id size quality (S i)
             rest saved) w1 in
      exists new,
        grown user new w (snd out)
        /\ (forall saved', fst out = Ok saved' ->
                           length saved' = length saved + length new)
        /\ (forallb is_dict rest = true ->
            exists saved', fst out = Ok saved')).
    { intros [s3_key image_url] w1 Hw1.
      destruct (Py.opt_truthy image_url); [|now apply Hskip].
      unfold App.add_image, bind, modify.
      match goal with
      | |- context [App.save_images _ _ _ _ _ _ _ _ _ ?sv ?w2] =>
          destruct (IH (S i) sv w2) as (new & Hg & Hlen & Hok)
      end.
      destruct Hw1 as (A1 & A2 & A3).
      destruct Hg as (B1 & B2 & B3 & B4 & B5 & B6). cbn in B1, B2, B3, B4, B5.
      eexists (_ :: new). split; [|split].
      - unfold grown. rewrite B1, B2, B3, B4, B5, A1, A2, A3.
        rewrite <- app_assoc. cbn.
        repeat split; try reflexivity. constructor; [reflexivity|exact B6].
      - intros saved' Hs. rewrite (Hlen _ Hs), length_app. cbn. lia.
      - exact Hok. }
    destruct (Py.contains "url" image_data) as [has_url|e] eqn:Hurl.
    2:{ exists []. cbn. split; [apply grown_nil|].
        split; [discriminate|].
        intros H. apply andb_true_iff in H. destruct H as [H _].
        destruct image_data; discriminate. }
    rewrite (bind_ok _ _ w w has_url) by reflexivity.
    destruct has_url.
    + destruct (Py.getitem image_data "url") as [url|e] eqn:Hget.
      2:{ rewrite (bind_raise _ _ w w e)
            by (erewrite bind_raise; reflexivity).
          exists []. cbn. split; [apply grown_nil|].
          split; [discriminate|].
          intros H. apply andb_true_iff in H. destruct H as [H _].
          destruct image_data; try discriminate.
          cbn in Hurl, Hget. destruct (Py.lookup "url" kv); discriminate. }
      destruct (quiet_safe_run
                  (App.save_image_from_url cfg env url filename) w
                  (quiet_save_image_from_url cfg env url filename)
                  (safe_save_image_from_url cfg env url filename))
        as (r & w1 & Hrun & Hw1).
      rewrite (bind_ok _ _ w w1 (Some r)).
      2:{ rewrite (bind_ok _ _ w w url) by reflexivity.
          now rewrite (bind_ok _ _ w w1 r) by exact Hrun. }
      destruct (Hsaved r w1 Hw1) as (new & Hg & Hlen & Hok).
      exists new. split; [|split]; auto.
      intros H. apply Hok. apply andb_true_iff in H. tauto.
    + destruct (Py.contains "b64_json" image_data) as [has_b64|e] eqn:Hb64.
      2:{ destruct image_data; discriminate. }
      destruct has_b64.
      * destruct (Py.getitem image_data "b64_json") as [b64|e] eqn:Hget.
        2:{ rewrite (bind_raise _ _ w w e).
            2:{ rewrite (bind_ok _ _ w w true) by reflexivity.
                erewrite bind_raise; reflexivity. }
            exists []. cbn. split; [apply grown_nil|].
            split; [discriminate|].
            intros H. apply andb_true_iff in H. destruct H as [H _].
            destruct image_data; try discriminate.
            cbn in Hb64, Hget.
            destruct (Py.lookup "b64_json" kv); discriminate. }
        destruct (quiet_safe_run
                    (App.save_base64_image cfg env b64 filename) w
                    (quiet_save_base64_image cfg env b64 filename)
                    (safe_save_base64_image cfg env b64 filename))
          as (r & w1 & Hrun & Hw1).
        rewrite (bind_ok _ _ w w1 (Some r)).
        2:{ rewrite (bind_ok _ _ w w true) by reflexivity.
            rewrite (bind_ok _ _ w w b64) by reflexivity.
            now rewrite (bind_ok _ _ w w1 r) by exact Hrun. }
        destruct (Hsaved r w1 Hw1) as (new & Hg & Hlen & Hok).
        exists new. split; [|split]; auto.
        intros H. apply Hok. apply andb_true_iff in H. tauto.
      * rewrite (bind_ok _ _ w w None).
        2:{ now rewrite (bind_ok _ _ w w false) by reflexivity. }
        destruct (Hskip w (same_db_refl w)) as (new & Hg & Hlen & Hok).
        exists new. split; [|split]; auto.
        intros H. apply Hok. apply andb_true_iff in H. tauto.
Qed.

Lemma bind_inv_ok {A B} (m : M A) (k : A -> M B) (w w' : World) (b : B) :
  bind m k w = (Ok b, w') ->
  exists a w1, m w = (Ok a, w1) /\ k a w1 = (Ok b, w').
Proof.
  unfold bind. destruct (m w) as [[a|e] w1]; [|discriminate].
  intros H. now exists a, w1.
Qed.

Lemma lift_inv_ok {A} (r : result A) (w w' : World) (a : A) :
  lift r w = (Ok a, w') -> r = Ok a /\ w' = w.
Proof. unfold lift. now intros [= -> ->]. Qed.

Lemma quiet_run {A} (m : M A) (w w' : World) (r : result A) :
  quiet m -> m w = (r, w') -> same_db w w'.
Proof. intros Hq H. specialize (Hq w). now rewrite H in Hq. Qed.

(** *** The stats rows *)

Lemma stats_by_user_update (db : Database) (st st' : UserStats) (uid : nat) :
  stats_by_user uid db = Some st ->
  s_id st' = s_id st ->
  s_user_id st' = s_user_id st ->
  stats_by_user uid (update_stats st' db) = Some st'.
Proof.
  unfold stats_by_user, update_stats. cbn [user_stats].
  intros Hfind Hid Huid.
  assert (Hst : (s_user_id st' =? uid)%nat = true).
  { apply find_some in Hfind. now rewrite Huid. }
  induction (user_stats db) as [|r l IH]; [discriminate|].
  cbn [find map] in *.
  destruct (s_user_id r =? uid)%nat eqn:Hr.
  - injection Hfind as ->. rewrite Hid, Nat.eqb_refl. cbn [find].
    now rewrite Hst.
  - destruct (s_id r =? s_id st')%nat; cbn [find].
    + now rewrite Hst.
    + rewrite Hr. now apply IH.
Qed.

Lemma find_app_none {A} (p : A -> bool) (l : list A) (x : A) :
  find p l = None -> p x = true -> find p (l ++ [x]) = Some x.
Proof.
  induction l as [|y l IH]; cbn; intros Hl Hx.
  - now rewrite Hx.
  - destruct (p y); [discriminate|auto].
Qed.

Lemma record_stats_counts (user : User) (k : nat) (w : World) :
  exists w',
    App.record_stats env user k w = (Ok tt, w')
    /\ committed w' = committed w
    /\ login_id w' = login_id w
    /\ users (session w') = users (session w)
    /\ images (session w') = images (session w)
    /\ generations_of (u_id user) (session w')
       = (generations_of (u_id user) (session w) + 1)%Z
    /\ images_counted (u_id user) (session w')
       = (images_counted (u_id user) (session w) + Z.of_nat k)%Z
    /\ last_generation_of (u_id user) (session w') = Some (utcnow env).
Proof.
  unfold App.record_stats, generations_of, images_counted,
    last_generation_of.
  destruct (stats_by_user (u_id user) (session w)) as [st|] eqn:Hst.
  - rewrite (bind_ok _ _ w w (Some st)) by (unfold gets; now rewrite Hst).
    unfold modify. eexists. split; [reflexivity|].
    cbn [committed session login_id set_session].
    erewrite stats_by_user_update by (try exact Hst; reflexivity).
    cbn. repeat split.
  - rewrite (bind_ok _ _ w w None) by (unfold gets; now rewrite Hst).
    unfold App.add_stats, modify. eexists. split; [reflexivity|].
    cbn [committed session login_id set_session].
    replace (stats_by_user (u_id user) (insert_stats _ _ _ _ (session w)))
      with (Some {| s_id := fresh (map s_id (user_stats (session w)));
                    s_user_id := u_id user;
                    s_total_generations := 1;
                    s_last_generation := Some (utcnow env);
                    s_total_images := Z.of_nat k |}).
    + cbn. repeat split.
    + symmetry. unfold stats_by_user, insert_stats in *. cbn [user_stats].
      apply find_app_none; [exact Hst|cbn; apply Nat.eqb_refl].
Qed.

(** *** What follows the commit *)

Lemma quiet_send_sns email subject msg :
  quiet (App.send_sns_notification cfg env email subject msg).
Proof. unfold App.send_sns_notification. auto 10 with frames. Qed.

Lemma safe_send_sns email subject msg :
  safe (App.send_sns_notification cfg env email subject msg).
Proof. unfold App.send_sns_notification. auto 10 with frames. Qed.

Lemma quiet_notify (user : User) (prompt : Py.value) :
  quiet
    (try_except
       (head <- lift (App.head100 prompt) ;;
        App.send_sns_notification cfg env (u_email user)
          "Image Generation Complete" (GenerationComplete head) ;;;
        ret tt)
       (fun _ => ret tt)).
Proof. pose proof quiet_send_sns. auto 10 with frames. Qed.

(** the [except] clause of [api_generate] *)
Lemma api_generate_except (e : exn) (w : World) :
  exists w',
    (rollback ;;;
     Metrics.record_error cfg env "Generation" ;;;
     ret (App.Json 500 (App.ServerErrorBody e))) w
    = (Ok (App.Json 500 (App.ServerErrorBody e)), w')
    /\ committed w' = committed w
    /\ session w' = committed w
    /\ login_id w' = login_id w.
Proof.
  unfold bind, rollback, modify, ret, Metrics.record_error,
    Metrics.increment_counter.
  match goal with
  | |- context [Metrics.put_metric cfg env ?n ?v ?u ?d ?w0] =>
      destruct (put_metric_log n v u d w0) as [sent ->]
  end.
  eexists. split; [reflexivity|]. repeat split.
Qed.

(** a request answered with 200 went through the whole of
    [api_generate]: the images it reports are the rows it added, and the
    stats were moved once *)
Lemma api_generate_view_200 (json : option Py.value) (user : User)
    (w w' : World) (r : result App.response) :
  App.api_generate_view cfg env json user w = (r, w') ->
  status_of r = 200 ->
  exists saved msg new,
    r = Ok (App.Json 200 (App.GeneratedBody saved msg))
    /\ length saved = length new
    /\ Forall (fun im => i_user_id im = u_id user) new
    /\ login_id w' = login_id w
    /\ users (committed w') = users (session w)
    /\ images (committed w') = images (session w) ++ new
    /\ generations_of (u_id user) (committed w')
       = (generations_of (u_id user) (session w) + 1)%Z
    /\ images_counted (u_id user) (committed w')
       = (images_counted (u_id user) (session w) + Z.of_nat (length new))%Z
    /\ last_generation_of (u_id user) (committed w') = Some (utcnow env).
Proof.
  unfold App.api_generate_view, try_except.
  match goal with
  | |- context [match ?body w with _ => _ end] =>
      destruct (body w) as [[resp|e] w1] eqn:E
  end.
  2:{ destruct (api_generate_except e w1) as (w2 & -> & _).
      intros [= <- <-]. discriminate. }
  intros [= <- <-] Hstatus.
  apply bind_inv_ok in E. destruct E as (data & w2 & H & E).
  apply lift_inv_ok in H. destruct H as [_ ->].
  apply bind_inv_ok in E. destruct E as (prompt & w2 & H & E).
  apply lift_inv_ok in H. destruct H as [_ ->].
  apply bind_inv_ok in E. destruct E as (model_id & w2 & H & E).
  apply lift_inv_ok in H. destruct H as [_ ->].
  apply bind_inv_ok in E. destruct E as (size & w2 & H & E).
  apply lift_inv_ok in H. destruct H as [_ ->].
  apply bind_inv_ok in E. destruct E as (quality & w2 & H & E).
  apply lift_inv_ok in H. destruct H as [_ ->].
  destruct (negb (Py.truthy prompt)).
  { injection E as <- <-. discriminate. }
  apply bind_inv_ok in E. destruct E as (result & wg & Hgen & E).
  destruct (negb (Py.truthy result)).
  { apply bind_inv_ok in E. destruct E as (? & ? & _ & E).
    injection E as <- <-. discriminate. }
  apply bind_inv_ok in E. destruct E as (data_field & w2 & H & E).
  apply lift_inv_ok in H. destruct H as [_ ->].
  apply bind_inv_ok in E. destruct E as (entries & w2 & H & E).
  apply lift_inv_ok in H. destruct H as [_ ->].
  apply bind_inv_ok in E. destruct E as (saved & ws & Hsave & E).
  apply bind_inv_ok in E. destruct E as ([] & wr & Hrec & E).
  apply bind_inv_ok in E. destruct E as ([] & wc & Hcommit & E).
  apply bind_inv_ok in E. destruct E as (? & wm & Hmetric & E).
  apply bind_inv_ok in E. destruct E as ([] & wn & Hnotify & E).
  injection E as <- <-.
  (* the facts each step contributes *)
  apply (quiet_run _ _ _ _ (quiet_notify user prompt)) in Hnotify.
  apply (quiet_run _ _ _ _ (quiet_record_generation cfg env true model_id))
    in Hmetric.
  destruct (generate_image_returns prompt model_id size quality w)
    as (wg' & Hgen' & Hg & _).
  rewrite Hgen in Hgen'. injection Hgen' as _ <-.
  destruct (save_images_grows user prompt model_id size quality entries
              0 [] wg) as (new & Hgrow & Hlen & _).
  rewrite Hsave in Hgrow, Hlen. cbn [fst snd] in Hgrow, Hlen.
  specialize (Hlen saved eq_refl). cbn in Hlen.
  destruct (record_stats_counts user (length saved) ws)
    as (wr' & Hrec' & R1 & R2 & R3 & R4 & R5 & R6 & R7).
  rewrite Hrec in Hrec'. injection Hrec' as <-.
  unfold commit in Hcommit.
  destruct (commit_accepted env (session wr)); [|discriminate].
  injection Hcommit as <-.
  destruct Hnotify as (N1 & N2 & N3). destruct Hmetric as (M1 & M2 & M3).
  destruct Hg as (G1 & G2 & G3).
  destruct Hgrow as (S1 & S2 & S3 & S4 & S5 & S6).
  cbn [committed session login_id set_committed] in *.
  exists saved. eexists. exists new.
  split; [reflexivity|]. split; [exact Hlen|]. split; [exact S6|].
  rewrite N1, M1, N3, M3, <- Hlen.
  assert (Hstats : stats_by_user (u_id user) (session ws)
                   = stats_by_user (u_id user) (session w)).
  { unfold stats_by_user. now rewrite S4, G2. }
  unfold generations_of, images_counted in *. rewrite Hstats in R5, R6.
  repeat split; congruence.
Qed.

Lemma safe_notify (user : User) (prompt : Py.value) :
  safe
    (try_except
       (head <- lift (App.head100 prompt) ;;
        App.send_sns_notification cfg env (u_email user)
          "Image Generation Complete" (GenerationComplete head) ;;;
        ret tt)
       (fun _ => ret tt)).
Proof. auto with frames. Qed.

Lemma well_shaped_entries (answer : Py.value) :
  well_shaped answer = true ->
  exists entries,
    Py.get answer "data" (Py.PList []) = Ok (Py.PList entries)
    /\ forallb is_dict entries = true.
Proof.
  destruct answer as [| | | | |kv]; try discriminate.
  cbn. destruct (Py.lookup "data" kv) as [[| | | |l|]|]; try discriminate.
  - intros H. now exists l.
  - intros _. now exists [].
Qed.

(** a request that is neither refused for its prompt nor let down by the
    gateway, whose answer has the documented shape, and whose commit the
    database accepts, is answered with 200 *)
Lemma api_generate_view_completes (user : User)
    (fields : list (string * Py.value)) (w : World) :
  Py.truthy (field "prompt" (Py.PStr "") fields) = true ->
  Py.truthy (gateway_answer env (payload_of fields)) = true ->
  well_shaped (gateway_answer env (payload_of fields)) = true ->
  exists db,
    request_rows user (session w) db
    /\ (commit_accepted env db = true ->
        exists saved msg,
          fst (App.api_generate_view cfg env (Some (Py.PDict fields)) user w)
          = Ok (App.Json 200 (App.GeneratedBody saved msg)))
    /\ (commit_accepted env db = false ->
        fst (App.api_generate_view cfg env (Some (Py.PDict fields)) user w)
        = Ok (App.Json 500 (App.ServerErrorBody DatabaseError))).
Proof.
  intros Hprompt Htruthy Hshape.
  destruct (well_shaped_entries _ Hshape) as (entries & Hdata & Hdicts).
  unfold App.api_generate_view, try_except.
  destruct (generate_image_returns
              (field "prompt" (Py.PStr "") fields)
              (field "model" (Py.PStr "img3") fields)
              (field "size" (Py.PStr "1024x1024") fields)
              (field "quality" (Py.PStr "standard") fields) w)
    as (wg & Hgen & (_ & Hsess & _) & _).
  change {| p_model := _; p_prompt := _; p_size := _; p_quality := _;
            p_n := 1 |} with (payload_of fields) in Hgen.
  destruct (save_images_grows user
              (field "prompt" (Py.PStr "") fields)
              (field "model" (Py.PStr "img3") fields)
              (field "size" (Py.PStr "1024x1024") fields)
              (field "quality" (Py.PStr "standard") fields)
              entries 0 [] wg) as (new & Hgrown & _ & Hok).
  destruct (Hok Hdicts) as (saved & Hsaved). clear Hok.
  destruct (App.save_images cfg env user _ _ _ _ 0 entries [] wg)
    as [rs ws] eqn:Hsave.
  cbn [fst] in Hsaved. subst rs.
  cbn [snd] in Hgrown.
  destruct Hgrown as (_ & _ & Husers & _ & Himages & Hown).
  destruct (record_stats_counts user (length saved) ws)
    as (wr & Hrec & _ & _ & Husers' & Himages' & _).
  exists (session wr).
  split.
  { split; [congruence|].
    exists new. split; [congruence|exact Hown]. }
  rewrite (bind_ok _ _ w w (Py.PDict fields)) by reflexivity.
  rewrite !get_field.
  rewrite (bind_ok _ _ w w (field "prompt" (Py.PStr "") fields))
    by reflexivity.
  rewrite (bind_ok _ _ w w (field "model" (Py.PStr "img3") fields))
    by reflexivity.
  rewrite (bind_ok _ _ w w (field "size" (Py.PStr "1024x1024") fields))
    by reflexivity.
  rewrite (bind_ok _ _ w w (field "quality" (Py.PStr "standard") fields))
    by reflexivity.
  rewrite Hprompt. cbn [negb].
  rewrite (bind_ok _ _ w wg _ Hgen).
  rewrite Htruthy. cbn [negb].
  rewrite Hdata.
  rewrite (bind_ok _ _ wg wg (Py.PList entries)) by reflexivity.
  rewrite (bind_ok _ _ wg wg entries) by reflexivity.
  rewrite (bind_ok _ _ wg ws saved Hsave).
  rewrite (bind_ok _ _ ws wr tt Hrec).
  split; intros Hc.
  - rewrite (bind_ok _ _ wr (set_committed (session wr) wr) tt)
      by (unfold commit; now rewrite Hc).
    destruct (quiet_safe_run _ (set_committed (session wr) wr)
                (quiet_record_generation cfg env true
                   (field "model" (Py.PStr "img3") fields))
                (safe_record_generation cfg env true
                   (field "model" (Py.PStr "img3") fields)))
      as (b & wm & Hm & _).
    rewrite (bind_ok _ _ _ wm b Hm).
    destruct (quiet_safe_run _ wm
                (quiet_notify user (field "prompt" (Py.PStr "") fields))
                (safe_notify user (field "prompt" (Py.PStr "") fields)))
      as ([] & wn & Hn & _).
    rewrite (bind_ok _ _ _ wn tt Hn).
    cbn. eauto.
  - rewrite (bind_raise _ _ wr wr DatabaseError)
      by (unfold commit; now rewrite Hc).
    destruct (api_generate_except DatabaseError wr) as (w2 & -> & _).
    reflexivity.
Qed.

(** whatever happens, [api_generate] answers with JSON and one of three
    status codes, 400 only for a prompt that is missing or empty *)
Lemma api_generate_view_answers (user : User)
    (fields : list (string * Py.value)) (w : World) :
  let r := fst (App.api_generate_view cfg env (Some (Py.PDict fields)) user w) in
  (exists saved msg, r = Ok (App.Json 200 (App.GeneratedBody saved msg)))
  \/ (exists b, r = Ok (App.Json 500 b))
  \/ (r = Ok (App.Json 400 (App.ErrorBody "Prompt is required"))
      /\ Py.truthy (field "prompt" (Py.PStr "") fields) = false).
Proof.
  intros r. subst r.
  destruct (App.api_generate_view cfg env (Some (Py.PDict fields)) user w)
    as [r w'] eqn:Hview.
  cbn [fst].
  unfold App.api_generate_view, try_except in Hview.
  match type of Hview with
  | context [match ?body w with _ => _ end] =>
      destruct (body w) as [[resp|e] w1] eqn:E
  end.
  2:{ destruct (api_generate_except e w1) as (w2 & Hx & _).
      rewrite Hx in Hview. injection Hview as <- <-. right. left. eauto. }
  injection Hview as <- <-.
  rewrite (bind_ok _ _ w w (Py.PDict fields)) in E by reflexivity.
  rewrite !get_field in E.
  rewrite (bind_ok _ _ w w (field "prompt" (Py.PStr "") fields)) in E
    by reflexivity.
  rewrite (bind_ok _ _ w w (field "model" (Py.PStr "img3") fields)) in E
    by reflexivity.
  rewrite (bind_ok _ _ w w (field "size" (Py.PStr "1024x1024") fields)) in E
    by reflexivity.
  rewrite (bind_ok _ _ w w (field "quality" (Py.PStr "standard") fields))
    in E by reflexivity.
  destruct (Py.truthy (field "prompt" (Py.PStr "") fields)); cbn [negb] in E.
  2:{ injection E as <- <-. right. right. auto. }
  apply bind_inv_ok in E. destruct E as (result & wg & _ & E).
  destruct (negb (Py.truthy result)).
  { apply bind_inv_ok in E. destruct E as (? & ? & _ & E).
    injection E as <- <-. right. left. eauto. }
  apply bind_inv_ok in E. destruct E as (? & ? & _ & E).
  apply bind_inv_ok in E. destruct E as (? & ? & _ & E).
  apply bind_inv_ok in E. destruct E as (saved & ? & _ & E).
  apply bind_inv_ok in E. destruct E as (? & ? & _ & E).
  apply bind_inv_ok in E. destruct E as (? & ? & _ & E).
  apply bind_inv_ok in E. destruct E as (? & ? & _ & E).
  apply bind_inv_ok in E. destruct E as (? & ? & _ & E).
  injection E as <- <-. left. eauto.
Qed.

(** C9, as the code has it.  For a signed-in requester.  A body that is
    a JSON object with a missing or empty prompt is answered with 400
    before anything is sent to the generation gateway (no request, no
    metric, no write); a JSON object with a non-empty prompt is never
    answered with 400; it is answered with 500 only when the gateway
    delivered nothing (a failed call or an empty answer), when the answer
    is not of the documented shape, or when the database refused the rows
    of this very request (the users as committed, the committed images
    followed by images of the requester); every other JSON object is
    answered with 200 and the JSON body of the saved images.  A body that
    is not a JSON object never reaches the test of the prompt: it is
    answered with 500, whether it is no JSON at all or JSON of another
    kind, a prompt being absent from it or not. *)
Theorem api_generate_status_codes
    (user : User) (json : option Py.value) (w : World) :
  logged_in user w ->
  let out := App.handle (App.api_generate cfg env json) w in
  (json = None ->
     fst out = Ok (App.Json 500 (App.ServerErrorBody BadRequest)))
  /\ (forall v, json = Some v -> is_dict v = false ->
        fst out = Ok (App.Json 500 (App.ServerErrorBody AttributeError)))
  /\ (forall fields, json = Some (Py.PDict fields) ->
      let prompt := field "prompt" (Py.PStr "") fields in
      let answer := gateway_answer env (payload_of fields) in
      (Py.truthy prompt = false ->
         fst out = Ok (App.Json 400 (App.ErrorBody "Prompt is required"))
         /\ api_calls (snd out) = api_calls w
         /\ metric_calls (snd out) = metric_calls w
         /\ committed (snd out) = committed w
         /\ media (snd out) = media w
         /\ bucket (snd out) = bucket w)
      /\ (Py.truthy prompt = true -> status_of (fst out) <> 400)
      /\ (status_of (fst out) = 500 ->
            Py.truthy prompt = true
            /\ (Py.truthy answer = false
                \/ well_shaped answer = false
                \/ exists db,
                     request_rows user (committed w) db
                     /\ commit_accepted env db = false))
      /\ (status_of (fst out) <> 400 -> status_of (fst out) <> 500 ->
            exists saved msg,
              fst out = Ok (App.Json 200 (App.GeneratedBody saved msg)))).
Proof.
  intros Hlog out. subst out.
  unfold App.api_generate. rewrite (handle_logged_in user) by assumption.
  set (w0 := set_session (committed w) w). cbn [fst snd].
  split; [|split].
  { intros ->. unfold App.api_generate_view, try_except.
    rewrite (bind_raise _ _ _ w0 BadRequest) by reflexivity.
    destruct (api_generate_except BadRequest w0) as (w' & -> & _).
    reflexivity. }
  { intros v -> Hv. unfold App.api_generate_view, try_except.
    rewrite (bind_ok _ _ _ _ v) by reflexivity.
    rewrite (bind_raise _ _ _ w0 AttributeError)
      by (destruct v; [reflexivity ..|discriminate Hv]).
    destruct (api_generate_except AttributeError w0) as (w' & -> & _).
    reflexivity. }
  intros fields ->.
  set (prompt := field "prompt" (Py.PStr "") fields).
  set (answer := gateway_answer env (payload_of fields)).
  assert (H400 : Py.truthy prompt = false ->
            App.api_generate_view cfg env (Some (Py.PDict fields)) user w0
            = (Ok (App.Json 400 (App.ErrorBody "Prompt is required")), w0)).
  { intros Hp. unfold App.api_generate_view, try_except.
    rewrite (bind_ok _ _ w0 w0 (Py.PDict fields)) by reflexivity.
    rewrite !get_field.
    rewrite (bind_ok _ _ w0 w0 (field "prompt" (Py.PStr "") fields))
      by reflexivity.
    rewrite (bind_ok _ _ w0 w0 (field "model" (Py.PStr "img3") fields))
      by reflexivity.
    rewrite (bind_ok _ _ w0 w0 (field "size" (Py.PStr "1024x1024") fields))
      by reflexivity.
    rewrite (bind_ok _ _ w0 w0 (field "quality" (Py.PStr "standard") fields))
      by reflexivity.
    fold prompt. rewrite Hp. reflexivity. }
  pose proof (api_generate_view_answers user fields w0) as Hans.
  cbv zeta in Hans. fold prompt in Hans.
  split; [|split; [|split]].
  - intros Hp. rewrite (H400 Hp). cbn. auto 10.
  - intros Hp.
    destruct Hans as [(s & m & ->)|[(b & ->)|[_ Hf]]];
      [discriminate|discriminate|congruence].
  - intros H500.
    destruct (Py.truthy prompt) eqn:Hp.
    2:{ rewrite (H400 eq_refl) in H500. discriminate. }
    split; [reflexivity|].
    destruct (Py.truthy answer) eqn:Ha; [|now left].
    destruct (well_shaped answer) eqn:Hs; [|now right; left].
    right. right.
    destruct (api_generate_view_completes user fields w0 Hp Ha Hs)
      as (db & Hrows & Hyes & _).
    exists db. split; [exact Hrows|].
    destruct (commit_accepted env db); [|reflexivity].
    destruct (Hyes eq_refl) as (s & m & Hr). rewrite Hr in H500.
    discriminate.
  - intros N400 N500.
    destruct Hans as [H|[(b & Hb)|[H _]]].
    + exact H.
    + rewrite Hb in N500. now contradiction N500.
    + rewrite H in N400. now contradiction N400.
Qed.

(** *** Requests outside the documented interface *)

(** a requester who is not signed in is sent to the login page, with the
    notice of Flask-Login *)
Remark api_generate_anonymous (json : option Py.value) (w : World) :
  anonymous w ->
  let out := App.handle (App.api_generate cfg env json) w in
  fst out = Ok (App.Redirect "/login?next=%2Fapi%2Fgenerate")
  /\ flashes (snd out) = flashes w ++ [(App.login_message, "message")]
  /\ committed (snd out) = committed w.
Proof.
  intros Hanon. unfold App.handle, App.api_generate, App.login_required,
    App.current_user, bind, gets.
  cbn [login_id set_session]. rewrite Hanon. cbn. auto.
Qed.

(** a body that is JSON but not an object has no [get]: the catch-all
    clause answers 500 *)
Remark api_generate_not_an_object (user : User) (l : list Py.value)
    (w : World) :
  logged_in user w ->
  fst (App.handle (App.api_generate cfg env (Some (Py.PList l))) w)
  = Ok (App.Json 500 (App.ServerErrorBody AttributeError)).
Proof.
  intros Hlog. unfold App.api_generate.
  rewrite (handle_logged_in user) by assumption. cbn [fst].
  unfold App.api_generate_view, try_except.
  rewrite (bind_ok _ _ _ _ (Py.PList l)) by reflexivity.
  rewrite (bind_raise _ _ _ (set_session (committed w) w) AttributeError)
    by reflexivity.
  destruct (api_generate_except AttributeError (set_session (committed w) w))
    as (w' & -> & _).
  reflexivity.
Qed.

(** so has a request without a JSON body *)
Remark api_generate_no_json (user : User) (w : World) :
  logged_in user w ->
  fst (App.handle (App.api_generate cfg env None) w)
  = Ok (App.Json 500 (App.ServerErrorBody BadRequest)).
Proof.
  intros Hlog. unfold App.api_generate.
  rewrite (handle_logged_in user) by assumption. cbn [fst].
  unfold App.api_generate_view, try_except.
  rewrite (bind_raise _ _ _ (set_session (committed w) w) BadRequest)
    by reflexivity.
  destruct (api_generate_except BadRequest (set_session (committed w) w))
    as (w' & -> & _).
  reflexivity.
Qed.

End Generate.

Section Requests.
Import Models Runtime Spec.

Variable cfg : Config.

Lemma last_cons {A} (a : A) (l : list A) (d : A) :
  last (a :: l) d = last l a.
Proof.
  revert a d. induction l as [|b l IH]; intros a d; [reflexivity|].
  change (last (a :: b :: l) d) with (last (b :: l) d).
  now rewrite (IH b d), (IH b a).
Qed.

Lemma length_images_of_user (uid : nat) (db db' : Database)
    (new : list Image) :
  images db' = images db ++ new ->
  Forall (fun im => i_user_id im = uid) new ->
  length (images_of_user uid db')
  = length (images_of_user uid db) + length new.
Proof.
  unfold images_of_user. intros -> Hnew.
  rewrite filter_app, length_app. f_equal.
  induction Hnew as [|im l Him _ IH]; [reflexivity|].
  cbn. rewrite Him, Nat.eqb_refl. cbn. now rewrite IH.
Qed.

(** C3.  Every request to /api/generate that is answered with 200 moves
    the requester's stats once: [total_generations] goes up by one,
    [total_images] by the number of images the request saved (the rows it
    added, which are the images it reports), and [last_generation] is
    set.  So after [N] such requests saving [k_1 .. k_N] images the
    counters have grown by [N] and by the sum of the [k_i]; from the
    zero-valued row of a new user they are [N] and that sum. *)
Theorem stats_once_per_request
    (user : User) (reqs : list (Env * option Py.value)) (w : World) :
  logged_in user w ->
  let out := serve_all cfg reqs w in
  Forall (fun r => status_of r = 200) (fst out) ->
  let N := Z.of_nat (length reqs) in
  let K := list_sum (map images_reported (fst out)) in
  generations_of (u_id user) (committed (snd out))
  = (generations_of (u_id user) (committed w) + N)%Z
  /\ images_counted (u_id user) (committed (snd out))
     = (images_counted (u_id user) (committed w) + Z.of_nat K)%Z
  /\ length (images_of_user (u_id user) (committed (snd out)))
     = length (images_of_user (u_id user) (committed w)) + K
  /\ last_generation_of (u_id user) (committed (snd out))
     = last (map (fun q => Some (utcnow (fst q))) reqs)
         (last_generation_of (u_id user) (committed w))
  /\ (generations_of (u_id user) (committed w) = 0%Z ->
      images_counted (u_id user) (committed w) = 0%Z ->
      generations_of (u_id user) (committed (snd out)) = N
      /\ images_counted (u_id user) (committed (snd out)) = Z.of_nat K).
Proof.
  revert w. induction reqs as [|[env json] rest IH]; intros w Hlog out Hall N K.
  - subst out N K. cbn [serve_all fst snd length map list_sum last Z.of_nat].
    rewrite !Z.add_0_r, Nat.add_0_r. repeat split; auto.
  - subst out N K. cbn [serve_all] in *.
    unfold App.api_generate in *.
    rewrite (handle_logged_in user) in * by assumption.
    set (w0 := set_session (committed w) w) in *.
    destruct (App.api_generate_view cfg env json user w0) as [r w'] eqn:Hview.
    cbn [fst snd] in *.
    set (w1 := set_session (committed w') w') in *.
    destruct (serve_all cfg rest w1) as [rs w2] eqn:Hrest.
    cbn [fst snd] in *.
    apply Forall_cons_iff in Hall. destruct Hall as [H200 Hall].
    destruct (api_generate_view_200 cfg env json user w0 w' r Hview H200)
      as (saved & msg & new & -> & Hlen & Hown & Hid & Husers & Himgs
          & Hgens & Hcount & Hlast).
    cbn [session set_session w0] in Husers, Himgs, Hgens, Hcount.
    assert (Hlog1 : logged_in user w1).
    { destruct Hlog as [L1 L2]. split.
      - cbn. now rewrite Hid.
      - cbn. unfold user_by_id in *. now rewrite Husers. }
    specialize (IH w1 Hlog1). rewrite Hrest in IH. cbn [fst snd] in IH.
    destruct (IH Hall) as (I1 & I2 & I3 & I4 & _).
    cbn [committed set_session w1] in I1, I2, I3, I4.
    cbn [map list_sum images_reported images_in length fst].
    rewrite last_cons, I1, I2, I3, I4, Hgens, Hcount, Hlast.
    rewrite (length_images_of_user _ _ _ _ Himgs Hown), Hlen.
    change (list_sum (length new :: map images_reported rs))
      with (length new + list_sum (map images_reported rs)).
    repeat split; intros; lia.
Qed.

End Requests.

(** ** Where the bytes go *)

Section Fallback.
Import Models Runtime Spec.
Local Open Scope app_scope.

Variable cfg : Config.
Variable env : Env.

Lemma lookup_head {A} (k : string) (v : A) (l : list (string * A)) :
  Py.lookup k ((k, v) :: l) = Some v.
Proof. cbn. now rewrite String.eqb_refl. Qed.

Lemma s3_key_truthy (filename : string) :
  Py.opt_truthy (Some ("images/" ++ filename)%string) = true.
Proof. reflexivity. Qed.

(** [upload_to_s3], case by case *)
Lemma upload_to_s3_cases (data : bytes) (filename : string) (w : World) :
  let key := ("images/" ++ filename)%string in
  let out := App.upload_to_s3 cfg env data filename w in
  if negb (s3_client cfg) || negb (Py.opt_truthy (S3_BUCKET_NAME cfg))
  then out = (Ok App.UNone, w)
  else if put_object env key data
  then out = (Ok (App.UPair (Some key) (Some (App.get_cloudfront_url cfg key))),
              set_bucket ((key, data) :: bucket w) w)
  else exists sent,
      out = (Ok (App.UPair None None),
             set_metric_calls
               (metric_calls w ++
                [{| mc_datum :=
                      {| MetricName := "ApplicationErrors"; Value := 1;
                         Unit := "Count"; Timestamp := utcnow env;
                         Dimensions := [("ErrorType", Py.PStr "S3Upload")] |};
                    mc_sent := sent |}]) w).
Proof.
  intros key out. subst out. unfold App.upload_to_s3.
  destruct (negb (s3_client cfg) || negb (Py.opt_truthy (S3_BUCKET_NAME cfg)));
    [reflexivity|].
  unfold try_except, App.s3_put_object, bind. fold key.
  destruct (put_object env key data); [reflexivity|].
  unfold raise, Metrics.record_error, Metrics.increment_counter.
  match goal with
  | |- context [Metrics.put_metric cfg env ?n ?v ?u ?d ?w0] =>
      destruct (put_metric_log cfg env n v u d w0) as [sent ->]
  end.
  now exists sent.
Qed.

(** the storage step with S3 switched on, case by case *)
Lemma store_cases (data : bytes) (filename : string) (w : World) :
  USE_S3 cfg = true ->
  let key := ("images/" ++ filename)%string in
  let out := App.store cfg env data filename w in
  if negb (s3_client cfg) || negb (Py.opt_truthy (S3_BUCKET_NAME cfg))
  then out = (Raise TypeError, w)
  else if put_object env key data
  then out = (Ok (Some key, Some (App.get_cloudfront_url cfg key)),
              set_bucket ((key, data) :: bucket w) w)
  else exists w1,
      App.upload_to_s3 cfg env data filename w = (Ok (App.UPair None None), w1)
      /\ media w1 = media w
      /\ bucket w1 = bucket w
      /\ same_db w w1
      /\ out = if write_accepted env filename data
               then (Ok (Some filename, Some ("/media/" ++ filename)%string),
                     set_media ((filename, data) :: media w1) w1)
               else (Raise OSError, w1).
Proof.
  intros Huse key out. subst out. unfold App.store. rewrite Huse.
  pose proof (upload_to_s3_cases data filename w) as Hup.
  cbv zeta in Hup. fold key in Hup.
  destruct (negb (s3_client cfg) || negb (Py.opt_truthy (S3_BUCKET_NAME cfg))).
  - rewrite (bind_ok _ _ w w App.UNone Hup). reflexivity.
  - destruct (put_object env key data).
    + rewrite (bind_ok _ _ _ _ _ Hup). reflexivity.
    + destruct Hup as [sent Hup].
      rewrite (bind_ok _ _ _ _ _ Hup).
      eexists. split; [exact Hup|].
      split; [reflexivity|]. split; [reflexivity|]. split; [repeat split|].
      cbn [App.unpack lift bind Py.opt_truthy].
      unfold App.save_local, App.write_file.
      now destruct (write_accepted env filename data).
Qed.

Lemma serve_media_file (user : User) (url filename : string)
    (data : bytes) (w : World) :
  App.served_folder cfg env = App.written_folder cfg env ->
  logged_in user w ->
  Py.lookup filename (media w) = Some data ->
  fst (App.handle (App.serve_media cfg env url filename) w)
  = Ok (App.SendFile data).
Proof.
  intros Hdir Hlog Hfile. unfold App.serve_media.
  rewrite (handle_logged_in user) by assumption. cbn [fst].
  unfold bind, gets, App.served_file. rewrite Hdir, String.eqb_refl.
  cbn [media set_session]. now rewrite Hfile.
Qed.

(** when the folder served is not the folder written, what is served
    does not depend on what the application has stored *)
Lemma serve_media_elsewhere (user : User) (url filename : string)
    (w : World) :
  App.served_folder cfg env <> App.written_folder cfg env ->
  logged_in user w ->
  fst (App.handle (App.serve_media cfg env url filename) w)
  = Ok (match files_elsewhere env (App.served_folder cfg env) filename with
        | Some content => App.SendFile content
        | None => App.NotFound
        end).
Proof.
  intros Hdir Hlog. unfold App.serve_media.
  rewrite (handle_logged_in user) by assumption. cbn [fst].
  unfold bind, gets, App.served_file.
  apply String.eqb_neq in Hdir. rewrite Hdir.
  now destruct (files_elsewhere env _ filename).
Qed.

Lemma logged_in_same_db (user : User) (w w' : World) :
  same_db w w' -> logged_in user w -> logged_in user w'.
Proof.
  intros (H1 & H2 & H3) [L1 L2]. split; congruence.
Qed.

Lemma store_falls_back (user : User) (data : bytes) (filename : string)
    (w : World) :
  USE_S3 cfg = true ->
  s3_client cfg = true ->
  Py.opt_truthy (S3_BUCKET_NAME cfg) = true ->
  put_object env ("images/" ++ filename) data = false ->
  write_accepted env filename data = true ->
  App.served_folder cfg env = App.written_folder cfg env ->
  logged_in user w ->
  kept_locally cfg env filename data (App.store cfg env data filename w)
  /\ same_db w (snd (App.store cfg env data filename w)).
Proof.
  intros Huse Hclient Hbucket Hput Hwrite Hdir Hlog.
  pose proof (store_cases data filename w Huse) as H.
  cbv zeta in H. rewrite Hclient, Hbucket, Hput, Hwrite in H.
  cbn [negb orb] in H.
  destruct H as (w1 & _ & _ & _ & Hdb & ->).
  assert (Hdb' : same_db w (set_media ((filename, data) :: media w1) w1)).
  { destruct Hdb as (A & B & C). repeat split; assumption. }
  split; [|exact Hdb'].
  split; [reflexivity|]. split; cbn [fst snd].
  - cbn [media set_media]. apply lookup_head.
  - intros url. apply (serve_media_file user); [exact Hdir| |].
    + now apply (logged_in_same_db user w).
    + cbn [media set_media]. apply lookup_head.
Qed.

(** C8, as the code has it.  With object storage switched on and its
    client and bucket in place, an upload that fails does not lose the
    image provided that the file can be written to the media folder: the
    bytes are written under the generated file name and the URL
    ["/media/<filename>"] is returned.  That route serves the bytes
    provided that the folder it reads ([MEDIA_FOLDER] under the root
    path of the application) is the folder written ([MEDIA_FOLDER] under
    the working directory).  This holds for the storage step itself and
    for both ways an image arrives (a URL that answers 200, an inline
    base64 payload). *)
Theorem upload_failure_falls_back_to_local
    (user : User) (data : bytes) (filename : string) (w : World) :
  USE_S3 cfg = true ->
  s3_client cfg = true ->
  Py.opt_truthy (S3_BUCKET_NAME cfg) = true ->
  put_object env ("images/" ++ filename) data = false ->
  write_accepted env filename data = true ->
  App.served_folder cfg env = App.written_folder cfg env ->
  logged_in user w ->
  kept_locally cfg env filename data (App.store cfg env data filename w)
  /\ (forall url,
        requests_get env url = Some (200, data) ->
        kept_locally cfg env filename data
          (App.save_image_from_url cfg env (Py.PStr url) filename w))
  /\ (forall b64,
        App.decode_payload b64 = Ok data ->
        kept_locally cfg env filename data
          (App.save_base64_image cfg env b64 filename w)).
Proof.
  intros Huse Hclient Hbucket Hput Hwrite Hdir Hlog.
  destruct (store_falls_back user data filename w Huse Hclient Hbucket
              Hput Hwrite Hdir Hlog) as [Hkept _].
  split; [exact Hkept|]. split.
  - intros url Hget.
    unfold App.save_image_from_url, try_except, App.http_get.
    rewrite Hget.
    rewrite (bind_ok _ _ w w (200, data)) by reflexivity.
    cbn [Nat.eqb].
    destruct (App.store cfg env data filename w) as [[r|e] w1] eqn:Hs.
    + exact Hkept.
    + destruct Hkept as [Hr _]. discriminate.
  - intros b64 Hdec.
    unfold App.save_base64_image, try_except.
    rewrite Hdec.
    rewrite (bind_ok _ _ w w data) by reflexivity.
    destruct (App.store cfg env data filename w) as [[r|e] w1] eqn:Hs.
    + exact Hkept.
    + destruct Hkept as [Hr _]. discriminate.
Qed.

(** the [except] clause of the two [save_*] functions *)
Lemma save_except (error_type : string) (w : World) :
  exists sent,
    (Metrics.record_error cfg env error_type ;;;
     ret (@None string, @None string)) w
    = (Ok (None, None),
       set_metric_calls (metric_calls w ++ [error_call env error_type sent]) w).
Proof.
  unfold bind, Metrics.record_error, Metrics.increment_counter.
  match goal with
  | |- context [Metrics.put_metric cfg env ?n ?v ?u ?d ?w0] =>
      destruct (put_metric_log cfg env n v u d w0) as [sent ->]
  end.
  now exists sent.
Qed.

(** [save_image_from_url] on a URL, case by case *)
Lemma save_image_from_url_cases (url filename : string) (w : World) :
  let out := App.save_image_from_url cfg env (Py.PStr url) filename w in
  match requests_get env url with
  | Some (status, content) =>
      if (status =? 200)%nat then
        match App.store cfg env content filename w with
        | (Ok r, w1) => out = (Ok r, w1)
        | (Raise _, w1) =>
            exists sent,
              out = (Ok (None, None),
                     set_metric_calls
                       (metric_calls w1 ++ [error_call env "ImageSave" sent])
                       w1)
        end
      else out = (Ok (None, None), w)
  | None =>
      exists sent,
        out = (Ok (None, None),
               set_metric_calls
                 (metric_calls w ++ [error_call env "ImageSave" sent]) w)
  end.
Proof.
  intros out. subst out.
  unfold App.save_image_from_url, try_except, App.http_get.
  destruct (requests_get env url) as [[status content]|].
  - rewrite (bind_ok _ _ w w (status, content)) by reflexivity.
    destruct (status =? 200)%nat; [|reflexivity].
    destruct (App.store cfg env content filename w) as [[r|e] w1];
      [reflexivity|apply save_except].
  - rewrite (bind_raise _ _ w w RequestException) by reflexivity.
    apply save_except.
Qed.

(** [save_base64_image], case by case *)
Lemma save_base64_image_cases (b64 : Py.value) (filename : string)
    (w : World) :
  let out := App.save_base64_image cfg env b64 filename w in
  match App.decode_payload b64 with
  | Ok data =>
      match App.store cfg env data filename w with
      | (Ok r, w1) => out = (Ok r, w1)
      | (Raise _, w1) =>
          exists sent,
            out = (Ok (None, None),
                   set_metric_calls
                     (metric_calls w1 ++ [error_call env "Base64Save" sent]) w1)
      end
  | Raise _ =>
      exists sent,
        out = (Ok (None, None),
               set_metric_calls
                 (metric_calls w ++ [error_call env "Base64Save" sent]) w)
  end.
Proof.
  intros out. subst out.
  unfold App.save_base64_image, try_except.
  destruct (App.decode_payload b64) as [data|e].
  - rewrite (bind_ok _ _ w w data) by reflexivity.
    destruct (App.store cfg env data filename w) as [[r|e] w1];
      [reflexivity|apply save_except].
  - rewrite (bind_raise _ _ w w e) by reflexivity.
    apply save_except.
Qed.

(** when the storage step writes to the media folder with S3 switched
    on, a [put_object] call has failed *)
Lemma store_writes_media (data : bytes) (filename : string) (w : World) :
  USE_S3 cfg = true ->
  media (snd (App.store cfg env data filename w)) <> media w ->
  s3_client cfg = true
  /\ Py.opt_truthy (S3_BUCKET_NAME cfg) = true
  /\ put_object env ("images/" ++ filename) data = false
  /\ exists w1,
       App.upload_to_s3 cfg env data filename w
       = (Ok (App.UPair None None), w1).
Proof.
  intros Huse Hmedia.
  pose proof (store_cases data filename w Huse) as H. cbv zeta in H.
  destruct (s3_client cfg); cbn [negb orb] in H.
  2:{ rewrite H in Hmedia. now contradiction Hmedia. }
  destruct (Py.opt_truthy (S3_BUCKET_NAME cfg)); cbn [negb] in H.
  2:{ rewrite H in Hmedia. now contradiction Hmedia. }
  destruct (put_object env ("images/" ++ filename) data).
  { rewrite H in Hmedia. now contradiction Hmedia. }
  destruct H as (w1 & Hup & _). eauto.
Qed.

(** C10.  With object storage switched on but no S3 client or no bucket
    name, [upload_to_s3] returns a bare [None]; unpacking it raises in
    the caller, whose handler records the error and returns
    [(None, None)]: the image is dropped, nothing is written to the media
    folder.  The media folder is written only after [upload_to_s3] has
    returned [(None, None)] for a [put_object] call that failed. *)
Theorem missing_client_drops_image
    (data : bytes) (filename : string) (w : World) :
  USE_S3 cfg = true ->
  (s3_client cfg = false \/ Py.opt_truthy (S3_BUCKET_NAME cfg) = false ->
     App.upload_to_s3 cfg env data filename w = (Ok App.UNone, w)
     /\ App.unpack App.UNone = Raise TypeError
     /\ App.store cfg env data filename w = (Raise TypeError, w)
     /\ (forall url,
           requests_get env url = Some (200, data) ->
           let out :=
             App.save_image_from_url cfg env (Py.PStr url) filename w in
           dropped w out
           /\ exists sent,
                metric_calls (snd out)
                = metric_calls w ++ [error_call env "ImageSave" sent])
     /\ (forall b64,
           App.decode_payload b64 = Ok data ->
           let out := App.save_base64_image cfg env b64 filename w in
           dropped w out
           /\ exists sent,
                metric_calls (snd out)
                = metric_calls w ++ [error_call env "Base64Save" sent]))
  /\ (media (snd (App.store cfg env data filename w)) <> media w ->
        s3_client cfg = true
        /\ Py.opt_truthy (S3_BUCKET_NAME cfg) = true
        /\ put_object env ("images/" ++ filename) data = false
        /\ exists w1,
             App.upload_to_s3 cfg env data filename w
             = (Ok (App.UPair None None), w1))
  /\ (forall url,
        media (snd (App.save_image_from_url cfg env (Py.PStr url) filename w))
        <> media w ->
        exists content w1,
          requests_get env url = Some (200, content)
          /\ put_object env ("images/" ++ filename) content = false
          /\ App.upload_to_s3 cfg env content filename w
             = (Ok (App.UPair None None), w1))
  /\ (forall b64,
        media (snd (App.save_base64_image cfg env b64 filename w))
        <> media w ->
        exists content w1,
          App.decode_payload b64 = Ok content
          /\ put_object env ("images/" ++ filename) content = false
          /\ App.upload_to_s3 cfg env content filename w
             = (Ok (App.UPair None None), w1)).
Proof.
  intros Huse. split; [|split; [|split]].
  - intros Hmissing.
    assert (Hoff : negb (s3_client cfg)
                   || negb (Py.opt_truthy (S3_BUCKET_NAME cfg)) = true).
    { destruct Hmissing as [-> | ->]; [reflexivity|apply orb_true_r]. }
    pose proof (upload_to_s3_cases data filename w) as Hup.
    pose proof (store_cases data filename w Huse) as Hstore.
    cbv zeta in Hup, Hstore. rewrite Hoff in Hup, Hstore.
    split; [exact Hup|]. split; [reflexivity|]. split; [exact Hstore|].
    split.
    + intros url Hget out. subst out.
      pose proof (save_image_from_url_cases url filename w) as H.
      cbv zeta in H. rewrite Hget, Nat.eqb_refl, Hstore in H.
      destruct H as [sent ->]. split; [repeat split|now exists sent].
    + intros b64 Hdec out. subst out.
      pose proof (save_base64_image_cases b64 filename w) as H.
      cbv zeta in H. rewrite Hdec, Hstore in H.
      destruct H as [sent ->]. split; [repeat split|now exists sent].
  - now apply store_writes_media.
  - intros url Hmedia.
    pose proof (save_image_from_url_cases url filename w) as H.
    cbv zeta in H.
    destruct (requests_get env url) as [[status content]|].
    2:{ destruct H as [sent H]. rewrite H in Hmedia.
        now contradiction Hmedia. }
    destruct (Nat.eqb_spec status 200) as [->|Hne].
    2:{ rewrite H in Hmedia. now contradiction Hmedia. }
    destruct (App.store cfg env content filename w) as [[r|e] w1] eqn:Hs.
    + rewrite H in Hmedia.
      destruct (store_writes_media content filename w Huse)
        as (_ & _ & Hput & w2 & Hup).
      { now rewrite Hs. }
      eauto.
    + destruct H as [sent H]. rewrite H in Hmedia. cbn in Hmedia.
      destruct (store_writes_media content filename w Huse)
        as (_ & _ & Hput & w2 & Hup).
      { now rewrite Hs. }
      eauto.
  - intros b64 Hmedia.
    pose proof (save_base64_image_cases b64 filename w) as H.
    cbv zeta in H.
    destruct (App.decode_payload b64) as [content|e].
    2:{ destruct H as [sent H]. rewrite H in Hmedia.
        now contradiction Hmedia. }
    destruct (App.store cfg env content filename w) as [[r|e] w1] eqn:Hs.
    + rewrite H in Hmedia.
      destruct (store_writes_media content filename w Huse)
        as (_ & _ & Hput & w2 & Hup).
      { now rewrite Hs. }
      eauto.
    + destruct H as [sent H]. rewrite H in Hmedia. cbn in Hmedia.
      destruct (store_writes_media content filename w Huse)
        as (_ & _ & Hput & w2 & Hup).
      { now rewrite Hs. }
      eauto.
Qed.

End Fallback.

(** ** Accounts *)

Section Accounts.
Import Models Runtime Spec.
Local Open Scope app_scope.

Variable bcrypt_kdf : string -> string -> string.
Variable cfg : Config.

Lemma str_truthy_ne (s : string) : s <> "" -> Py.str_truthy s = true.
Proof.
  intros H. unfold Py.str_truthy. apply negb_true_iff.
  now apply String.eqb_neq.
Qed.

Lemma current_user_anonymous (w : World) :
  login_id w = None -> App.current_user w = (Ok None, w).
Proof.
  intros H. unfold App.current_user, bind, gets. now rewrite H.
Qed.

Lemma flash_run (msg category : string) (w : World) :
  flash msg category w
  = (Ok tt, set_flashes (flashes w ++ [(msg, category)]) w).
Proof. reflexivity. Qed.

Lemma commit_ok (env : Env) (w : World) :
  commit_accepted env (session w) = true ->
  commit env w = (Ok tt, set_committed (session w) w).
Proof. intros H. unfold commit. now rewrite H. Qed.

Lemma commit_refused (env : Env) (w : World) :
  commit_accepted env (session w) = false ->
  commit env w = (Raise DatabaseError, w).
Proof. intros H. unfold commit. now rewrite H. Qed.

(** the [except] clause of [register] *)
Lemma register_except (env : Env) (w : World) :
  exists w',
    (rollback ;;;
     Metrics.record_error cfg env "Registration" ;;;
     flash "An error occurred. Please try again." "error" ;;;
     ret (App.Render "register.html")) w
    = (Ok (App.Render "register.html"), w')
    /\ committed w' = committed w
    /\ session w' = committed w
    /\ login_id w' = login_id w.
Proof.
  unfold bind, rollback, modify, ret, flash, Metrics.record_error,
    Metrics.increment_counter.
  match goal with
  | |- context [Metrics.put_metric cfg env ?n ?v ?u ?d ?w0] =>
      destruct (put_metric_log cfg env n v u d w0) as [sent ->]
  end.
  eexists. split; [reflexivity|]. repeat split.
Qed.

(** what follows the second commit of [register] *)
Lemma register_finish (env : Env) (email username : string) (w : World) :
  exists w',
    (Metrics.record_user_registration cfg env ;;;
     App.send_sns_notification cfg env email
       "Welcome to AI Image Generator" (WelcomeMessage username) ;;;
     flash "Registration successful! Please log in." "success" ;;;
     ret (App.Redirect "/login")) w
    = (Ok (App.Redirect "/login"), w')
    /\ same_db w w'.
Proof.
  destruct (quiet_safe_run _ w
              (quiet_put_metric cfg env "UserRegistrations" 1 "Count" [])
              (safe_put_metric cfg env "UserRegistrations" 1 "Count" []))
    as (b & w1 & H1 & D1).
  destruct (quiet_safe_run _ w1
              (quiet_send_sns cfg env email "Welcome to AI Image Generator"
                 (WelcomeMessage username))
              (safe_send_sns cfg env email "Welcome to AI Image Generator"
                 (WelcomeMessage username)))
    as (b' & w2 & H2 & D2).
  unfold Metrics.record_user_registration, Metrics.increment_counter.
  rewrite (bind_ok _ _ _ _ _ H1), (bind_ok _ _ _ _ _ H2).
  rewrite (bind_ok _ _ _ _ _ (flash_run _ _ w2)).
  eexists. split; [reflexivity|].
  eapply same_db_trans; [exact D1|].
  eapply same_db_trans; [exact D2|]. repeat split.
Qed.

(** [register] on a well-formed form with a new name and a new address:
    the outcome follows the two commits *)
Lemma register_new_cases (env : Env) (request : App.FormRequest)
    (username email password : string) (w : World) :
  App.current_user (set_session (committed w) w)
  = (Ok None, set_session (committed w) w) ->
  registration request username email password ->
  user_by_username (Some username) (committed w) = None ->
  user_by_email (Some email) (committed w) = None ->
  let db1 := with_user bcrypt_kdf env username email password (committed w) in
  let u := new_user bcrypt_kdf env username email password (committed w) in
  let db2 := with_stats (u_id u) db1 in
  let out := App.handle (App.register bcrypt_kdf cfg env request) w in
  login_id (snd out) = login_id w
  /\ if Bcrypt.too_long password then
       fst out = Ok (App.Render "register.html")
       /\ committed (snd out) = committed w
     else if commit_accepted env db1 then
       if commit_accepted env db2 then
         fst out = Ok (App.Redirect "/login") /\ committed (snd out) = db2
       else
         fst out = Ok (App.Render "register.html")
         /\ committed (snd out) = db1
     else
       fst out = Ok (App.Render "register.html")
       /\ committed (snd out) = committed w.
Proof.
  intros Hanon (Hpost & Hu & He & Hp & Nu & Ne & Np) Hname Hmail
    db1 u db2 out.
  subst out. unfold App.handle.
  set (w0 := set_session (committed w) w).
  unfold App.register.
  rewrite (bind_ok _ _ w0 w0 None) by exact Hanon.
  rewrite Hpost. unfold try_except.
  rewrite Hu, He, Hp. cbn [Py.opt_truthy App.the].
  rewrite !str_truthy_ne by assumption. cbn [negb orb].
  rewrite (bind_ok _ _ w0 w0 None)
    by (unfold gets; cbn [session set_session w0]; now rewrite Hname).
  rewrite (bind_ok _ _ w0 w0 None)
    by (unfold gets; cbn [session set_session w0]; now rewrite Hmail).
  unfold Bcrypt.generate_password_hash.
  rewrite (str_truthy_ne _ Np).
  destruct (Bcrypt.too_long password) eqn:Hlong.
  { rewrite (bind_raise _ _ w0 w0 ValueError) by reflexivity.
    destruct (register_except env w0) as (w' & -> & C & S & L).
    cbn [fst snd committed set_session login_id].
    rewrite C, L. cbn. auto. }
  rewrite (bind_ok _ _ w0 w0 (Bcrypt.hashpw bcrypt_kdf password (gensalt env)))
    by reflexivity.
  rewrite (bind_ok _ _ w0 (set_session db1 w0) u) by reflexivity.
  set (w1 := set_session db1 w0).
  destruct (commit_accepted env db1) eqn:Hc1.
  2:{ rewrite (bind_raise _ _ _ _ _ (commit_refused env w1 Hc1)).
      destruct (register_except env w1) as (w' & -> & C & S & L).
      cbn [fst snd committed set_session login_id].
      rewrite C, L. cbn. auto. }
  rewrite (bind_ok _ _ _ _ _ (commit_ok env w1 Hc1)).
  set (w2 := set_committed (session w1) w1).
  unfold App.add_stats.
  rewrite (bind_ok _ _ w2 (set_session db2 w2) tt) by reflexivity.
  set (w3 := set_session db2 w2).
  destruct (commit_accepted env db2) eqn:Hc2.
  2:{ rewrite (bind_raise _ _ _ _ _ (commit_refused env w3 Hc2)).
      destruct (register_except env w3) as (w' & -> & C & S & L).
      cbn [fst snd committed set_session login_id].
      rewrite C, L. cbn. auto. }
  rewrite (bind_ok _ _ _ _ _ (commit_ok env w3 Hc2)).
  destruct (register_finish env email username
              (set_committed (session w3) w3)) as (w' & -> & C & S & L).
  cbn [fst snd committed set_session login_id].
  rewrite C, L. cbn. auto.
Qed.

Lemma current_user_run (w : World) :
  exists o, App.current_user w = (Ok o, w).
Proof.
  unfold App.current_user, App.load_user, bind, gets, ret.
  destruct (login_id w); eexists; reflexivity.
Qed.

Lemma fresh_not_used (ids : list nat) : ~ In (fresh ids) ids.
Proof.
  intros Hin. unfold fresh in Hin.
  assert (H : list_max ids <= list_max ids) by lia.
  rewrite list_max_le, Forall_forall in H.
  specialize (H _ Hin). lia.
Qed.

Lemma user_by_id_new (db : Database) (now : datetime) (name mail : string)
    (h : Bcrypt.pw_hash) :
  let '(u, db') := insert_user now name mail h db in
  user_by_id (u_id u) db' = Some u.
Proof.
  cbn. unfold user_by_id. cbn [users].
  apply find_app_none; [|cbn; apply Nat.eqb_refl].
  destruct (find _ (users db)) as [v|] eqn:Hfind; [exfalso|reflexivity].
  apply find_some in Hfind. destruct Hfind as [Hin Hid].
  apply Nat.eqb_eq in Hid. cbn [u_id] in Hid.
  apply (fresh_not_used (map u_id (users db))).
  rewrite <- Hid. now apply in_map.
Qed.

Lemma user_by_username_new (db : Database) (now : datetime)
    (name mail : string) (h : Bcrypt.pw_hash) :
  user_by_username (Some name) db = None ->
  let '(u, db') := insert_user now name mail h db in
  user_by_username (Some name) db' = Some u.
Proof.
  cbn. intros Hnone. apply find_app_none; [exact Hnone|].
  cbn. apply String.eqb_refl.
Qed.

Lemma find_app_last {A} (p : A -> bool) (l : list A) (x : A) :
  p x = true -> find p (l ++ [x]) <> None.
Proof.
  intros Hx. induction l as [|y l IH]; cbn.
  - now rewrite Hx.
  - now destruct (p y).
Qed.

Lemma too_long_false (password : string) :
  Py.utf8_length password <= 72 -> Bcrypt.too_long password = false.
Proof. intros H. now apply Nat.ltb_ge. Qed.

Lemma too_long_true (password : string) :
  72 < Py.utf8_length password -> Bcrypt.too_long password = true.
Proof. intros H. now apply Nat.ltb_lt. Qed.

Lemma check_own_password (password s : string) :
  Bcrypt.too_long password = false ->
  Bcrypt.check_password_hash bcrypt_kdf
    (Bcrypt.hashpw bcrypt_kdf password s) (Some password) = Ok true.
Proof.
  intros Hshort.
  unfold Bcrypt.check_password_hash, Bcrypt.pw_hash_eqb. rewrite Hshort. cbn.
  now rewrite !String.eqb_refl.
Qed.



(** [login] with a known name, as the hash check decides *)
Lemma login_known (env : Env) (request : App.FormRequest)
    (name password : string) (u : User) (w : World) :
  anonymous w ->
  credentials request name password ->
  user_by_username (Some name) (committed w) = Some u ->
  let out := App.handle (App.login bcrypt_kdf cfg env request) w in
  match Bcrypt.check_password_hash bcrypt_kdf (u_password_hash u)
          (Some password) with
  | Ok true =>
      fst out
      = Ok (App.Redirect (if Py.opt_truthy (App.r_next request)
                          then App.the (App.r_next request)
                          else "/dashboard"))
      /\ login_id (snd out) = Some (u_id u)
      /\ committed (snd out) = committed w
  | Ok false => rejected w out
  | Raise e =>
      (** nothing catches what the hash check raises *)
      fst out = Raise e
      /\ login_id (snd out) = None
      /\ committed (snd out) = committed w
      /\ flashes (snd out) = flashes w
  end.
Proof.
  intros Hanon (Hpost & Hu & Hp) Hfind out. subst out.
  unfold App.handle. set (w0 := set_session (committed w) w).
  unfold App.login.
  rewrite (bind_ok _ _ w0 w0 None) by now apply current_user_anonymous.
  rewrite Hpost, Hu, Hp.
  rewrite (bind_ok _ _ w0 w0 (Some u))
    by (unfold gets; cbn [session set_session w0]; now rewrite Hfind).
  destruct (Bcrypt.check_password_hash bcrypt_kdf (u_password_hash u)
              (Some password)) as [ok|e] eqn:Hcheck.
  2:{ rewrite (bind_raise _ _ w0 w0 e) by reflexivity.
      cbn. repeat split. exact Hanon. }
  rewrite (bind_ok _ _ w0 w0 ok) by reflexivity.
  destruct ok.
  - unfold App.login_user.
    rewrite (bind_ok _ _ w0 (set_login_id (Some (u_id u)) w0) tt)
      by reflexivity.
    destruct (quiet_safe_run _ (set_login_id (Some (u_id u)) w0)
                (quiet_put_metric cfg env "UserLogins" 1 "Count" [])
                (safe_put_metric cfg env "UserLogins" 1 "Count" []))
      as (b & w1 & H1 & (C & S & L)).
    unfold Metrics.record_login, Metrics.increment_counter.
    rewrite (bind_ok _ _ _ _ _ H1).
    rewrite (bind_ok _ _ _ _ _ (flash_run _ _ w1)).
    cbn [fst snd ret committed login_id set_session set_flashes].
    rewrite C, L. cbn. auto.
  - rewrite (bind_ok _ _ _ _ _ (flash_run _ _ w0)).
    cbn. repeat split. exact Hanon.
Qed.


(** C4, as the code has it.  For a registration form with the three
    fields filled in, a name and an address nobody has, and a database
    that accepts the two commits: when the password takes at most 72
    bytes, [register] succeeds, and a login with the same name and
    password then succeeds, signing in the user just created (the hash
    stored at registration verifies the password); when the password
    takes more than 72 bytes, bcrypt refuses it, [register] answers with
    the form again and nothing is committed. *)
Theorem register_then_login
    (env env' : Env) (request login_request : App.FormRequest)
    (username email password : string) (w : World) :
  anonymous w ->
  registration request username email password ->
  credentials login_request username password ->
  user_by_username (Some username) (committed w) = None ->
  user_by_email (Some email) (committed w) = None ->
  let db1 := with_user bcrypt_kdf env username email password (committed w) in
  let u := new_user bcrypt_kdf env username email password (committed w) in
  commit_accepted env db1 = true ->
  commit_accepted env (with_stats (u_id u) db1) = true ->
  let out1 := App.handle (App.register bcrypt_kdf cfg env request) w in
  let out2 :=
    App.handle (App.login bcrypt_kdf cfg env' login_request) (snd out1) in
  (Py.utf8_length password <= 72 ->
   fst out1 = Ok (App.Redirect "/login")
   /\ fst out2
      = Ok (App.Redirect (if Py.opt_truthy (App.r_next login_request)
                          then App.the (App.r_next login_request)
                          else "/dashboard"))
   /\ logged_in u (snd out2)
   /\ u_username u = username
   /\ u_email u = email
   /\ stats_by_user (u_id u) (committed (snd out2)) <> None)
  /\ (72 < Py.utf8_length password ->
      fst out1 = Ok (App.Render "register.html")
      /\ committed (snd out1) = committed w).
Proof.
  intros Hanon Hreg Hcred Hname Hmail db1 u Hc1 Hc2 out1 out2.
  pose proof (register_new_cases env request username email password w
                (current_user_anonymous (set_session (committed w) w) Hanon) Hreg Hname Hmail) as H.
  cbv zeta in H. fold db1 u out1 in H. rewrite Hc1, Hc2 in H.
  split.
  2:{ intros Hlong. rewrite (too_long_true _ Hlong) in H. apply H. }
  intros Hshort. apply too_long_false in Hshort. rewrite Hshort in H.
  destruct H as (Hl1 & Hr1 & Hdb).
  rewrite Hanon in Hl1.
  assert (Hfind : user_by_username (Some username) (committed (snd out1))
                  = Some u).
  { rewrite Hdb. unfold with_stats, user_by_username. cbn [users insert_stats].
    pose proof (user_by_username_new (committed w) (utcnow env) username
                  email (Bcrypt.hashpw bcrypt_kdf password (gensalt env))
                  Hname) as Hn.
    exact Hn. }
  assert (Hid : user_by_id (u_id u) (committed (snd out1)) = Some u).
  { rewrite Hdb. unfold with_stats, user_by_id. cbn [users insert_stats].
    exact (user_by_id_new (committed w) (utcnow env) username email
             (Bcrypt.hashpw bcrypt_kdf password (gensalt env))). }
  pose proof (login_known env' login_request username password u (snd out1)
                Hl1 Hcred Hfind) as Hlogin.
  cbv zeta in Hlogin. fold out2 in Hlogin.
  change (u_password_hash u)
    with (Bcrypt.hashpw bcrypt_kdf password (gensalt env)) in Hlogin.
  rewrite (check_own_password _ _ Hshort) in Hlogin.
  destruct Hlogin as (Hr2 & Hl2 & Hdb2).
  split; [exact Hr1|]. split; [exact Hr2|].
  split; [split; [exact Hl2|now rewrite Hdb2]|].
  split; [reflexivity|]. split; [reflexivity|].
  rewrite Hdb2, Hdb. unfold with_stats, stats_by_user, insert_stats.
  cbn [user_stats]. apply find_app_last. cbn. apply Nat.eqb_refl.
Qed.


(** [register] when the name or the address is taken *)
Lemma register_taken (env : Env) (request : App.FormRequest)
    (username email password : string) (w : World) :
  App.current_user (set_session (committed w) w)
  = (Ok None, set_session (committed w) w) ->
  registration request username email password ->
  let out := App.handle (App.register bcrypt_kdf cfg env request) w in
  (user_by_username (Some username) (committed w) <> None ->
   refused "Username already exists" w out)
  /\ (user_by_username (Some username) (committed w) = None ->
      user_by_email (Some email) (committed w) <> None ->
      refused "Email already registered" w out).
Proof.
  intros Hcur (Hpost & Hu & He & Hp & Nu & Ne & Np) out. subst out.
  unfold App.handle. set (w0 := set_session (committed w) w).
  unfold App.register.
  rewrite (bind_ok _ _ w0 w0 None) by exact Hcur.
  rewrite Hpost. unfold try_except.
  rewrite Hu, He, Hp. cbn [Py.opt_truthy App.the].
  rewrite !str_truthy_ne by assumption. cbn [negb orb].
  split.
  - intros Hname.
    destruct (user_by_username (Some username) (committed w)) as [v|] eqn:Hv;
      [|contradiction].
    rewrite (bind_ok _ _ w0 w0 (Some v))
      by (unfold gets; cbn [session set_session w0]; now rewrite Hv).
    rewrite (bind_ok _ _ _ _ _ (flash_run _ _ w0)).
    cbn. repeat split.
  - intros Hname Hmail.
    destruct (user_by_email (Some email) (committed w)) as [v|] eqn:Hv;
      [|contradiction].
    rewrite (bind_ok _ _ w0 w0 None)
      by (unfold gets; cbn [session set_session w0]; now rewrite Hname).
    rewrite (bind_ok _ _ w0 w0 (Some v))
      by (unfold gets; cbn [session set_session w0]; now rewrite Hv).
    rewrite (bind_ok _ _ _ _ _ (flash_run _ _ w0)).
    cbn. repeat split.
Qed.

Lemma count_username_new (db : Database) (now : datetime)
    (name mail : string) (h : Bcrypt.pw_hash) :
  user_by_username (Some name) db = None ->
  count_username name (snd (insert_user now name mail h db)) = 1.
Proof.
  unfold user_by_username, count_username. cbn [snd insert_user users].
  intros Hnone. rewrite filter_app, length_app. cbn.
  rewrite String.eqb_refl. cbn.
  replace (filter _ (users db)) with (@nil User); [reflexivity|].
  symmetry. induction (users db) as [|v l IH]; [reflexivity|].
  cbn in *. destruct (u_username v =? name); [discriminate|auto].
Qed.

(** C6.  A registration under a name that is already taken is turned
    down with the notice "Username already exists" (not the notice given
    for a taken address, "Email already registered"); the database is
    what it was, so no user row and no stats row is added and the name
    has as many rows as before.  In particular, registering the same
    name twice leaves exactly one row for it: the second attempt is
    turned down whatever address and password it brings. *)
Theorem duplicate_username_refused
    (env : Env) (request : App.FormRequest)
    (username email password : string) (w : World) :
  anonymous w ->
  registration request username email password ->
  let out := App.handle (App.register bcrypt_kdf cfg env request) w in
  (user_by_username (Some username) (committed w) <> None ->
     refused "Username already exists" w out
     /\ count_username username (committed (snd out))
        = count_username username (committed w))
  /\ (user_by_username (Some username) (committed w) = None ->
      user_by_email (Some email) (committed w) <> None ->
      refused "Email already registered" w out)
  /\ "Username already exists" <> "Email already registered"
  /\ (user_by_username (Some username) (committed w) = None ->
      user_by_email (Some email) (committed w) = None ->
      fst out = Ok (App.Redirect "/login") ->
      forall env2 request2 email2 password2,
        registration request2 username email2 password2 ->
        let out2 :=
          App.handle (App.register bcrypt_kdf cfg env2 request2) (snd out) in
        refused "Username already exists" (snd out) out2
        /\ count_username username (committed (snd out2)) = 1).
Proof.
  intros Hanon Hreg out.
  destruct (register_taken env request username email password w
              (current_user_anonymous (set_session (committed w) w) Hanon) Hreg) as [Hname Hmail].
  fold out in Hname, Hmail.
  split; [|split; [exact Hmail|split; [discriminate|]]].
  - intros Hpresent. specialize (Hname Hpresent). split; [exact Hname|].
    destruct Hname as (_ & _ & -> & _). reflexivity.
  - intros Hnew Hnewmail Hok env2 request2 email2 password2 Hreg2 out2.
    pose proof (register_new_cases env request username email password w
                  (current_user_anonymous (set_session (committed w) w) Hanon) Hreg Hnew Hnewmail) as H.
    cbv zeta in H. fold out in H. destruct H as [Hl H].
    rewrite Hanon in Hl.
    destruct (Bcrypt.too_long password);
      [destruct H as [H _]; rewrite H in Hok; discriminate|].
    destruct (commit_accepted env _);
      [|destruct H as [H _]; rewrite H in Hok; discriminate].
    destruct (commit_accepted env _);
      [|destruct H as [H _]; rewrite H in Hok; discriminate].
    destruct H as [_ Hdb].
    assert (Hcount : count_username username (committed (snd out)) = 1).
    { rewrite Hdb. unfold with_stats, count_username. cbn [users insert_stats].
      now apply count_username_new. }
    assert (Hthere : user_by_username (Some username) (committed (snd out))
                     <> None).
    { rewrite Hdb. unfold with_stats, user_by_username.
      cbn [users insert_stats].
      pose proof (user_by_username_new (committed w) (utcnow env) username
                    email (Bcrypt.hashpw bcrypt_kdf password (gensalt env))
                    Hnew) as Hn.
      cbn in Hn. unfold user_by_username in Hn. cbn [users] in Hn.
      cbn. rewrite Hn. discriminate. }
    destruct (register_taken env2 request2 username email2 password2
                (snd out)
                (current_user_anonymous
                   (set_session (committed (snd out)) (snd out)) Hl) Hreg2) as [Ht _].
    specialize (Ht Hthere). fold out2 in Ht.
    split; [exact Ht|].
    destruct Ht as (_ & _ & -> & _). exact Hcount.
Qed.

(** C1, as the code has it.  [register] writes its two rows with two
    commits, the user first and the stats second.  When it succeeds
    (the redirect to the login page) both rows are committed: the user
    row, and a zero-valued stats row pointing at it.  When it does not
    succeed, either nothing is committed (the request was not a valid new
    registration, or the first commit was refused), or the first commit
    went through and the second was refused, in which case the user row
    is committed without a stats row. *)
Theorem register_commits_user_then_stats
    (env : Env) (request : App.FormRequest) (w : World) :
  let out := App.handle (App.register bcrypt_kdf cfg env request) w in
  (fst out = Ok (App.Redirect "/login") ->
     exists u s,
       users (committed (snd out)) = users (committed w) ++ [u]
       /\ user_stats (committed (snd out)) = user_stats (committed w) ++ [s]
       /\ images (committed (snd out)) = images (committed w)
       /\ Py.lookup "username" (App.r_form request) = Some (u_username u)
       /\ Py.lookup "email" (App.r_form request) = Some (u_email u)
       /\ s_user_id s = u_id u
       /\ zero_stats s)
  /\ (fst out <> Ok (App.Redirect "/login") ->
        committed (snd out) = committed w
        \/ exists u,
             users (committed (snd out)) = users (committed w) ++ [u]
             /\ user_stats (committed (snd out)) = user_stats (committed w)
             /\ images (committed (snd out)) = images (committed w)
             /\ Py.lookup "username" (App.r_form request)
                = Some (u_username u)
             /\ commit_accepted env (committed (snd out)) = true
             /\ commit_accepted env
                  (with_stats (u_id u) (committed (snd out))) = false).
Proof.
  intros out.
  set (w0 := set_session (committed w) w).
  (* the requests that are not a valid new registration *)
  assert (Hquiet :
    (fst out <> Ok (App.Redirect "/login")
     /\ committed (snd out) = committed w)
    \/ exists username email password,
         App.current_user w0 = (Ok None, w0)
         /\ registration request username email password
         /\ user_by_username (Some username) (committed w) = None
         /\ user_by_email (Some email) (committed w) = None).
  { destruct (current_user_run w0) as [[v|] Hcur].
    { left. subst out. unfold App.handle, App.register. fold w0.
      rewrite (bind_ok _ _ _ _ _ Hcur). cbn. split; [discriminate|reflexivity]. }
    destruct (App.r_method request) eqn:Hmethod.
    { left. subst out. unfold App.handle, App.register. fold w0.
      rewrite (bind_ok _ _ _ _ _ Hcur), Hmethod. cbn.
      split; [discriminate|reflexivity]. }
    destruct (negb (Py.opt_truthy (Py.lookup "username" (App.r_form request)))
              || negb (Py.opt_truthy (Py.lookup "email" (App.r_form request)))
              || negb (Py.opt_truthy
                         (Py.lookup "password" (App.r_form request))))
      eqn:Hvalid.
    { left. subst out. unfold App.handle, App.register. fold w0.
      rewrite (bind_ok _ _ _ _ _ Hcur), Hmethod. unfold try_except.
      rewrite Hvalid.
      rewrite (bind_ok _ _ _ _ _ (flash_run _ _ w0)).
      cbn. split; [discriminate|reflexivity]. }
    apply orb_false_iff in Hvalid. destruct Hvalid as [Hvalid Hp].
    apply orb_false_iff in Hvalid. destruct Hvalid as [Hu He].
    apply negb_false_iff in Hu, He, Hp.
    destruct (Py.lookup "username" (App.r_form request)) as [username|] eqn:Lu;
      [|discriminate].
    destruct (Py.lookup "email" (App.r_form request)) as [email|] eqn:Le;
      [|discriminate].
    destruct (Py.lookup "password" (App.r_form request)) as [password|] eqn:Lp;
      [|discriminate].
    assert (Hreg : registration request username email password).
    { unfold registration. rewrite Lu, Le, Lp.
      repeat split; try assumption;
        intros ->; discriminate. }
    pose proof (register_taken env request username email password w
                  Hcur Hreg) as [Hname Hmail].
    fold out in Hname, Hmail.
    destruct (user_by_username (Some username) (committed w)) eqn:Hn.
    { left. destruct Hname as (Hr & _ & Hc & _); [discriminate|].
      split; [rewrite Hr; discriminate|exact Hc]. }
    destruct (user_by_email (Some email) (committed w)) eqn:Hm.
    { left. destruct Hmail as (Hr & _ & Hc & _);
        [reflexivity|discriminate|].
      split; [rewrite Hr; discriminate|exact Hc]. }
    right. exists username, email, password. auto. }
  destruct Hquiet as [[Hne Hc]|(username & email & password & Hcur & Hreg
                                & Hn & Hm)].
  { split; [intros H; contradiction|intros _; now left]. }
  pose proof (register_new_cases env request username email password w
                Hcur Hreg Hn Hm) as H.
  cbv zeta in H. fold out in H. destruct H as [_ H].
  destruct Hreg as (_ & Lu & Le & _).
  destruct (Bcrypt.too_long password).
  { destruct H as [Hr Hc]. split.
    - intros Hok. rewrite Hr in Hok. discriminate.
    - intros _. now left. }
  destruct (commit_accepted env
              (with_user bcrypt_kdf env username email password (committed w)))
    eqn:Hc1.
  2:{ destruct H as [Hr Hc]. split.
      - intros Hok. rewrite Hr in Hok. discriminate.
      - intros _. now left. }
  destruct (commit_accepted env (with_stats _ _)) eqn:Hc2.
  - destruct H as [Hr Hc]. split; [|intros Hne; contradiction].
    intros _. rewrite Hc, Lu, Le.
    eexists. eexists. cbn. repeat split.
  - destruct H as [Hr Hc]. split.
    + intros Hok. rewrite Hr in Hok. discriminate.
    + intros _. right. rewrite Hc, Lu.
      eexists. cbn [with_user insert_user snd users user_stats images].
      split; [reflexivity|]. split; [reflexivity|]. split; [reflexivity|].
      split; [reflexivity|]. split; [exact Hc1|exact Hc2].
Qed.

End Accounts.

(** ** The properties on the sample data *)

Section Samples.
Import Models Runtime Spec.

Example b64encode_Man : Base64.b64encode [x4d; x61; x6e] = "TWFu".
Proof. reflexivity. Qed.

Example b64decode_padded : Base64.b64decode "TWE=" = Ok [x4d; x61].
Proof. reflexivity. Qed.

Example b64decode_skips_newline :
  Base64.b64decode (String "T" (String "010" "WFu")) = Ok [x4d; x61; x6e].
Proof. reflexivity. Qed.

Example b64decode_truncated : Base64.b64decode "TWF" = Raise BinasciiError.
Proof. reflexivity. Qed.

Example alice_signed_in : logged_in Sample.alice Sample.w_signed_in.
Proof. split; reflexivity. Qed.

(** the example of the specification: one request, one inline image *)
Example alice_generates_a_cat :
  let out :=
    App.handle
      (App.api_generate Sample.cfg Sample.env (Some (Py.PDict Sample.cat)))
      Sample.w_signed_in in
  status_of (fst out) = 200
  /\ images_reported (fst out) = 1
  /\ generations_of (u_id Sample.alice) (committed (snd out)) = 1%Z
  /\ images_counted (u_id Sample.alice) (committed (snd out)) = 1%Z.
Proof. vm_compute. auto. Qed.


End Samples.

Lemma decode_payload_roundtrip_witness :
  Py.free_of "," "png" = true
  /\ App.decode_payload
       (Py.PStr ("data:image/" ++ "png" ++ ";base64,"
                 ++ Base64.b64encode Sample.png))
     = Ok Sample.png.
Proof.
  split; [reflexivity|].
  apply (decode_payload_roundtrip Sample.png "png"). reflexivity.
Defined.

Lemma api_generate_upstream_failure_witness :
  Spec.logged_in Sample.alice Sample.w_signed_in
  /\ Spec.generation_fails Sample.env_gateway_down
       (Spec.payload_of Sample.cat)
  /\ fst (App.handle
            (App.api_generate Sample.cfg Sample.env_gateway_down
               (Some (Py.PDict Sample.cat)))
            Sample.w_signed_in)
     = Ok (App.Json 500 (App.ErrorBody "Failed to generate image")).
Proof.
  split; [split; reflexivity|]. split; [cbn; discriminate|].
  apply (api_generate_upstream_failure Sample.cfg Sample.env_gateway_down
           Sample.alice Sample.cat Sample.w_signed_in).
  - split; reflexivity.
  - reflexivity.
  - cbn. discriminate.
Defined.

Lemma stats_once_per_request_witness :
  Spec.logged_in Sample.alice Sample.w_signed_in
  /\ Spec.generations_of (Models.u_id Sample.alice)
       (Runtime.committed
          (snd (Spec.serve_all Sample.cfg
                  [(Sample.env, Some (Py.PDict Sample.cat));
                   (Sample.env_s3_down, Some (Py.PDict Sample.cat))]
                  Sample.w_signed_in)))
     = (Spec.generations_of (Models.u_id Sample.alice)
          (Runtime.committed Sample.w_signed_in) + 2)%Z.
Proof.
  split; [split; reflexivity|].
  refine (proj1 (stats_once_per_request Sample.cfg Sample.alice
                   [(Sample.env, Some (Py.PDict Sample.cat));
                    (Sample.env_s3_down, Some (Py.PDict Sample.cat))]
                   Sample.w_signed_in _ _)).
  - split; reflexivity.
  - vm_compute. repeat constructor.
Defined.

Lemma api_generate_status_codes_witness :
  Spec.logged_in Sample.alice Sample.w_signed_in
  /\ (Py.truthy (Spec.field "prompt" (Py.PStr "") Sample.no_prompt) = false ->
      fst (App.handle
             (App.api_generate Sample.cfg Sample.env
                (Some (Py.PDict Sample.no_prompt)))
             Sample.w_signed_in)
      = Ok (App.Json 400 (App.ErrorBody "Prompt is required"))).
Proof.
  split; [split; reflexivity|].
  intros H.
  assert (Hlog : Spec.logged_in Sample.alice Sample.w_signed_in)
    by (split; reflexivity).
  pose proof (api_generate_status_codes Sample.cfg Sample.env Sample.alice
                (Some (Py.PDict Sample.no_prompt)) Sample.w_signed_in Hlog)
    as T.
  cbv zeta in T. destruct T as (_ & _ & T).
  exact (proj1 (proj1 (T Sample.no_prompt eq_refl) H)).
Defined.

Lemma upload_failure_falls_back_to_local_witness :
  USE_S3 Sample.cfg = true
  /\ s3_client Sample.cfg = true
  /\ Runtime.put_object Sample.env_s3_down "images/cat.png" Sample.png = false
  /\ Runtime.write_accepted Sample.env_s3_down "cat.png" Sample.png = true
  /\ App.served_folder Sample.cfg Sample.env_s3_down
     = App.written_folder Sample.cfg Sample.env_s3_down
  /\ Spec.kept_locally Sample.cfg Sample.env_s3_down "cat.png" Sample.png
       (App.store Sample.cfg Sample.env_s3_down Sample.png "cat.png"
          Sample.w_signed_in).
Proof.
  split; [reflexivity|]. split; [reflexivity|]. split; [reflexivity|].
  split; [reflexivity|]. split; [reflexivity|].
  apply (upload_failure_falls_back_to_local Sample.cfg Sample.env_s3_down
           Sample.alice Sample.png "cat.png" Sample.w_signed_in);
    try reflexivity.
  split; reflexivity.
Defined.

Lemma missing_client_drops_image_witness :
  USE_S3 Sample.cfg_without_client = true
  /\ (s3_client Sample.cfg_without_client = false
      \/ Py.opt_truthy (S3_BUCKET_NAME Sample.cfg_without_client) = false ->
      App.store Sample.cfg_without_client Sample.env Sample.png "cat.png"
        Sample.w_signed_in
      = (Raise TypeError, Sample.w_signed_in)).
Proof.
  split; [reflexivity|].
  intros H.
  apply (missing_client_drops_image Sample.cfg_without_client Sample.env
           Sample.png "cat.png" Sample.w_signed_in); [reflexivity|exact H].
Defined.

Lemma register_then_login_witness :
  Spec.anonymous Sample.w0
  /\ Spec.registration Sample.register_form "alice" "alice@x.com" "pw123"
  /\ Spec.credentials Sample.login_form "alice" "pw123"
  /\ Py.utf8_length "pw123" <= 72
  /\ fst (App.handle
            (App.register Sample.kdf Sample.cfg Sample.env
               Sample.register_form) Sample.w0)
     = Ok (App.Redirect "/login").
Proof.
  assert (Hreg : Spec.registration Sample.register_form "alice" "alice@x.com"
                   "pw123").
  { repeat split; discriminate. }
  assert (Hcred : Spec.credentials Sample.login_form "alice" "pw123").
  { repeat split. }
  assert (Hshort : Py.utf8_length "pw123" <= 72).
  { apply Nat.leb_le. reflexivity. }
  split; [reflexivity|]. split; [exact Hreg|]. split; [exact Hcred|].
  split; [exact Hshort|].
  exact (proj1 (proj1 (register_then_login Sample.kdf Sample.cfg Sample.env
                         Sample.env Sample.register_form Sample.login_form
                         "alice" "alice@x.com" "pw123" Sample.w0
                         eq_refl Hreg Hcred eq_refl eq_refl eq_refl eq_refl)
                  Hshort)).
Defined.


Lemma duplicate_username_refused_witness :
  Spec.anonymous Sample.w_registered
  /\ Spec.registration Sample.register_form "alice" "alice@x.com" "pw123"
  /\ Spec.refused "Username already exists" Sample.w_registered
       (App.handle
          (App.register Sample.kdf Sample.cfg Sample.env Sample.register_form)
          Sample.w_registered).
Proof.
  assert (Hreg : Spec.registration Sample.register_form "alice" "alice@x.com"
                   "pw123").
  { repeat split; discriminate. }
  split; [reflexivity|]. split; [exact Hreg|].
  apply (duplicate_username_refused Sample.kdf Sample.cfg Sample.env
           Sample.register_form "alice" "alice@x.com" "pw123"
           Sample.w_registered eq_refl Hreg).
  discriminate.
Defined.

(** C1 as stated does not hold: when the database refuses the second
    commit, the registration fails (the form comes back) and yet the user
    row stays committed, without a stats row. *)
Lemma register_not_atomic :
  fst Sample.half_registered = Ok (App.Render "register.html")
  /\ Models.users (Runtime.committed (snd Sample.half_registered))
     = [Sample.alice]
  /\ Models.user_stats (Runtime.committed (snd Sample.half_registered)) = []
  /\ Runtime.committed (snd Sample.half_registered)
     <> Runtime.committed Sample.w0.
Proof.
  vm_compute. repeat split. discriminate.
Qed.

(** C4 as stated does not hold: a registration with three fields filled
    in, a name and an address nobody has and a database that accepts
    every commit is turned down when the password takes 73 bytes; the
    form comes back, no user is created, and the login that follows with
    the same name and password is turned down. *)
Lemma register_refuses_long_password :
  Spec.registration Cases.long_register_form "bob" "bob@x.com"
    Cases.long_password
  /\ Spec.credentials Cases.long_bob_login_form "bob" Cases.long_password
  /\ Models.user_by_username (Some "bob") (Runtime.committed Sample.w0) = None
  /\ Models.user_by_email (Some "bob@x.com") (Runtime.committed Sample.w0)
     = None
  /\ (forall db, Runtime.commit_accepted Sample.env db = true)
  /\ fst (App.handle
            (App.register Sample.kdf Sample.cfg Sample.env
               Cases.long_register_form) Sample.w0)
     = Ok (App.Render "register.html")
  /\ Runtime.committed
       (snd (App.handle
               (App.register Sample.kdf Sample.cfg Sample.env
                  Cases.long_register_form) Sample.w0))
     = Runtime.committed Sample.w0
  /\ Spec.rejected
       (snd (App.handle
               (App.register Sample.kdf Sample.cfg Sample.env
                  Cases.long_register_form) Sample.w0))
       (App.handle
          (App.login Sample.kdf Sample.cfg Sample.env
             Cases.long_bob_login_form)
          (snd (App.handle
                  (App.register Sample.kdf Sample.cfg Sample.env
                     Cases.long_register_form) Sample.w0))).
Proof.
  split; [repeat split; discriminate|].
  split; [repeat split|].
  vm_compute. repeat split.
Qed.


(** C8 as stated does not hold.  With object storage switched on and
    every upload failing: when the media folder cannot be written, the
    image is dropped, both ways it arrives, and the request that asked
    for it is answered with 200 and no image; when the process was
    started in another directory than the one of the application, the
    file is written and its URL returned, yet the route of that URL
    answers 404. *)
Lemma fallback_can_lose_the_image :
  USE_S3 Sample.cfg = true
  /\ s3_client Sample.cfg = true
  /\ (forall key data, Runtime.put_object Cases.env_disk_full key data = false)
  /\ fst (App.save_base64_image Sample.cfg Cases.env_disk_full
            (Py.PStr (Base64.b64encode Sample.png)) "cat.png"
            Sample.w_signed_in)
     = Ok (None, None)
  /\ fst (App.save_image_from_url Sample.cfg Cases.env_disk_full
            (Py.PStr "https://img.example/cat.png") "cat.png"
            Sample.w_signed_in)
     = Ok (None, None)
  /\ fst (App.handle
            (App.api_generate Sample.cfg Cases.env_disk_full
               (Some (Py.PDict Sample.cat)))
            Sample.w_signed_in)
     = Ok (App.Json 200
             (App.GeneratedBody [] "Generated 0 image(s) successfully!"))
  /\ (forall key data,
        Runtime.put_object Cases.env_started_elsewhere key data = false)
  /\ fst (App.save_base64_image Sample.cfg Cases.env_started_elsewhere
            (Py.PStr (Base64.b64encode Sample.png)) "cat.png"
            Sample.w_signed_in)
     = Ok (Some "cat.png", Some "/media/cat.png")
  /\ fst (App.handle
            (App.serve_media Sample.cfg Cases.env_started_elsewhere
               "/media/cat.png" "cat.png")
            (snd (App.save_base64_image Sample.cfg Cases.env_started_elsewhere
                    (Py.PStr (Base64.b64encode Sample.png)) "cat.png"
                    Sample.w_signed_in)))
     = Ok App.NotFound.
Proof.
  vm_compute. repeat split.
Qed.

(** C9 as stated does not hold.  A signed-in request whose body is JSON
    without a prompt, but not an object (an empty list, [null]), is
    answered with 500 and not with 400.  And 500 is also the answer when
    the gateway answered 200 and the database accepts every commit, the
    list of images holding an entry that is not an object. *)
Lemma api_generate_other_answers :
  Spec.logged_in Sample.alice Sample.w_signed_in
  /\ fst (App.handle
            (App.api_generate Sample.cfg Sample.env (Some (Py.PList [])))
            Sample.w_signed_in)
     = Ok (App.Json 500 (App.ServerErrorBody AttributeError))
  /\ fst (App.handle
            (App.api_generate Sample.cfg Sample.env (Some Py.PNone))
            Sample.w_signed_in)
     = Ok (App.Json 500 (App.ServerErrorBody AttributeError))
  /\ Runtime.requests_post Cases.env_null_entry (Spec.payload_of Sample.cat)
     = Some (200, Some (Py.PDict [("data", Py.PList [Py.PNone])]))
  /\ (forall db, Runtime.commit_accepted Cases.env_null_entry db = true)
  /\ fst (App.handle
            (App.api_generate Sample.cfg Cases.env_null_entry
               (Some (Py.PDict Sample.cat)))
            Sample.w_signed_in)
     = Ok (App.Json 500 (App.ServerErrorBody TypeError)).
Proof.
  split; [split; reflexivity|].
  vm_compute. repeat split.
Qed.

(** * Further properties *)

(** ** Payloads and storage *)

Section MorePayload.
Import Models Runtime Spec Notions Base64.
Local Open Scope app_scope.

Lemma table_a2b_pad : table_a2b BASE64_PAD = None.
Proof. reflexivity. Qed.

(** the decoding loop does not see the characters outside the alphabet *)
Lemma a2b_loop_significant (s : string) :
  forall quad_pos leftchar pads,
    a2b_loop s quad_pos leftchar pads
    = a2b_loop (significant s) quad_pos leftchar pads.
Proof.
  induction s as [|c s IH]; intros quad_pos leftchar pads; [reflexivity|].
  cbn [significant]. unfold b64char.
  destruct (table_a2b c) as [v|] eqn:Hv.
  - cbn [a2b_loop]. rewrite Hv.
    destruct (Ascii.eqb c BASE64_PAD).
    + now rewrite !IH.
    + destruct quad_pos as [|[|[|q]]]; now rewrite IH.
  - destruct (Ascii.eqb c BASE64_PAD) eqn:Hp.
    + cbn [a2b_loop]. rewrite Hp. now rewrite !IH.
    + cbn [a2b_loop]. rewrite Hp, Hv. apply IH.
Qed.

(** X1.  A base64 text broken up by line breaks, blanks or any other
    ASCII characters outside the alphabet decodes to the bytes of the
    unbroken text. *)
Theorem decode_payload_ignores_noise (bs : bytes) (s : string) :
  all_chars is_ascii s = true ->
  Py.startswith s "data:image" = false ->
  significant s = b64encode bs ->
  App.decode_payload (Py.PStr s) = Ok bs.
Proof.
  intros Hascii Hplain Hsig.
  unfold App.decode_payload. rewrite Hplain.
  unfold b64decode, a2b_base64. rewrite Hascii.
  rewrite a2b_loop_significant, Hsig. apply a2b_loop_b64encode.
Qed.

Variable cfg : Config.
Variable env : Env.

(** X2.  An inline payload that announces a data URI but has no comma, and
    a payload that is not a string at all, are dropped: [(None, None)] is
    returned, the error is recorded, and neither a file nor an object is
    written. *)
Theorem save_base64_image_drops_malformed
    (b64 : Py.value) (filename : string) (w : World) :
  (forall s, b64 = Py.PStr s ->
             Py.startswith s "data:image" = true /\ Py.free_of "," s = true) ->
  let out := App.save_base64_image cfg env b64 filename w in
  dropped w out
  /\ same_db w (snd out)
  /\ exists sent,
       metric_calls (snd out)
       = metric_calls w ++ [error_call env "Base64Save" sent].
Proof.
  intros Hbad out. subst out.
  pose proof (save_base64_image_cases cfg env b64 filename w) as H.
  cbv zeta in H.
  assert (Hdec : exists e, App.decode_payload b64 = Raise e).
  { destruct b64 as [| | |s| |]; try (now eexists).
    destruct (Hbad s eq_refl) as [Hstart Hfree].
    unfold App.decode_payload. rewrite Hstart, (split_free _ _ Hfree).
    now eexists. }
  destruct Hdec as [e Hdec]. rewrite Hdec in H.
  destruct H as [sent ->].
  split; [repeat split|]. split; [repeat split|]. now exists sent.
Qed.

(** X3.  [save_image_from_url] gives up on a URL that answers anything
    but 200 without a trace (nothing written, nothing recorded), and on a
    URL that cannot be fetched with the error recorded. *)
Theorem save_image_from_url_gives_up
    (url filename : string) (w : World) :
  let out := App.save_image_from_url cfg env (Py.PStr url) filename w in
  (forall status content,
     requests_get env url = Some (status, content) -> status <> 200 ->
     out = (Ok (None, None), w))
  /\ (requests_get env url = None ->
      dropped w out
      /\ same_db w (snd out)
      /\ exists sent,
           metric_calls (snd out)
           = metric_calls w ++ [error_call env "ImageSave" sent]).
Proof.
  intros out. subst out.
  pose proof (save_image_from_url_cases cfg env url filename w) as H.
  cbv zeta in H. split.
  - intros status content Hget Hne. rewrite Hget in H.
    apply Nat.eqb_neq in Hne. now rewrite Hne in H.
  - intros Hget. rewrite Hget in H. destruct H as [sent ->].
    split; [repeat split|]. split; [repeat split|]. now exists sent.
Qed.

(** X4.  With object storage switched on and working, an image goes to
    the bucket under ["images/<filename>"] and nowhere else: the key and
    its public URL are returned, the object read back from the bucket is
    the image, the media folder and the metric log are as before. *)
Theorem upload_stores_in_bucket
    (data : bytes) (filename : string) (w : World) :
  USE_S3 cfg = true ->
  s3_client cfg = true ->
  Py.opt_truthy (S3_BUCKET_NAME cfg) = true ->
  put_object env ("images/" ++ filename) data = true ->
  let key := ("images/" ++ filename)%string in
  let stored_in_bucket (out : result (option string * option string) * World) :=
    fst out = Ok (Some key, Some (App.get_cloudfront_url cfg key))
    /\ Py.lookup key (bucket (snd out)) = Some data
    /\ media (snd out) = media w
    /\ metric_calls (snd out) = metric_calls w
    /\ same_db w (snd out) in
  stored_in_bucket (App.store cfg env data filename w)
  /\ (forall url,
        requests_get env url = Some (200, data) ->
        stored_in_bucket
          (App.save_image_from_url cfg env (Py.PStr url) filename w))
  /\ (forall b64,
        App.decode_payload b64 = Ok data ->
        stored_in_bucket (App.save_base64_image cfg env b64 filename w)).
Proof.
  intros Huse Hclient Hbucket Hput key stored_in_bucket.
  pose proof (store_cases cfg env data filename w Huse) as Hstore.
  cbv zeta in Hstore. fold key in Hstore.
  rewrite Hclient, Hbucket in Hstore. cbn [negb orb] in Hstore.
  unfold key in Hstore at 1. rewrite Hput in Hstore. fold key in Hstore.
  assert (Hs : stored_in_bucket (App.store cfg env data filename w)).
  { rewrite Hstore. subst stored_in_bucket. cbn.
    rewrite String.eqb_refl. repeat split. }
  split; [exact Hs|]. split.
  - intros url Hget.
    pose proof (save_image_from_url_cases cfg env url filename w) as H.
    cbv zeta in H. rewrite Hget, Nat.eqb_refl, Hstore in H.
    rewrite H, <- Hstore. exact Hs.
  - intros b64 Hdec.
    pose proof (save_base64_image_cases cfg env b64 filename w) as H.
    cbv zeta in H. rewrite Hdec, Hstore in H.
    rewrite H, <- Hstore. exact Hs.
Qed.

Lemma strip_truthy_blank (s : string) :
  Py.strip_truthy s = negb (all_chars Py.isspace s).
Proof.
  induction s as [|c s IH]; [reflexivity|].
  cbn. rewrite IH. now destruct (Py.isspace c).
Qed.

(** X5.  The public URL of a key is built on the CloudFront domain when
    that setting holds something other than white space, and on the
    bucket's regional S3 host when it is empty or blank.  White space is
    what [str.strip] takes for it: the ASCII separators and controls, the
    next-line control U+0085 and the no-break space U+00A0. *)
Theorem get_cloudfront_url_blank_domain (s3_key : string) :
  (all_chars Py.isspace (CLOUDFRONT_DOMAIN cfg) = true ->
   App.get_cloudfront_url cfg s3_key
   = ("https://" ++ App.fmt_opt (S3_BUCKET_NAME cfg) ++ ".s3."
      ++ AWS_REGION cfg ++ ".amazonaws.com/" ++ s3_key)%string)
  /\ (all_chars Py.isspace (CLOUDFRONT_DOMAIN cfg) = false ->
      App.get_cloudfront_url cfg s3_key
      = ("https://" ++ CLOUDFRONT_DOMAIN cfg ++ "/" ++ s3_key)%string).
Proof.
  unfold App.get_cloudfront_url. rewrite strip_truthy_blank.
  split; intros H; rewrite H; cbn [negb].
  - now rewrite andb_false_r.
  - rewrite andb_true_r.
    destruct (CLOUDFRONT_DOMAIN cfg); [discriminate|reflexivity].
Qed.

(** a domain of one no-break space is blank *)
Example get_cloudfront_url_no_break_space :
  all_chars Py.isspace (CLOUDFRONT_DOMAIN Cases.cfg_blank_domain) = true
  /\ App.get_cloudfront_url Cases.cfg_blank_domain "images/cat.png"
     = ("https://" ++ App.fmt_opt (S3_BUCKET_NAME Sample.cfg) ++ ".s3."
        ++ AWS_REGION Sample.cfg ++ ".amazonaws.com/images/cat.png")%string.
Proof. split; reflexivity. Qed.

End MorePayload.

(** ** More on the generation endpoint *)

Section MoreGenerate.
Import Models Runtime Spec Notions.
Local Open Scope app_scope.

Variable cfg : Config.
Variable env : Env.

Lemma bind_inv {A B} (m : M A) (k : A -> M B) (w w' : World) (r : result B) :
  bind m k w = (r, w') ->
  (exists e, m w = (Raise e, w') /\ r = Raise e)
  \/ (exists a w1, m w = (Ok a, w1) /\ k a w1 = (r, w')).
Proof.
  unfold bind. destruct (m w) as [[a|e] w1]; intros H.
  - right. now exists a, w1.
  - left. exists e. now injection H as <- <-.
Qed.

Lemma lift_inv {A} (x r : result A) (w w' : World) :
  lift x w = (r, w') -> r = x /\ w' = w.
Proof. unfold lift. now intros [= <- <-]. Qed.

(** [api_generate] either answers 200 or leaves the committed database
    alone *)
Lemma api_generate_view_commits (json : option Py.value) (user : User)
    (w w' : World) (r : result App.response) :
  App.api_generate_view cfg env json user w = (r, w') ->
  (exists saved msg, r = Ok (App.Json 200 (App.GeneratedBody saved msg)))
  \/ committed w' = committed w.
Proof.
  unfold App.api_generate_view, try_except.
  match goal with
  | |- context [match ?body w with _ => _ end] =>
      destruct (body w) as [res w1] eqn:E
  end.
  assert (Hbody :
    (exists saved msg, res = Ok (App.Json 200 (App.GeneratedBody saved msg)))
    \/ committed w1 = committed w).
  2:{ destruct Hbody as [(saved & msg & ->)|Hc].
      - intros [= <- <-]. left. eauto.
      - destruct res as [resp|e].
        + intros [= <- <-]. now right.
        + destruct (api_generate_except cfg env e w1) as (w2 & -> & C & _).
          intros [= <- <-]. right. congruence. }
  clear r w'.
  apply bind_inv in E.
  destruct E as [(e & E & ->)|(data & w2 & H & E)];
    [apply lift_inv in E; destruct E as [_ ->]; now right|].
  apply lift_inv in H. destruct H as [_ ->].
  apply bind_inv in E.
  destruct E as [(e & E & ->)|(prompt & w2 & H & E)];
    [apply lift_inv in E; destruct E as [_ ->]; now right|].
  apply lift_inv in H. destruct H as [_ ->].
  apply bind_inv in E.
  destruct E as [(e & E & ->)|(model_id & w2 & H & E)];
    [apply lift_inv in E; destruct E as [_ ->]; now right|].
  apply lift_inv in H. destruct H as [_ ->].
  apply bind_inv in E.
  destruct E as [(e & E & ->)|(size & w2 & H & E)];
    [apply lift_inv in E; destruct E as [_ ->]; now right|].
  apply lift_inv in H. destruct H as [_ ->].
  apply bind_inv in E.
  destruct E as [(e & E & ->)|(quality & w2 & H & E)];
    [apply lift_inv in E; destruct E as [_ ->]; now right|].
  apply lift_inv in H. destruct H as [_ ->].
  destruct (negb (Py.truthy prompt)).
  { injection E as <- <-. now right. }
  destruct (generate_image_returns cfg env prompt model_id size quality w)
    as (wg & Hgen & (G1 & _) & _).
  apply bind_inv in E.
  destruct E as [(e & E & ->)|(result & wg' & H & E)];
    [rewrite Hgen in E; discriminate|].
  rewrite Hgen in H. injection H as _ <-.
  destruct (negb (Py.truthy result)).
  { apply bind_inv in E.
    destruct E as [(e & E & ->)|(b & wm & H & E)].
    - apply (quiet_run _ _ _ _ (quiet_record_generation cfg env false model_id))
        in E.
      destruct E as (M1 & _). right. congruence.
    - apply (quiet_run _ _ _ _ (quiet_record_generation cfg env false model_id))
        in H.
      destruct H as (M1 & _). injection E as <- <-. right. congruence. }
  apply bind_inv in E.
  destruct E as [(e & E & ->)|(data_field & w2 & H & E)];
    [apply lift_inv in E; destruct E as [_ ->]; now right|].
  apply lift_inv in H. destruct H as [_ ->].
  apply bind_inv in E.
  destruct E as [(e & E & ->)|(entries & w2 & H & E)];
    [apply lift_inv in E; destruct E as [_ ->]; now right|].
  apply lift_inv in H. destruct H as [_ ->].
  destruct (save_images_grows cfg env user prompt model_id size quality entries
              0 [] wg) as (new & (S1 & _) & _).
  apply bind_inv in E.
  destruct E as [(e & E & ->)|(saved & ws & Hsave & E)].
  { rewrite E in S1. cbn in S1. right. congruence. }
  rewrite Hsave in S1. cbn [snd] in S1.
  destruct (record_stats_counts env user (length saved) ws)
    as (wr & Hrec & R1 & _).
  apply bind_inv in E.
  destruct E as [(e & E & ->)|([] & wr' & H & E)];
    [rewrite Hrec in E; discriminate|].
  rewrite Hrec in H. injection H as <-.
  apply bind_inv in E.
  destruct E as [(e & E & ->)|([] & wc & Hcommit & E)].
  { unfold commit in E. destruct (commit_accepted env (session wr));
      [discriminate|].
    injection E as _ <-. right. congruence. }
  left.
  destruct (quiet_safe_run _ wc
              (quiet_record_generation cfg env true model_id)
              (safe_record_generation cfg env true model_id))
    as (b & wm & Hm & _).
  rewrite (bind_ok _ _ _ _ _ Hm) in E.
  destruct (quiet_safe_run _ wm (quiet_notify cfg env user prompt)
              (safe_notify cfg env user prompt)) as ([] & wn & Hn & _).
  rewrite (bind_ok _ _ _ _ _ Hn) in E.
  injection E as <- <-. eauto.
Qed.

(** X6.  [api_generate] is all or nothing on the database: whatever the
    body and whoever asks, a request that is not answered with 200 leaves
    the committed database exactly as it was. *)
Theorem api_generate_all_or_nothing (json : option Py.value) (w : World) :
  let out := App.handle (App.api_generate cfg env json) w in
  status_of (fst out) <> 200 ->
  committed (snd out) = committed w.
Proof.
  intros out Hstatus. subst out.
  unfold App.handle, App.api_generate, App.login_required in *.
  set (w0 := set_session (committed w) w) in *.
  destruct (current_user_run w0) as [[user|] Hcur];
    rewrite (bind_ok _ _ _ _ _ Hcur) in *.
  - destruct (App.api_generate_view cfg env json user w0) as [r w'] eqn:Hview.
    cbn [fst snd] in *.
    destruct (api_generate_view_commits json user w0 w' r Hview)
      as [(saved & msg & ->)|Hc].
    + now contradiction Hstatus.
    + cbn. exact Hc.
  - reflexivity.
Qed.

(** *** Entries with nothing to save *)

Lemma save_images_skips (user : User) (prompt model_id size quality : Py.value)
    (entries : list Py.value) :
  forallb useless entries = true ->
  forall i saved w,
    App.save_images cfg env user prompt model_id size quality i entries saved w
    = (Ok saved, w).
Proof.
  induction entries as [|image_data rest IH]; intros Hall i saved w;
    [reflexivity|].
  cbn [forallb] in Hall. apply andb_true_iff in Hall.
  destruct Hall as [Hu Hrest].
  cbn [App.save_images].
  destruct image_data as [| | | | |kv]; try discriminate.
  cbn [useless] in Hu.
  destruct (Py.lookup "url" kv) eqn:Hurl; [discriminate|].
  destruct (Py.lookup "b64_json" kv) eqn:Hb64; [discriminate|].
  rewrite (bind_ok _ _ w w false) by (cbn; now rewrite Hurl).
  rewrite (bind_ok _ _ w w None).
  2:{ rewrite (bind_ok _ _ w w false) by (cbn; now rewrite Hb64).
      reflexivity. }
  now apply IH.
Qed.

Lemma api_user_stats_shows (user : User) (w : World) :
  logged_in user w ->
  fst (App.handle App.api_user_stats w)
  = Ok (App.Json 200
          (App.StatsBody (generations_of (u_id user) (committed w))
             (images_counted (u_id user) (committed w))
             (last_generation_of (u_id user) (committed w)))).
Proof.
  intros Hlog. unfold App.api_user_stats.
  rewrite (handle_logged_in user) by assumption. cbn [fst].
  unfold bind, gets, generations_of, images_counted, last_generation_of.
  cbn [session set_session].
  now destruct (stats_by_user (u_id user) (committed w)).
Qed.

Lemma api_generate_keeps_login (json : option Py.value) (user : User)
    (w : World) :
  logged_in user w ->
  status_of (fst (App.handle (App.api_generate cfg env json) w)) = 200 ->
  logged_in user (snd (App.handle (App.api_generate cfg env json) w)).
Proof.
  intros Hlog H200. unfold App.api_generate in *.
  rewrite (handle_logged_in user) in * by assumption.
  cbn [fst snd] in *.
  destruct (App.api_generate_view cfg env json user
              (set_session (committed w) w)) as [r w'] eqn:Hview.
  cbn [fst snd] in *.
  destruct (api_generate_view_200 cfg env json user _ w' r Hview H200)
    as (saved & msg & new & _ & _ & _ & Hid & Husers & _).
  destruct Hlog as [L1 L2]. split.
  - cbn. now rewrite Hid.
  - cbn. unfold user_by_id in *. cbn [session set_session] in Husers.
    now rewrite Husers.
Qed.

(** X7.  What /api/user/stats shows follows /api/generate: after a
    request answered with 200 it shows one generation more, as many images
    more as the answer reported, and the time of that request. *)
Theorem user_stats_follow_generation
    (json : option Py.value) (user : User) (w : World) (g i : Z)
    (l : option datetime) :
  logged_in user w ->
  let out := App.handle (App.api_generate cfg env json) w in
  status_of (fst out) = 200 ->
  fst (App.handle App.api_user_stats w)
  = Ok (App.Json 200 (App.StatsBody g i l)) ->
  fst (App.handle App.api_user_stats (snd out))
  = Ok (App.Json 200
          (App.StatsBody (g + 1) (i + Z.of_nat (images_reported (fst out)))
             (Some (utcnow env)))).
Proof.
  intros Hlog out H200 Hbefore.
  rewrite (api_user_stats_shows user w Hlog) in Hbefore.
  injection Hbefore as <- <- <-.
  rewrite (api_user_stats_shows user (snd out))
    by now apply api_generate_keeps_login.
  subst out. unfold App.api_generate in *.
  rewrite (handle_logged_in user) in * by assumption.
  destruct (App.api_generate_view cfg env json user
              (set_session (committed w) w)) as [r w'] eqn:Hview.
  cbn [fst snd] in *.
  destruct (api_generate_view_200 cfg env json user _ w' r Hview H200)
    as (saved & msg & new & -> & Hlen & _ & _ & _ & _ & Hgens & Hcount & Hlast).
  cbn [session committed set_session] in *.
  cbn [images_reported images_in].
  now rewrite Hgens, Hcount, Hlast, Hlen.
Qed.

(** X8.  A gateway answer with nothing to save still counts as a
    generation: when [data] is missing, empty or made of entries with
    neither [url] nor [b64_json], the request is answered with 200 and an
    empty image list, [total_generations] goes up by one and no image row
    is added.  An answer that is the empty object is taken for a failure:
    500, nothing committed. *)
Theorem api_generate_nothing_to_save
    (user : User) (fields : list (string * Py.value)) (w : World) :
  logged_in user w ->
  Py.truthy (field "prompt" (Py.PStr "") fields) = true ->
  (forall db, commit_accepted env db = true) ->
  let out := App.handle (App.api_generate cfg env (Some (Py.PDict fields))) w in
  (forall kv entries,
     gateway_answer env (payload_of fields) = Py.PDict kv ->
     kv <> [] ->
     Py.get (Py.PDict kv) "data" (Py.PList []) = Ok (Py.PList entries) ->
     forallb useless entries = true ->
     fst out
     = Ok (App.Json 200
             (App.GeneratedBody [] "Generated 0 image(s) successfully!"))
     /\ generations_of (u_id user) (committed (snd out))
        = (generations_of (u_id user) (committed w) + 1)%Z
     /\ images_counted (u_id user) (committed (snd out))
        = images_counted (u_id user) (committed w)
     /\ images (committed (snd out)) = images (committed w))
  /\ (gateway_answer env (payload_of fields) = Py.PDict [] ->
      fst out = Ok (App.Json 500 (App.ErrorBody "Failed to generate image"))
      /\ committed (snd out) = committed w).
Proof.
  intros Hlog Hprompt Hcommit out. subst out.
  unfold App.api_generate. rewrite (handle_logged_in user) by assumption.
  set (w0 := set_session (committed w) w). cbn [fst snd].
  destruct (generate_image_returns cfg env
              (field "prompt" (Py.PStr "") fields)
              (field "model" (Py.PStr "img3") fields)
              (field "size" (Py.PStr "1024x1024") fields)
              (field "quality" (Py.PStr "standard") fields) w0)
    as (wg & Hgen & _).
  change {| p_model := _; p_prompt := _; p_size := _; p_quality := _;
            p_n := 1 |} with (payload_of fields) in Hgen.
  split.
  - intros kv entries Hans Hkv Hdata Huseless.
    assert (Hview :
      exists w',
        App.api_generate_view cfg env (Some (Py.PDict fields)) user w0
        = (Ok (App.Json 200
                 (App.GeneratedBody [] "Generated 0 image(s) successfully!")),
           w')).
    { unfold App.api_generate_view, try_except.
      rewrite (bind_ok _ _ w0 w0 (Py.PDict fields)) by reflexivity.
      rewrite !get_field.
      rewrite (bind_ok _ _ w0 w0 (field "prompt" (Py.PStr "") fields))
        by reflexivity.
      rewrite (bind_ok _ _ w0 w0 (field "model" (Py.PStr "img3") fields))
        by reflexivity.
      rewrite (bind_ok _ _ w0 w0 (field "size" (Py.PStr "1024x1024") fields))
        by reflexivity.
      rewrite (bind_ok _ _ w0 w0 (field "quality" (Py.PStr "standard") fields))
        by reflexivity.
      rewrite Hprompt. cbn [negb].
      rewrite (bind_ok _ _ w0 wg _ Hgen), Hans.
      replace (Py.truthy (Py.PDict kv)) with true
        by (destruct kv; [contradiction|reflexivity]).
      cbn [negb]. rewrite Hdata.
      rewrite (bind_ok _ _ wg wg (Py.PList entries)) by reflexivity.
      rewrite (bind_ok _ _ wg wg entries) by reflexivity.
      rewrite (bind_ok _ _ wg wg [])
        by (now apply save_images_skips).
      destruct (record_stats_counts env user 0 wg) as (wr & Hrec & _).
      cbn [length].
      rewrite (bind_ok _ _ wg wr tt Hrec).
      rewrite (bind_ok _ _ _ _ _ (commit_ok env wr (Hcommit _))).
      destruct (quiet_safe_run _ (set_committed (session wr) wr)
                  (quiet_record_generation cfg env true
                     (field "model" (Py.PStr "img3") fields))
                  (safe_record_generation cfg env true
                     (field "model" (Py.PStr "img3") fields)))
        as (b & wm & Hm & _).
      rewrite (bind_ok _ _ _ wm b Hm).
      destruct (quiet_safe_run _ wm
                  (quiet_notify cfg env user (field "prompt" (Py.PStr "") fields))
                  (safe_notify cfg env user (field "prompt" (Py.PStr "") fields)))
        as ([] & wn & Hn & _).
      rewrite (bind_ok _ _ _ wn tt Hn).
      eexists. reflexivity. }
    destruct Hview as [w' Hview]. rewrite Hview. cbn [fst snd].
    destruct (api_generate_view_200 cfg env _ user w0 w' _ Hview eq_refl)
      as (saved & msg & new & Hr & Hlen & _ & _ & _ & Himgs & Hgens & Hcount & _).
    injection Hr as <- _. cbn [length] in Hlen.
    destruct new; [|discriminate].
    cbn [committed set_session session w0] in *.
    rewrite app_nil_r in Himgs. cbn [length Z.of_nat] in Hcount.
    rewrite Z.add_0_r in Hcount. auto.
  - intros Hans.
    assert (Hview :
      exists w',
        App.api_generate_view cfg env (Some (Py.PDict fields)) user w0
        = (Ok (App.Json 500 (App.ErrorBody "Failed to generate image")), w')).
    { unfold App.api_generate_view, try_except.
      rewrite (bind_ok _ _ w0 w0 (Py.PDict fields)) by reflexivity.
      rewrite !get_field.
      rewrite (bind_ok _ _ w0 w0 (field "prompt" (Py.PStr "") fields))
        by reflexivity.
      rewrite (bind_ok _ _ w0 w0 (field "model" (Py.PStr "img3") fields))
        by reflexivity.
      rewrite (bind_ok _ _ w0 w0 (field "size" (Py.PStr "1024x1024") fields))
        by reflexivity.
      rewrite (bind_ok _ _ w0 w0 (field "quality" (Py.PStr "standard") fields))
        by reflexivity.
      rewrite Hprompt. cbn [negb].
      rewrite (bind_ok _ _ w0 wg _ Hgen), Hans. cbn [Py.truthy negb].
      destruct (quiet_safe_run _ wg
                  (quiet_record_generation cfg env false
                     (field "model" (Py.PStr "img3") fields))
                  (safe_record_generation cfg env false
                     (field "model" (Py.PStr "img3") fields)))
        as (b & wm & Hm & _).
      rewrite (bind_ok _ _ _ wm b Hm). eexists. reflexivity. }
    destruct Hview as [w' Hview]. rewrite Hview. cbn [fst snd].
    split; [reflexivity|].
    destruct (api_generate_view_commits _ user w0 w' _ Hview)
      as [(saved & msg & H)|Hc]; [discriminate|exact Hc].
Qed.

(** *** Components a computation leaves alone *)

Lemma keeps_ret {A X} (f : World -> X) (a : A) : keeps f (ret a).
Proof. intros w. reflexivity. Qed.

Lemma keeps_raise {A X} (f : World -> X) (e : exn) : keeps f (@raise A e).
Proof. intros w. reflexivity. Qed.

Lemma keeps_lift {A X} (f : World -> X) (r : result A) : keeps f (lift r).
Proof. intros w. reflexivity. Qed.

Lemma keeps_gets {A X} (f : World -> X) (g : World -> A) : keeps f (gets g).
Proof. intros w. reflexivity. Qed.

Lemma keeps_bind {A B X} (f : World -> X) (m : M A) (k : A -> M B) :
  keeps f m -> (forall a, keeps f (k a)) -> keeps f (bind m k).
Proof.
  intros Hm Hk w. unfold bind. specialize (Hm w).
  destruct (m w) as [[a|e] w1]; cbn in *; [|exact Hm].
  now rewrite Hk.
Qed.

Lemma keeps_try {A X} (f : World -> X) (m : M A) (h : exn -> M A) :
  keeps f m -> (forall e, keeps f (h e)) -> keeps f (try_except m h).
Proof.
  intros Hm Hh w. unfold try_except. specialize (Hm w).
  destruct (m w) as [[a|e] w1]; cbn in *; [exact Hm|].
  now rewrite Hh.
Qed.

Lemma keeps_if {A X} (f : World -> X) (b : bool) (m1 m2 : M A) :
  keeps f m1 -> keeps f m2 -> keeps f (if b then m1 else m2).
Proof. now destruct b. Qed.

Lemma keeps_modify {X} (f : World -> X) (g : World -> World) :
  (forall w, f (g w) = f w) -> keeps f (modify g).
Proof. intros H w. apply H. Qed.

Lemma keeps_run {A X} (f : World -> X) (m : M A) (w w' : World)
    (r : result A) :
  keeps f m -> m w = (r, w') -> f w' = f w.
Proof. intros Hk H. specialize (Hk w). now rewrite H in Hk. Qed.

Lemma keeps_stored_put_metric name value unit dims :
  keeps stored (Metrics.put_metric cfg env name value unit dims).
Proof.
  intros w. unfold Metrics.put_metric.
  destruct (negb (cloudwatch_client cfg)); [reflexivity|].
  now destruct (put_metric_data env _).
Qed.

Lemma keeps_stored_send_sns email subject msg :
  keeps stored (App.send_sns_notification cfg env email subject msg).
Proof.
  unfold App.send_sns_notification.
  apply keeps_if; [apply keeps_ret|].
  apply keeps_if; [|apply keeps_ret].
  apply keeps_bind; [|intros; apply keeps_ret].
  now apply keeps_modify.
Qed.

Lemma keeps_stored_notify (user : User) (prompt : Py.value) :
  keeps stored
    (try_except
       (head <- lift (App.head100 prompt) ;;
        App.send_sns_notification cfg env (u_email user)
          "Image Generation Complete" (GenerationComplete head) ;;;
        ret tt)
       (fun _ => ret tt)).
Proof.
  apply keeps_try; [|intros; apply keeps_ret].
  apply keeps_bind; [apply keeps_lift|intros head].
  apply keeps_bind; [apply keeps_stored_send_sns|intros; apply keeps_ret].
Qed.

Lemma keeps_stored_record_stats (user : User) (k : nat) :
  keeps stored (App.record_stats env user k).
Proof.
  unfold App.record_stats.
  apply keeps_bind; [apply keeps_gets|intros [st|]].
  - now apply keeps_modify.
  - unfold App.add_stats. now apply keeps_modify.
Qed.

Lemma keeps_stored_commit : keeps stored (commit env).
Proof.
  intros w. unfold commit. now destruct (commit_accepted env (session w)).
Qed.

(** the steps of a request answered with 200, with the worlds between
    them *)
Lemma api_generate_view_200_steps (json : option Py.value) (user : User)
    (w w' : World) (r : result App.response) :
  App.api_generate_view cfg env json user w = (r, w') ->
  status_of r = 200 ->
  exists prompt model_id size quality entries wg ws saved msg,
    r = Ok (App.Json 200 (App.GeneratedBody saved msg))
    /\ same_db w wg
    /\ stored wg = stored w
    /\ App.save_images cfg env user prompt model_id size quality 0 entries []
         wg = (Ok saved, ws)
    /\ images (committed w') = images (session ws)
    /\ stored w' = stored ws.
Proof.
  unfold App.api_generate_view, try_except.
  match goal with
  | |- context [match ?body w with _ => _ end] =>
      destruct (body w) as [[resp|e] w1] eqn:E
  end.
  2:{ destruct (api_generate_except cfg env e w1) as (w2 & -> & _).
      intros [= <- <-]. discriminate. }
  intros [= <- <-] Hstatus.
  apply bind_inv_ok in E. destruct E as (data & w2 & H & E).
  apply lift_inv_ok in H. destruct H as [_ ->].
  apply bind_inv_ok in E. destruct E as (prompt & w2 & H & E).
  apply lift_inv_ok in H. destruct H as [_ ->].
  apply bind_inv_ok in E. destruct E as (model_id & w2 & H & E).
  apply lift_inv_ok in H. destruct H as [_ ->].
  apply bind_inv_ok in E. destruct E as (size & w2 & H & E).
  apply lift_inv_ok in H. destruct H as [_ ->].
  apply bind_inv_ok in E. destruct E as (quality & w2 & H & E).
  apply lift_inv_ok in H. destruct H as [_ ->].
  destruct (negb (Py.truthy prompt)).
  { injection E as <- <-. discriminate. }
  apply bind_inv_ok in E. destruct E as (result & wg & Hgen & E).
  destruct (negb (Py.truthy result)).
  { apply bind_inv_ok in E. destruct E as (? & ? & _ & E).
    injection E as <- <-. discriminate. }
  apply bind_inv_ok in E. destruct E as (data_field & w2 & H & E).
  apply lift_inv_ok in H. destruct H as [_ ->].
  apply bind_inv_ok in E. destruct E as (entries & w2 & H & E).
  apply lift_inv_ok in H. destruct H as [_ ->].
  apply bind_inv_ok in E. destruct E as (saved & ws & Hsave & E).
  apply bind_inv_ok in E. destruct E as ([] & wr & Hrec & E).
  apply bind_inv_ok in E. destruct E as ([] & wc & Hcommit & E).
  apply bind_inv_ok in E. destruct E as (? & wm & Hmetric & E).
  apply bind_inv_ok in E. destruct E as ([] & wn & Hnotify & E).
  injection E as <- <-.
  destruct (generate_image_returns cfg env prompt model_id size quality w)
    as (wg' & Hgen' & Hg & Gm & Gb & _).
  rewrite Hgen in Hgen'. injection Hgen' as _ <-.
  pose proof (keeps_run _ _ _ _ _ (keeps_stored_notify user prompt) Hnotify)
    as K1.
  pose proof (keeps_run _ _ _ _ _
                (keeps_stored_put_metric _ _ _ _) Hmetric) as K2.
  pose proof (keeps_run _ _ _ _ _ keeps_stored_commit Hcommit) as K3.
  pose proof (keeps_run _ _ _ _ _
                (keeps_stored_record_stats user (length saved)) Hrec) as K4.
  apply (quiet_run _ _ _ _ (quiet_notify cfg env user prompt)) in Hnotify.
  apply (quiet_run _ _ _ _ (quiet_record_generation cfg env true model_id))
    in Hmetric.
  destruct (record_stats_counts env user (length saved) ws)
    as (wr' & Hrec' & _ & _ & _ & R4 & _).
  rewrite Hrec in Hrec'. injection Hrec' as <-.
  unfold commit in Hcommit.
  destruct (commit_accepted env (session wr)); [|discriminate].
  injection Hcommit as <-.
  destruct Hnotify as (N1 & _). destruct Hmetric as (M1 & _).
  cbn [committed set_committed] in M1.
  exists prompt, model_id, size, quality, entries, wg, ws, saved.
  eexists. split; [reflexivity|]. split; [exact Hg|].
  split; [unfold stored; congruence|]. split; [exact Hsave|].
  split; [congruence|]. congruence.
Qed.

(** *** Local storage *)

Lemma store_local (data : bytes) (filename : string) (w : World) :
  USE_S3 cfg = false ->
  App.store cfg env data filename w
  = if write_accepted env filename data
    then (Ok (Some filename, Some ("/media/" ++ filename)%string),
          set_media ((filename, data) :: media w) w)
    else (Raise OSError, w).
Proof.
  intros H. unfold App.store, App.save_local, App.write_file. rewrite H.
  now destruct (write_accepted env filename data).
Qed.

Lemma save_image_from_url_local (url : Py.value) (filename : string)
    (w : World) :
  USE_S3 cfg = false ->
  local_outcome filename w (App.save_image_from_url cfg env url filename w).
Proof.
  intros Huse. unfold local_outcome.
  assert (Hdrop :
    exists r w1,
      (Metrics.record_error cfg env "ImageSave" ;;; ret (None, None)) w
      = (Ok r, w1)
      /\ same_db w w1 /\ bucket w1 = bucket w
      /\ ((r = (@None string, @None string) /\ media w1 = media w)
          \/ exists data,
               r = (Some filename, Some ("/media/" ++ filename)%string)
               /\ media w1 = (filename, data) :: media w)).
  { destruct (save_except cfg env "ImageSave" w) as [sent ->].
    do 2 eexists. split; [reflexivity|]. split; [repeat split|].
    split; [reflexivity|]. now left. }
  unfold App.save_image_from_url, try_except, App.http_get.
  destruct url as [| | |url| |];
    try (rewrite (bind_raise _ _ w w RequestException) by reflexivity;
         now apply Hdrop).
  destruct (requests_get env url) as [[status content]|].
  - rewrite (bind_ok _ _ w w (status, content)) by reflexivity.
    destruct (status =? 200)%nat.
    + rewrite (store_local content filename w Huse).
      destruct (write_accepted env filename content); [|now apply Hdrop].
      do 2 eexists. split; [reflexivity|]. split; [repeat split|].
      split; [reflexivity|]. right. now exists content.
    + do 2 eexists. split; [reflexivity|]. split; [repeat split|].
      split; [reflexivity|]. now left.
  - rewrite (bind_raise _ _ w w RequestException) by reflexivity.
    now apply Hdrop.
Qed.

Lemma save_base64_image_local (b64 : Py.value) (filename : string)
    (w : World) :
  USE_S3 cfg = false ->
  local_outcome filename w (App.save_base64_image cfg env b64 filename w).
Proof.
  intros Huse. unfold local_outcome.
  unfold App.save_base64_image, try_except.
  destruct (App.decode_payload b64) as [data|e].
  - rewrite (bind_ok _ _ w w data) by reflexivity.
    rewrite (store_local data filename w Huse).
    destruct (write_accepted env filename data).
    + do 2 eexists. split; [reflexivity|]. split; [repeat split|].
      split; [reflexivity|]. right. now exists data.
    + destruct (save_except cfg env "Base64Save" w) as [sent ->].
      do 2 eexists. split; [reflexivity|]. split; [repeat split|].
      split; [reflexivity|]. now left.
  - rewrite (bind_raise _ _ w w e) by reflexivity.
    destruct (save_except cfg env "Base64Save" w) as [sent ->].
    do 2 eexists. split; [reflexivity|]. split; [repeat split|].
    split; [reflexivity|]. now left.
Qed.

Lemma local_loop_stop (w : World) (saved : list Py.value)
    (r : result (list Py.value)) :
  (forall saved', r = Ok saved' -> saved' = saved) ->
  local_loop w saved (r, w).
Proof.
  intros Hr. exists [], []. cbn. rewrite !app_nil_r.
  repeat split; auto.
Qed.

Lemma local_loop_same (w w1 : World) (saved : list Py.value)
    (out : result (list Py.value) * World) :
  same_db w w1 -> bucket w1 = bucket w -> media w1 = media w ->
  local_loop w1 saved out -> local_loop w saved out.
Proof.
  intros (_ & S & _) Hb Hm (new & reported & H1 & H2 & H3 & H4).
  exists new, reported. rewrite <- S, <- Hb, <- Hm. auto.
Qed.

Lemma save_images_local (user : User) (prompt model_id size quality : Py.value)
    (entries : list Py.value) :
  USE_S3 cfg = false ->
  forall i saved w,
    local_loop w saved
      (App.save_images cfg env user prompt model_id size quality i entries
         saved w).
Proof.
  intros Huse.
  induction entries as [|image_data rest IH]; intros i saved w.
  - apply local_loop_stop. now intros saved' [= <-].
  - cbn [App.save_images]. rewrite Huse.
    set (filename := (now_stamp env ++ _)%string).
    assert (Hsaved : forall out0,
      local_outcome filename w out0 ->
      local_loop w saved
        (bind (fun w0 => match out0 with
                         | (Ok r, w1) => (Ok (Some r), w1)
                         | (Raise e, w1) => (Raise e, w1)
                         end)
           (fun saved0 =>
              match saved0 with
              | None =>
                  App.save_images cfg env user prompt model_id size quality
                    (S i) rest saved
              | Some (s3_key, image_url) =>
                  if Py.opt_truthy image_url then
                    App.add_image env i
                      {| i_id := None; i_user_id := u_id user;
                         i_prompt := prompt; i_model := model_id;
                         i_filename := filename; i_s3_key := None;
                         i_thumbnail_key := None; i_cloudfront_url := None;
                         i_size := size; i_quality := quality;
                         i_created_at := None |} ;;;
                    App.save_images cfg env user prompt model_id size quality
                      (S i) rest
                      (saved ++
                       [to_dict (utcnow env)
                          {| i_id := None; i_user_id := u_id user;
                             i_prompt := prompt; i_model := model_id;
                             i_filename := filename; i_s3_key := None;
                             i_thumbnail_key := None; i_cloudfront_url := None;
                             i_size := size; i_quality := quality;
                             i_created_at := None |}])
                  else
                    App.save_images cfg env user prompt model_id size quality
                      (S i) rest saved
              end) w)).
    { intros out0 (r & w1 & -> & Hdb & Hb & Hcase).
      unfold bind at 1.
      destruct Hcase as [[-> Hm]|(data & -> & Hm)].
      - cbn [Py.opt_truthy]. apply (local_loop_same w w1); auto.
      - cbn [Py.opt_truthy Py.str_truthy String.eqb append negb].
        unfold App.add_image, bind, modify.
        match goal with
        | |- context [App.save_images _ _ _ _ _ _ _ _ _ ?sv ?w2] =>
            pose proof (IH (S i) sv w2) as HIH;
            set (out := App.save_images cfg env user prompt model_id size
                          quality (S i) rest sv w2) in *
        end.
        destruct HIH as (new & reported & H1 & H2 & H3 & H4 & H5 & H6).
        cbn [session set_session bucket media images insert_image] in H1, H2, H3.
        destruct Hdb as (_ & Hsess & _).
        assert (Hfile : Py.lookup filename (media (snd out)) <> None).
        { apply H3. rewrite Hm. cbn. rewrite String.eqb_refl. discriminate. }
        match type of H1 with
        | _ = (_ ++ [?row]) ++ _ =>
            match type of H6 with
            | context [saved ++ [?d]] => exists (row :: new), (d :: reported)
            end
        end.
        split; [rewrite H1, Hsess, <- app_assoc; reflexivity|].
        split; [congruence|]. split.
        { intros f Hf. apply H3. rewrite Hm. cbn.
          destruct (filename =? f); [discriminate|exact Hf]. }
        split; [constructor; [|exact H4]|].
        { split; [reflexivity|]. split; [reflexivity|exact Hfile]. }
        split; [constructor; [|exact H5]|].
        { exists filename.
          split; [reflexivity|]. split; [reflexivity|exact Hfile]. }
        intros saved' Hs. rewrite (H6 _ Hs), <- app_assoc. reflexivity. }
    destruct (Py.contains "url" image_data) as [has_url|e] eqn:Hurl.
    2:{ rewrite (bind_raise _ _ w w e) by reflexivity.
        apply local_loop_stop. discriminate. }
    rewrite (bind_ok _ _ w w has_url) by reflexivity.
    destruct has_url.
    + destruct (Py.getitem image_data "url") as [url|e] eqn:Hget.
      2:{ rewrite (bind_raise _ _ w w e)
            by (erewrite bind_raise; reflexivity).
          apply local_loop_stop. discriminate. }
      specialize (Hsaved _ (save_image_from_url_local url filename w Huse)).
      destruct (save_image_from_url_local url filename w Huse)
        as (r & w1 & Hrun & _).
      rewrite Hrun in Hsaved. unfold bind at 1 in Hsaved.
      rewrite (bind_ok _ _ w w1 (Some r)).
      2:{ rewrite (bind_ok _ _ w w url) by reflexivity.
          now rewrite (bind_ok _ _ w w1 r) by exact Hrun. }
      exact Hsaved.
    + destruct (Py.contains "b64_json" image_data) as [has_b64|e] eqn:Hb64.
      2:{ rewrite (bind_raise _ _ w w e)
            by (erewrite bind_raise; reflexivity).
          apply local_loop_stop. discriminate. }
      destruct has_b64.
      * destruct (Py.getitem image_data "b64_json") as [b64|e] eqn:Hget.
        2:{ rewrite (bind_raise _ _ w w e).
            2:{ rewrite (bind_ok _ _ w w true) by reflexivity.
                erewrite bind_raise; reflexivity. }
            apply local_loop_stop. discriminate. }
        specialize (Hsaved _ (save_base64_image_local b64 filename w Huse)).
        destruct (save_base64_image_local b64 filename w Huse)
          as (r & w1 & Hrun & _).
        rewrite Hrun in Hsaved. unfold bind at 1 in Hsaved.
        rewrite (bind_ok _ _ w w1 (Some r)).
        2:{ rewrite (bind_ok _ _ w w true) by reflexivity.
            rewrite (bind_ok _ _ w w b64) by reflexivity.
            now rewrite (bind_ok _ _ w w1 r) by exact Hrun. }
        exact Hsaved.
      * rewrite (bind_ok _ _ w w None).
        2:{ now rewrite (bind_ok _ _ w w false) by reflexivity. }
        apply IH.
Qed.

Lemma local_row_media (w w' : World) (im : Image) :
  media w' = media w -> local_row w im -> local_row w' im.
Proof. intros Hm (A & B & C). repeat split; congruence. Qed.

Lemma local_descriptor_media (w w' : World) (d : Py.value) :
  media w' = media w -> local_descriptor w d -> local_descriptor w' d.
Proof.
  intros Hm (f & A & B & C). exists f. repeat split; congruence.
Qed.

(** X9.  In local mode (object storage switched off) a request answered
    with 200 leaves the bucket alone; every image row it adds has neither
    storage key nor public URL and names a file of the media folder; and
    every image the answer reports carries the URL ["/media/<filename>"]
    of a file of the media folder, which the media route serves when the
    folder it reads is the folder written. *)
Theorem local_mode_images_are_served
    (json : option Py.value) (user : User) (w : World) :
  USE_S3 cfg = false ->
  logged_in user w ->
  let out := App.handle (App.api_generate cfg env json) w in
  status_of (fst out) = 200 ->
  exists saved msg new,
    fst out = Ok (App.Json 200 (App.GeneratedBody saved msg))
    /\ images (committed (snd out)) = images (committed w) ++ new
    /\ bucket (snd out) = bucket w
    /\ Forall (local_row (snd out)) new
    /\ Forall (fun d =>
                 exists filename content,
                   Py.getitem d "url" = Ok (Py.PStr ("/media/" ++ filename))
                   /\ Py.lookup filename (media (snd out)) = Some content
                   /\ (App.served_folder cfg env = App.written_folder cfg env ->
                       forall url,
                         fst (App.handle
                                (App.serve_media cfg env url filename)
                                (snd out))
                         = Ok (App.SendFile content))) saved.
Proof.
  intros Huse Hlog out H200.
  pose proof (api_generate_keeps_login json user w Hlog H200) as Hlog'.
  fold out in Hlog'. subst out.
  unfold App.api_generate in *.
  rewrite (handle_logged_in user) in * by assumption.
  set (w0 := set_session (committed w) w) in *.
  destruct (App.api_generate_view cfg env json user w0) as [r w'] eqn:Hview.
  cbn [fst snd] in *.
  destruct (api_generate_view_200_steps json user w0 w' r Hview H200)
    as (prompt & model_id & size & quality & entries & wg & ws & saved & msg
        & -> & (_ & Gs & _) & Gst & Hsave & Himgs & Hst).
  destruct (save_images_local user prompt model_id size quality entries Huse
              0 [] wg) as (new & reported & L1 & L2 & _ & L4 & L5 & L6).
  rewrite Hsave in L1, L2, L4, L5, L6. cbn [fst snd] in L1, L2, L4, L5, L6.
  specialize (L6 saved eq_refl). cbn in L6. subst reported.
  unfold stored in Gst, Hst. injection Gst as Gm Gb. injection Hst as Hm Hb.
  exists saved, msg, new.
  split; [reflexivity|].
  split; [cbn; rewrite Himgs, L1, Gs; reflexivity|].
  split; [cbn; congruence|].
  split.
  - eapply Forall_impl; [|exact L4].
    intros im. apply local_row_media. cbn. exact Hm.
  - eapply Forall_impl; [|exact L5].
    intros d (filename & Hurl & _ & Hfile).
    destruct (Py.lookup filename (media ws)) as [content|] eqn:Hc;
      [|contradiction].
    assert (Hthere : Py.lookup filename
                       (media (set_session (committed w') w')) = Some content)
      by (cbn; now rewrite Hm).
    exists filename, content. split; [exact Hurl|]. split; [exact Hthere|].
    intros Hdir url.
    now apply (serve_media_file cfg env user).
Qed.

End MoreGenerate.

(** ** The thumbnail function *)

Section Thumbnails.
Import Thumbnail.
Local Open Scope string_scope.

Variable thumbnail_png : bytes -> option bytes.
Variable put_accepted : string -> string -> bytes -> bool.

Lemma startswith_app (p s : string) : Py.startswith (p ++ s) p = true.
Proof.
  induction p as [|c p IH]; [now destruct s|].
  cbn. now rewrite Ascii.eqb_refl, IH.
Qed.

Lemma split_not_nil (sep : ascii) (s : string) : Py.split sep s <> [].
Proof.
  induction s as [|c s IH]; cbn; [discriminate|].
  destruct (Ascii.eqb c sep); [discriminate|].
  now destruct (Py.split sep s).
Qed.

Lemma last_split_free (sep : ascii) (s : string) :
  Py.free_of sep (last (Py.split sep s) "") = true.
Proof.
  induction s as [|c s IH]; [reflexivity|].
  cbn [Py.split]. destruct (Ascii.eqb c sep) eqn:Hc.
  - pose proof (split_not_nil sep s) as Hne.
    destruct (Py.split sep s) as [|h t]; [contradiction|]. exact IH.
  - pose proof (split_not_nil sep s) as Hne.
    destruct (Py.split sep s) as [|h t]; [contradiction|].
    destruct t as [|h' t].
    + cbn in *. now rewrite Hc, IH.
    + exact IH.
Qed.

Lemma split_free_of (sep : ascii) (s : string) :
  Py.free_of sep s = true -> Py.split sep s = [s].
Proof.
  induction s as [|c s IH]; [reflexivity|].
  cbn. destruct (Ascii.eqb c sep); [discriminate|].
  cbn. intros H. now rewrite (IH H).
Qed.

(** a text that holds the separator splits in two parts at least *)
Lemma split_two (sep : ascii) (p s : string) :
  exists h1 h2 t, Py.split sep (p ++ String sep s) = h1 :: h2 :: t.
Proof.
  induction p as [|c p (h1 & h2 & t & IH)].
  - cbn. rewrite Ascii.eqb_refl.
    pose proof (split_not_nil sep s) as Hne.
    destruct (Py.split sep s) as [|h t]; [contradiction|]. eauto.
  - cbn [append Py.split]. rewrite IH.
    destruct (Ascii.eqb c sep); eauto.
Qed.

Lemma last_split_app (sep : ascii) (p s : string) :
  Py.free_of sep s = true ->
  last (Py.split sep (p ++ String sep s)) "" = s.
Proof.
  intros Hs. induction p as [|c p IH].
  - cbn. rewrite Ascii.eqb_refl, (split_free_of _ _ Hs). reflexivity.
  - cbn [append Py.split].
    destruct (split_two sep p s) as (h1 & h2 & t & E).
    rewrite E in *. now destruct (Ascii.eqb c sep).
Qed.

Lemma record_field_s3_event (bucket key : string) :
  record_field (s3_event bucket key) "bucket" "name" = Ok (Py.PStr bucket)
  /\ record_field (s3_event bucket key) "object" "key" = Ok (Py.PStr key).
Proof. split; reflexivity. Qed.

Lemma create_thumbnail_cases (event : Py.value) (os : objects) :
  let out := create_thumbnail thumbnail_png put_accepted event os in
  (exists e, out = (Raise e, os))
  \/ out = (Ok AlreadyThumbnail, os)
  \/ exists bucket key data png,
       record_field event "bucket" "name" = Ok (Py.PStr bucket)
       /\ record_field event "object" "key" = Ok (Py.PStr key)
       /\ Py.startswith key "thumbnails/" = false
       /\ get_object os bucket key = Some data
       /\ thumbnail_png data = Some png
       /\ put_accepted bucket ("thumbnails/" ++ last_segment key) png = true
       /\ out = (Ok (Created ("thumbnails/" ++ last_segment key)),
                 ((bucket, "thumbnails/" ++ last_segment key), png) :: os).
Proof.
  intros out. subst out. unfold create_thumbnail.
  destruct (record_field event "bucket" "name") as [b|e]; [|left; eauto].
  destruct (record_field event "object" "key") as [k|e]; [|left; eauto].
  destruct k as [| | |key| |]; try (left; eauto; fail).
  destruct (Py.startswith key "thumbnails/") eqn:Hstart; [right; left; auto|].
  destruct b as [| | |bucket| |]; try (left; eauto; fail).
  destruct (get_object os bucket key) as [data|] eqn:Hget; [|left; eauto].
  destruct (thumbnail_png data) as [png|] eqn:Hpng; [|left; eauto].
  destruct (put_accepted bucket _ png) eqn:Hput; [|left; eauto].
  right; right. exists bucket, key, data, png. repeat split; auto.
Qed.

Lemma lambda_handler_skips (bucket key : string) (os : objects) :
  Py.startswith key "thumbnails/" = true ->
  lambda_handler thumbnail_png put_accepted (s3_event bucket key) os
  = ({| statusCode := 200; body := AlreadyThumbnail |}, os).
Proof.
  intros Hstart. unfold lambda_handler, create_thumbnail.
  destruct (record_field_s3_event bucket key) as [-> ->].
  now rewrite Hstart.
Qed.

(** X10.  The function never works on its own output: the key of a
    thumbnail it has created lies directly under ["thumbnails/"] (no
    further folder), and an invocation for that key, in any bucket and
    whatever the bucket holds, answers 200 without reading or writing an
    object. *)
Theorem thumbnail_not_thumbnailed_again
    (event : Py.value) (os os' : objects) (thumbnail_key : string) :
  lambda_handler thumbnail_png put_accepted event os
  = ({| statusCode := 200; body := Created thumbnail_key |}, os') ->
  (exists filename,
     thumbnail_key = "thumbnails/" ++ filename
     /\ Py.free_of "/" filename = true)
  /\ forall bucket os2,
       lambda_handler thumbnail_png put_accepted
         (s3_event bucket thumbnail_key) os2
       = ({| statusCode := 200; body := AlreadyThumbnail |}, os2).
Proof.
  unfold lambda_handler at 1.
  destruct (create_thumbnail_cases event os)
    as [[e H]|[H|(b & key & data & png & _ & _ & _ & _ & _ & _ & H)]];
    rewrite H; intros E; try discriminate.
  injection E as <- _. split.
  - exists (last_segment key). split; [reflexivity|].
    apply last_split_free.
  - intros bucket os2.
    apply lambda_handler_skips.
    exact (startswith_app "thumbnails/" (last_segment key)).
Qed.

(** X11.  The function answers 200 or 500 and nothing else.  A 500
    carries the exception and leaves every object as it was; a 200 either
    changes nothing (the key was a thumbnail already) or adds exactly one
    object, under the thumbnail key, and every other object reads back as
    before. *)
Theorem lambda_handler_answers
    (event : Py.value) (os : objects) :
  let out := lambda_handler thumbnail_png put_accepted event os in
  (statusCode (fst out) = 500
   /\ (exists e, body (fst out) = Failed e) /\ snd out = os)
  \/ (statusCode (fst out) = 200
      /\ body (fst out) = AlreadyThumbnail /\ snd out = os)
  \/ (statusCode (fst out) = 200
      /\ exists bucket thumbnail_key png,
           body (fst out) = Created thumbnail_key
           /\ snd out = ((bucket, thumbnail_key), png) :: os
           /\ get_object (snd out) bucket thumbnail_key = Some png
           /\ forall b k,
                same_place (b, k) (bucket, thumbnail_key) = false ->
                get_object (snd out) b k = get_object os b k).
Proof.
  intros out. subst out. unfold lambda_handler.
  destruct (create_thumbnail_cases event os)
    as [[e H]|[H|(b & key & data & png & _ & _ & _ & _ & _ & _ & H)]];
    rewrite H; cbn [fst snd statusCode body].
  - left. eauto.
  - right; left. auto.
  - right; right. split; [reflexivity|].
    exists b, ("thumbnails/" ++ last_segment key), png.
    split; [reflexivity|]. split; [reflexivity|]. split.
    + cbn. unfold same_place. cbn. now rewrite !String.eqb_refl.
    + intros b' k' Hne. cbn [get_object].
      replace (same_place (b, "thumbnails/" ++ last_segment key) (b', k'))
        with false; [reflexivity|].
      unfold same_place in *. cbn [fst snd] in *.
      now rewrite (String.eqb_sym b b'), (String.eqb_sym _ k').
Qed.

(** X12.  An image the application has uploaded, under
    ["images/<filename>"], gets its thumbnail under
    ["thumbnails/<filename>"] in the same bucket, provided that Pillow
    reads the image and the upload goes through. *)
Theorem thumbnail_of_uploaded_image
    (bucket filename : string) (data png : bytes) (os : objects) :
  Py.free_of "/" filename = true ->
  get_object os bucket ("images/" ++ filename) = Some data ->
  thumbnail_png data = Some png ->
  put_accepted bucket ("thumbnails/" ++ filename) png = true ->
  lambda_handler thumbnail_png put_accepted
    (s3_event bucket ("images/" ++ filename)) os
  = ({| statusCode := 200; body := Created ("thumbnails/" ++ filename) |},
     ((bucket, "thumbnails/" ++ filename), png) :: os).
Proof.
  intros Hfree Hget Hpng Hput.
  assert (Hlast : last_segment ("images/" ++ filename) = filename).
  { unfold last_segment.
    change ("images/" ++ filename) with ("images" ++ String "/" filename).
    now apply last_split_app. }
  assert (Hstart : Py.startswith ("images/" ++ filename) "thumbnails/" = false)
    by reflexivity.
  remember ("images/" ++ filename) as key eqn:Hkey.
  unfold lambda_handler, create_thumbnail.
  destruct (record_field_s3_event bucket key) as [-> ->].
  rewrite Hstart, Hget, Hpng, Hlast, Hput. reflexivity.
Qed.

End Thumbnails.

(** ** The pages *)

Section Views.
Import Models Runtime Spec Notions.
Local Open Scope app_scope.

Lemma insert_desc_perm {A} (key : A -> nat) (x : A) (l : list A) :
  Permutation (Pages.insert_desc key x l) (x :: l).
Proof.
  induction l as [|y l IH]; cbn; [reflexivity|].
  destruct (key y <=? key x)%nat; [reflexivity|].
  rewrite IH. apply perm_swap.
Qed.

Lemma order_by_desc_perm {A} (key : A -> nat) (l : list A) :
  Permutation (Pages.order_by_desc key l) l.
Proof.
  induction l as [|x l IH]; cbn; [reflexivity|].
  rewrite insert_desc_perm. now constructor.
Qed.

Lemma insert_desc_sorted {A} (key : A -> nat) (x : A) (l : list A) :
  newest_first key l -> newest_first key (Pages.insert_desc key x l).
Proof.
  unfold newest_first. induction 1 as [|y l Hl IH Hy]; cbn.
  - repeat constructor.
  - destruct (key y <=? key x)%nat eqn:E.
    + apply Nat.leb_le in E. constructor; [now constructor|].
      constructor; [exact E|].
      eapply Forall_impl; [|exact Hy]. cbn. intros; lia.
    + apply Nat.leb_gt in E. constructor; [exact IH|].
      rewrite (Forall_forall). intros z Hz.
      apply (Permutation_in _ (insert_desc_perm key x l)) in Hz.
      destruct Hz as [<-|Hz]; [lia|].
      rewrite Forall_forall in Hy. now apply Hy.
Qed.

Lemma order_by_desc_sorted {A} (key : A -> nat) (l : list A) :
  newest_first key (Pages.order_by_desc key l).
Proof.
  induction l as [|x l IH]; cbn; [constructor|].
  now apply insert_desc_sorted.
Qed.

(** in a sorted list what comes first is no older than what follows *)
Lemma newest_first_app {A} (key : A -> nat) (l1 l2 : list A) :
  newest_first key (l1 ++ l2) ->
  forall a b, In a l1 -> In b l2 -> key b <= key a.
Proof.
  unfold newest_first. induction l1 as [|x l1 IH]; intros H a b Ha Hb.
  - destruct Ha.
  - cbn in H. apply StronglySorted_inv in H. destruct H as [Hs Hx].
    destruct Ha as [<-|Ha].
    + rewrite Forall_forall in Hx. apply Hx, in_or_app. now right.
    + now apply IH.
Qed.

Lemma pages_logged_in (user : User) path (route : User -> M Pages.view)
    (w : World) :
  logged_in user w ->
  App.handle (Pages.login_required path route) w =
  (fst (route user (set_session (committed w) w)),
   let w' := snd (route user (set_session (committed w) w)) in
   set_session (committed w') w').
Proof.
  intros [Hid Hu]. unfold App.handle, Pages.login_required.
  unfold App.current_user, App.load_user, bind, gets.
  cbn [login_id session set_session]. rewrite Hid.
  cbn [login_id session set_session]. rewrite Hu.
  now destruct (route user _).
Qed.

Lemma pages_anonymous path (route : User -> M Pages.view) (w : World) :
  anonymous w ->
  App.handle (Pages.login_required path route) w =
  (Ok (Pages.Response (App.Redirect (App.login_url path))),
   set_flashes (flashes w ++ [(App.login_message, "message")])
     (set_session (committed w) w)).
Proof.
  intros Hanon. unfold App.handle, Pages.login_required.
  rewrite (bind_ok _ _ _ _ _
             (current_user_anonymous (set_session (committed w) w) Hanon)).
  reflexivity.
Qed.

Lemma handle_anonymous path (view : User -> M App.response) (w : World) :
  anonymous w ->
  App.handle (App.login_required path view) w =
  (Ok (App.Redirect (App.login_url path)),
   set_flashes (flashes w ++ [(App.login_message, "message")])
     (set_session (committed w) w)).
Proof.
  intros Hanon. unfold App.handle, App.login_required.
  rewrite (bind_ok _ _ _ _ _
             (current_user_anonymous (set_session (committed w) w) Hanon)).
  reflexivity.
Qed.

Variable cfg : Config.
Variable env : Env.

(** X13.  The gallery shows the requester's images, all of them and no
    others, the newest first, and reports their number; no error is
    recorded. *)
Theorem gallery_shows_own_images_newest_first (user : User) (w : World) :
  logged_in user w ->
  let out := App.handle (Pages.gallery cfg env) w in
  exists shown info,
    fst out
    = Ok (Pages.Template "gallery.html" (Pages.GalleryContext shown info))
    /\ Permutation shown (images_of_user (u_id user) (committed w))
    /\ Forall (fun im => i_user_id im = u_id user) shown
    /\ newest_first Pages.image_created_at shown
    /\ Py.getitem info "total_images"
       = Ok (Py.PNum
               (Z.of_nat (length (images_of_user (u_id user) (committed w)))))
    /\ metric_calls (snd out) = metric_calls w.
Proof.
  intros Hlog out. subst out. unfold Pages.gallery.
  rewrite (pages_logged_in user) by assumption.
  cbn [fst snd try_except bind gets ret session set_session metric_calls].
  set (own := images_of_user (u_id user) (committed w)).
  pose proof (order_by_desc_perm Pages.image_created_at own) as Hperm.
  eexists. eexists. split; [reflexivity|].
  split; [exact Hperm|]. split.
  - rewrite Forall_forall. intros im Him.
    apply (Permutation_in _ Hperm) in Him.
    unfold own, images_of_user in Him. apply filter_In in Him.
    now apply Nat.eqb_eq.
  - split; [apply order_by_desc_sorted|].
    split; [|reflexivity].
    cbn. now rewrite (Permutation_length Hperm).
Qed.

(** X14.  The dashboard shows the requester's newest images, six at
    most: what it shows and what it leaves out are together the
    requester's images, nothing left out is newer than anything shown,
    and something is left out only when six are shown.  The stats are
    the requester's row. *)
Theorem dashboard_shows_six_newest (user : User) (w : World) :
  logged_in user w ->
  exists recent_images left_out,
    fst (App.handle Pages.dashboard w)
    = Ok (Pages.Template "dashboard.html"
            (Pages.DashboardContext
               (stats_by_user (u_id user) (committed w)) recent_images))
    /\ length recent_images <= 6
    /\ Permutation (recent_images ++ left_out)
         (images_of_user (u_id user) (committed w))
    /\ (forall a b,
          In a recent_images -> In b left_out ->
          Pages.image_created_at b <= Pages.image_created_at a)
    /\ (left_out <> [] -> length recent_images = 6).
Proof.
  intros Hlog. unfold Pages.dashboard.
  rewrite (pages_logged_in user) by assumption.
  cbn [fst bind gets ret session set_session].
  set (own := images_of_user (u_id user) (committed w)).
  set (sorted := Pages.order_by_desc Pages.image_created_at own).
  exists (firstn 6 sorted), (skipn 6 sorted).
  split; [reflexivity|].
  split; [apply firstn_le_length|].
  split; [rewrite firstn_skipn; apply order_by_desc_perm|].
  split.
  - apply newest_first_app. rewrite firstn_skipn.
    apply order_by_desc_sorted.
  - intros Hrest. rewrite length_firstn.
    destruct (Nat.le_gt_cases (length sorted) 6) as [Hle|Hgt]; [|lia].
    now rewrite skipn_all2 in Hrest.
Qed.

(** X15.  /api/models always answers: with what the API sent when the
    API answers 200 with a JSON body, and with the empty model list
    otherwise.  An error is recorded only when the call or the decoding
    of the body raised, not for a status other than 200.  Nothing is
    written to the database or to storage. *)
Theorem api_models_degrades_gracefully
    (models_answer : option (nat * option Py.value)) (user : User)
    (w : World) :
  logged_in user w ->
  let out := App.handle (Pages.api_models cfg env models_answer) w in
  committed (snd out) = committed w
  /\ stored (snd out) = stored w
  /\ match models_answer with
     | Some (status, json) =>
         if (status =? 200)%nat then
           match json with
           | Some v =>
               fst out = Ok (Pages.Jsonify v)
               /\ metric_calls (snd out) = metric_calls w
           | None =>
               fst out = Ok (Pages.Jsonify Pages.no_models)
               /\ exists sent,
                    metric_calls (snd out)
                    = metric_calls w ++ [error_call env "APIModels" sent]
           end
         else
           fst out = Ok (Pages.Jsonify Pages.no_models)
           /\ metric_calls (snd out) = metric_calls w
     | None =>
         fst out = Ok (Pages.Jsonify Pages.no_models)
         /\ exists sent,
              metric_calls (snd out)
              = metric_calls w ++ [error_call env "APIModels" sent]
     end.
Proof.
  intros Hlog out. subst out. unfold Pages.api_models.
  rewrite (pages_logged_in user) by assumption.
  set (w0 := set_session (committed w) w).
  assert (Herr : exists sent,
             (Metrics.record_error cfg env "APIModels" ;;;
              ret Pages.no_models) w0
             = (Ok Pages.no_models,
                set_metric_calls
                  (metric_calls w0 ++ [error_call env "APIModels" sent]) w0)).
  { unfold Metrics.record_error, Metrics.increment_counter.
    destruct (put_metric_log cfg env "ApplicationErrors" 1 "Count"
                [("ErrorType", Py.PStr "APIModels")] w0) as [sent H].
    exists sent. now rewrite (bind_ok _ _ _ _ _ H). }
  destruct Herr as [sent Herr].
  destruct models_answer as [[status [v|]]|];
    [destruct (status =? 200)%nat eqn:E..|].
  - rewrite (bind_ok _ _ w0 w0 v)
      by (unfold Pages.get_available_models, try_except; now rewrite E).
    cbn. auto.
  - rewrite (bind_ok _ _ w0 w0 Pages.no_models)
      by (unfold Pages.get_available_models, try_except; now rewrite E).
    cbn. auto.
  - erewrite bind_ok
      by (unfold Pages.get_available_models, try_except; rewrite E;
          cbn [raise]; exact Herr).
    cbn. do 3 (split; [reflexivity|]). now exists sent.
  - rewrite (bind_ok _ _ w0 w0 Pages.no_models)
      by (unfold Pages.get_available_models, try_except; now rewrite E).
    cbn. auto.
  - erewrite bind_ok
      by (unfold Pages.get_available_models, try_except;
          cbn [raise]; exact Herr).
    cbn. do 3 (split; [reflexivity|]). now exists sent.
Qed.

End Views.

(** ** Sessions and admin rights *)

Section Sessions.
Import Models Runtime Spec Notions.
Local Open Scope app_scope.

Variable bcrypt_kdf : string -> string -> string.
Variable cfg : Config.
Variable env : Env.

(** X16.  A logout signs the requester out and writes nothing; after it
    every route behind [login_required] turns the requester away the way
    Flask-Login does: a redirect to the login page with the path asked
    for, quoted, in [next], and the notice "Please log in to access this
    page."; the view is not run and nothing else changes. *)
Theorem logout_closes_the_session (user : User) (w : World) :
  logged_in user w ->
  let out := App.handle App.logout w in
  let turned_away (w1 w2 : World) :=
    flashes w2
    = flashes w1 ++ [("Please log in to access this page.", "message")]
    /\ anonymous w2
    /\ committed w2 = committed w1
    /\ stored w2 = stored w1
    /\ metric_calls w2 = metric_calls w1
    /\ api_calls w2 = api_calls w1
    /\ notifications w2 = notifications w1 in
  fst out = Ok (App.Redirect "/login")
  /\ anonymous (snd out)
  /\ committed (snd out) = committed w
  /\ stored (snd out) = stored w
  /\ flashes (snd out) = flashes w ++ [("You have been logged out.", "info")]
  /\ (forall path view,
        let again := App.handle (App.login_required path view) (snd out) in
        fst again = Ok (App.Redirect ("/login?next=" ++ Py.quote_plus path))
        /\ turned_away (snd out) (snd again))
  /\ (forall path route,
        let again := App.handle (Pages.login_required path route) (snd out) in
        fst again
        = Ok (Pages.Response
                (App.Redirect ("/login?next=" ++ Py.quote_plus path)))
        /\ turned_away (snd out) (snd again)).
Proof.
  intros Hlog out turned_away. subst out turned_away. unfold App.logout.
  rewrite (handle_logged_in user) by assumption.
  cbn [fst snd]. unfold App.logout_user.
  set (w0 := set_session (committed w) w).
  rewrite (bind_ok _ _ w0 (set_login_id None w0) tt) by reflexivity.
  rewrite (bind_ok _ _ _ _ _ (flash_run _ _ _)).
  cbn [ret fst snd].
  set (w1 := set_session _ _).
  assert (Hanon : anonymous w1) by reflexivity.
  split; [reflexivity|]. split; [exact Hanon|].
  split; [reflexivity|]. split; [reflexivity|]. split; [reflexivity|]. split.
  - intros path view.
    rewrite (handle_anonymous path view w1 Hanon). cbn [fst snd].
    repeat split.
  - intros path route.
    rewrite (pages_anonymous path route w1 Hanon). cbn [fst snd].
    repeat split.
Qed.

(** X17.  [login] writes nothing to the database or to storage, and the
    requester it leaves signed in is either who was signed in before or
    the user found under the name of the form, whose stored hash the
    password of the form has passed. *)
Theorem login_needs_the_password (request : App.FormRequest) (w : World) :
  let out := App.handle (App.login bcrypt_kdf cfg env request) w in
  committed (snd out) = committed w
  /\ stored (snd out) = stored w
  /\ (login_id (snd out) = login_id w
      \/ exists user,
           App.r_method request = App.POST
           /\ user_by_username (Py.lookup "username" (App.r_form request))
                (committed w) = Some user
           /\ Bcrypt.check_password_hash bcrypt_kdf (u_password_hash user)
                (Py.lookup "password" (App.r_form request)) = Ok true
           /\ login_id (snd out) = Some (u_id user)).
Proof.
  intros out. subst out. unfold App.handle.
  set (w0 := set_session (committed w) w). unfold App.login.
  destruct (current_user_run w0) as [[u|] Hcur];
    rewrite (bind_ok _ _ _ _ _ Hcur); [cbn; auto|].
  destruct (App.r_method request) eqn:Hm; [cbn; auto|].
  set (name := Py.lookup "username" (App.r_form request)).
  set (password := Py.lookup "password" (App.r_form request)).
  destruct (user_by_username name (committed w)) as [user|] eqn:Hfind.
  2:{ rewrite (bind_ok _ _ w0 w0 None)
        by (unfold gets; cbn [session set_session w0]; now rewrite Hfind).
      rewrite (bind_ok _ _ _ _ _ (flash_run _ _ w0)). cbn. auto. }
  rewrite (bind_ok _ _ w0 w0 (Some user))
    by (unfold gets; cbn [session set_session w0]; now rewrite Hfind).
  destruct (Bcrypt.check_password_hash bcrypt_kdf (u_password_hash user)
              password) as [[|]|e] eqn:Hcheck.
  - rewrite (bind_ok _ _ w0 w0 true) by reflexivity.
    unfold App.login_user.
    rewrite (bind_ok _ _ w0 (set_login_id (Some (u_id user)) w0) tt)
      by reflexivity.
    unfold Metrics.record_login, Metrics.increment_counter.
    destruct (put_metric_log cfg env "UserLogins" 1 "Count" []
                (set_login_id (Some (u_id user)) w0)) as [sent H].
    rewrite (bind_ok _ _ _ _ _ H).
    rewrite (bind_ok _ _ _ _ _ (flash_run _ _ _)).
    cbn. split; [reflexivity|]. split; [reflexivity|].
    right. exists user. auto.
  - rewrite (bind_ok _ _ w0 w0 false) by reflexivity.
    rewrite (bind_ok _ _ _ _ _ (flash_run _ _ w0)). cbn. auto.
  - rewrite (bind_raise _ _ w0 w0 e) by reflexivity. cbn. auto.
Qed.

(** *** What [register] may do to the user table *)

Lemma invariant_ret {A} (I : World -> Prop) (a : A) : invariant I (ret a).
Proof. intros w H. exact H. Qed.

Lemma invariant_lift {A} (I : World -> Prop) (r : result A) :
  invariant I (lift r).
Proof. intros w H. exact H. Qed.

Lemma invariant_gets {A} (I : World -> Prop) (f : World -> A) :
  invariant I (gets f).
Proof. intros w H. exact H. Qed.

Lemma invariant_bind {A B} (I : World -> Prop) (m : M A) (k : A -> M B) :
  invariant I m -> (forall a, invariant I (k a)) -> invariant I (bind m k).
Proof.
  intros Hm Hk w H. unfold bind. specialize (Hm w H).
  destruct (m w) as [[a|e] w1]; cbn in *; [now apply Hk|exact Hm].
Qed.

Lemma invariant_try {A} (I : World -> Prop) (m : M A) (h : exn -> M A) :
  invariant I m -> (forall e, invariant I (h e)) ->
  invariant I (try_except m h).
Proof.
  intros Hm Hh w H. unfold try_except. specialize (Hm w H).
  destruct (m w) as [[a|e] w1]; cbn in *; [exact Hm|now apply Hh].
Qed.

Lemma invariant_if {A} (I : World -> Prop) (b : bool) (m1 m2 : M A) :
  invariant I m1 -> invariant I m2 -> invariant I (if b then m1 else m2).
Proof. now destruct b. Qed.

Lemma invariant_quiet {A} (I : World -> Prop) (m : M A) :
  (forall w w', same_db w w' -> I w -> I w') ->
  quiet m -> invariant I m.
Proof. intros HI Hq w H. exact (HI _ _ (Hq w) H). Qed.

Lemma extended_refl (l : list User) : extended l l.
Proof. exists []. split; [now rewrite app_nil_r|constructor]. Qed.

Lemma extended_trans (l1 l2 l3 : list User) :
  extended l1 l2 -> extended l2 l3 -> extended l1 l3.
Proof.
  intros (a & -> & Ha) (b & -> & Hb). exists (a ++ b).
  split; [now rewrite app_assoc|]. apply Forall_app. now split.
Qed.

Section Registering.
Variable who : option nat.
Variable before : list User.

Lemma registering_same_db (w w' : World) :
  same_db w w' -> registering who before w -> registering who before w'.
Proof.
  intros (C & S & L) (H1 & H2 & H3). unfold registering.
  now rewrite C, S, L.
Qed.

Lemma registering_quiet {A} (m : M A) :
  quiet m -> invariant (registering who before) m.
Proof. apply invariant_quiet, registering_same_db. Qed.

Lemma registering_flash (msg category : string) :
  invariant (registering who before) (flash msg category).
Proof. apply registering_quiet. intros w. repeat split. Qed.

Lemma registering_add_user (username email : string) (h : Bcrypt.pw_hash) :
  invariant (registering who before) (App.add_user env username email h).
Proof.
  intros w (H1 & H2 & H3). unfold App.add_user. cbn.
  split; [exact H1|]. split; [exact H2|].
  eapply extended_trans; [exact H3|].
  eexists. split; [reflexivity|]. now repeat constructor.
Qed.

Lemma registering_add_stats (user_id : nat) (g i : Z) (l : option datetime) :
  invariant (registering who before) (App.add_stats user_id g i l).
Proof. intros w H. exact H. Qed.

Lemma registering_commit :
  invariant (registering who before) (commit env).
Proof.
  intros w (H1 & H2 & H3). unfold commit.
  destruct (commit_accepted env (session w)); cbn; [|now repeat split].
  split; [exact H1|]. split; [|apply extended_refl].
  eapply extended_trans; eassumption.
Qed.

Lemma registering_rollback :
  invariant (registering who before) rollback.
Proof.
  intros w (H1 & H2 & H3). cbn.
  split; [exact H1|]. split; [exact H2|apply extended_refl].
Qed.

Lemma registering_register (request : App.FormRequest) :
  invariant (registering who before)
    (App.register bcrypt_kdf cfg env request).
Proof.
  unfold App.register, App.current_user, App.load_user.
  apply invariant_bind.
  { apply invariant_bind; [apply invariant_gets|].
    intros [id|]; [apply invariant_gets|apply invariant_ret]. }
  intros [u|]; [apply invariant_ret|].
  destruct (App.r_method request); [apply invariant_ret|].
  apply invariant_try.
  - apply invariant_if.
    { apply invariant_bind; [apply registering_flash|].
      intros _. apply invariant_ret. }
    apply invariant_bind; [apply invariant_gets|].
    intros [taken|].
    { apply invariant_bind; [apply registering_flash|].
      intros _. apply invariant_ret. }
    apply invariant_bind; [apply invariant_gets|].
    intros [taken|].
    { apply invariant_bind; [apply registering_flash|].
      intros _. apply invariant_ret. }
    apply invariant_bind; [apply invariant_lift|intros h].
    apply invariant_bind; [apply registering_add_user|intros new_user].
    apply invariant_bind; [apply registering_commit|intros _].
    apply invariant_bind; [apply registering_add_stats|intros _].
    apply invariant_bind; [apply registering_commit|intros _].
    apply invariant_bind;
      [apply registering_quiet, quiet_put_metric|intros _].
    apply invariant_bind;
      [apply registering_quiet, quiet_send_sns|intros _].
    apply invariant_bind; [apply registering_flash|intros _].
    apply invariant_ret.
  - intros e.
    apply invariant_bind; [apply registering_rollback|intros _].
    apply invariant_bind;
      [apply registering_quiet, quiet_put_metric|intros _].
    apply invariant_bind; [apply registering_flash|intros _].
    apply invariant_ret.
Qed.

End Registering.

(** X18.  Whatever the form, [register] signs nobody in and gives
    nobody admin rights: the requester is who it was, the user rows that
    were there are there unchanged and in place, and every row added is
    without admin rights. *)
Theorem register_never_grants_admin (request : App.FormRequest) (w : World) :
  let out := App.handle (App.register bcrypt_kdf cfg env request) w in
  login_id (snd out) = login_id w
  /\ exists added,
       users (committed (snd out)) = users (committed w) ++ added
       /\ Forall (fun u => u_is_admin u = false) added.
Proof.
  intros out. subst out. unfold App.handle.
  set (w0 := set_session (committed w) w).
  assert (H0 : registering (login_id w) (users (committed w)) w0).
  { split; [reflexivity|]. split; apply extended_refl. }
  apply (registering_register _ _ request) in H0.
  destruct (App.register bcrypt_kdf cfg env request w0) as [r w'].
  cbn [fst snd] in *. destruct H0 as (H1 & H2 & _).
  split; [exact H1|exact H2].
Qed.

End Sessions.

(** ** Admin rights *)

Section AdminRights.
Import Models Runtime Spec Notions.
Local Open Scope app_scope.

Variable bcrypt_kdf : string -> string -> string.
Variable cfg : Config.

Lemma admin_refuses (user : User) (w : World) :
  logged_in user w ->
  u_is_admin user = false ->
  App.handle Pages.admin w
  = (Ok (Pages.Response (App.Redirect "/dashboard")),
     set_flashes
       (flashes w ++ [("Access denied. Admin privileges required.", "error")])
       (set_session (committed w) w)).
Proof.
  intros Hlog Hno. unfold Pages.admin.
  rewrite (pages_logged_in user) by assumption.
  rewrite Hno. reflexivity.
Qed.

Lemma admin_shows (user : User) (w : World) :
  logged_in user w ->
  u_is_admin user = true ->
  App.handle Pages.admin w
  = (Ok (Pages.Template "admin.html"
           (Pages.AdminContext
              (length (users (committed w)))
              (length (images (committed w)))
              (fold_right Z.add 0%Z
                 (map s_total_generations (user_stats (committed w))))
              (firstn 10 (Pages.order_by_desc u_created_at
                            (users (committed w))))
              (firstn 10 (Pages.order_by_desc Pages.image_created_at
                            (images (committed w)))))),
     set_session (committed w) w).
Proof.
  intros Hlog Hyes. unfold Pages.admin.
  rewrite (pages_logged_in user) by assumption.
  rewrite Hyes. reflexivity.
Qed.

(** a registration answered with the redirect to the login page: the
    name and the address were free, bcrypt took the password, and the
    two commits went through *)
Lemma register_succeeded (env : Env) (request : App.FormRequest)
    (username email password : string) (w : World) :
  anonymous w ->
  registration request username email password ->
  let out := App.handle (App.register bcrypt_kdf cfg env request) w in
  let u := new_user bcrypt_kdf env username email password (committed w) in
  fst out = Ok (App.Redirect "/login") ->
  user_by_username (Some username) (committed w) = None
  /\ Bcrypt.too_long password = false
  /\ login_id (snd out) = None
  /\ committed (snd out)
     = with_stats (u_id u)
         (with_user bcrypt_kdf env username email password (committed w)).
Proof.
  intros Hanon Hreg out u Hok.
  pose proof (current_user_anonymous (set_session (committed w) w) Hanon)
    as Hcur.
  destruct (register_taken bcrypt_kdf cfg env request username email password
              w Hcur Hreg) as [Hname Hmail].
  fold out in Hname, Hmail.
  destruct (user_by_username (Some username) (committed w)) eqn:Hn.
  { destruct Hname as (Hr & _); [discriminate|].
    rewrite Hr in Hok. discriminate. }
  destruct (user_by_email (Some email) (committed w)) eqn:Hm.
  { destruct Hmail as (Hr & _); [reflexivity|discriminate|].
    rewrite Hr in Hok. discriminate. }
  pose proof (register_new_cases bcrypt_kdf cfg env request username email
                password w Hcur Hreg Hn Hm) as H.
  cbv zeta in H. fold out u in H. destruct H as [Hl H].
  rewrite Hanon in Hl.
  destruct (Bcrypt.too_long password);
    [destruct H as [H _]; rewrite H in Hok; discriminate|].
  destruct (commit_accepted env _);
    [|destruct H as [H _]; rewrite H in Hok; discriminate].
  destruct (commit_accepted env _);
    [|destruct H as [H _]; rewrite H in Hok; discriminate].
  destruct H as [_ Hdb]. auto.
Qed.

(** X19.  A user who has registered through the form (the registration
    was answered with the redirect to the login page) and signed in is
    turned away from /admin: the answer is a redirect to the dashboard
    with the access-denied notice, and no figure of the admin page is
    computed or shown. *)
Theorem registered_user_is_refused_admin
    (env env' : Env) (request login_request : App.FormRequest)
    (username email password : string) (w : World) :
  anonymous w ->
  registration request username email password ->
  credentials login_request username password ->
  let out1 := App.handle (App.register bcrypt_kdf cfg env request) w in
  let w1 := snd out1 in
  let w2 := snd (App.handle (App.login bcrypt_kdf cfg env' login_request) w1) in
  let out := App.handle Pages.admin w2 in
  fst out1 = Ok (App.Redirect "/login") ->
  (exists user,
     logged_in user w2 /\ u_username user = username
     /\ u_is_admin user = false)
  /\ fst out = Ok (Pages.Response (App.Redirect "/dashboard"))
  /\ flashes (snd out)
     = flashes w2 ++ [("Access denied. Admin privileges required.", "error")]
  /\ committed (snd out) = committed w2.
Proof.
  intros Hanon Hreg Hcred out1 w1 w2 out Hok.
  set (u := new_user bcrypt_kdf env username email password (committed w)).
  destruct (register_succeeded env request username email password w
              Hanon Hreg Hok) as (Hname & Hshort & Hl1 & Hdb).
  fold out1 w1 u in Hl1, Hdb.
  assert (Hfind : user_by_username (Some username) (committed w1) = Some u).
  { rewrite Hdb. unfold with_stats, user_by_username. cbn [users insert_stats].
    exact (user_by_username_new (committed w) (utcnow env) username
             email (Bcrypt.hashpw bcrypt_kdf password (gensalt env)) Hname). }
  assert (Hid : user_by_id (u_id u) (committed w1) = Some u).
  { rewrite Hdb. unfold with_stats, user_by_id. cbn [users insert_stats].
    exact (user_by_id_new (committed w) (utcnow env) username email
             (Bcrypt.hashpw bcrypt_kdf password (gensalt env))). }
  pose proof (login_known bcrypt_kdf cfg env' login_request username password
                u w1 Hl1 Hcred Hfind) as Hlogin.
  cbv zeta in Hlogin. fold w2 in Hlogin.
  change (u_password_hash u)
    with (Bcrypt.hashpw bcrypt_kdf password (gensalt env)) in Hlogin.
  rewrite (check_own_password bcrypt_kdf _ _ Hshort) in Hlogin.
  destruct Hlogin as (_ & Hl2 & Hdb2).
  assert (Hlog : logged_in u w2) by (split; [exact Hl2|now rewrite Hdb2]).
  split; [exists u; repeat split; [exact Hl2|now rewrite Hdb2]|].
  subst out. rewrite (admin_refuses u w2 Hlog eq_refl).
  repeat split.
Qed.

Lemma sum_app (l1 l2 : list Z) :
  fold_right Z.add 0%Z (l1 ++ l2)
  = (fold_right Z.add 0 l1 + fold_right Z.add 0 l2)%Z.
Proof. induction l1 as [|x l1 IH]; cbn; [reflexivity|]. rewrite IH. lia. Qed.

(** X20.  The [create-admin] command fails on an empty password and on
    a password of more than 72 bytes (the [ValueError] of Flask-Bcrypt and
    of bcrypt) before it writes anything.  With a password of one to 72
    bytes, a name nobody has and a database that accepts the commits, the
    user it creates can sign in with that password and is shown the admin
    page, which counts one user more than there were and as many images
    and generations as before. *)
Theorem create_admin_opens_admin_page
    (env env' : Env) (login_request : App.FormRequest)
    (username email password : string) (w : World) :
  anonymous w ->
  credentials login_request username password ->
  user_by_username (Some username) (committed w) = None ->
  (forall db, commit_accepted env db = true) ->
  let out1 :=
    App.handle (Pages.create_admin bcrypt_kdf env username email password) w in
  let out2 :=
    App.handle (App.login bcrypt_kdf cfg env' login_request) (snd out1) in
  let out3 := App.handle Pages.admin (snd out2) in
  (password = "" \/ 72 < Py.utf8_length password ->
   fst out1 = Raise ValueError /\ committed (snd out1) = committed w)
  /\ (password <> "" -> Py.utf8_length password <= 72 ->
      fst out1 = Ok tt
      /\ (exists admin_user,
            logged_in admin_user (snd out2)
            /\ u_username admin_user = username
            /\ u_email admin_user = email
            /\ u_is_admin admin_user = true
            /\ In admin_user (users (committed (snd out1)))
            /\ stats_by_user (u_id admin_user) (committed (snd out1))
               <> None)
      /\ exists recent_users recent_images,
           fst out3
           = Ok (Pages.Template "admin.html"
                   (Pages.AdminContext
                      (S (length (users (committed w))))
                      (length (images (committed w)))
                      (fold_right Z.add 0%Z
                         (map s_total_generations
                            (user_stats (committed w))))
                      recent_users recent_images))).
Proof.
  intros Hanon Hcred Hname Hcommit out1 out2 out3. split.
  - intros Hbad. subst out1. unfold App.handle, Pages.create_admin.
    assert (Hraise : Bcrypt.generate_password_hash bcrypt_kdf (gensalt env)
                       password = Raise ValueError).
    { unfold Bcrypt.generate_password_hash.
      destruct Hbad as [->|Hlong]; [reflexivity|].
      rewrite (too_long_true _ Hlong). now destruct (Py.str_truthy password). }
    rewrite Hraise. cbn. auto.
  - intros Hpw Hshort. apply too_long_false in Hshort.
    set (h := Bcrypt.hashpw bcrypt_kdf password (gensalt env)).
    set (u := fst (Pages.insert_admin (utcnow env) username email h
                     (committed w))).
    set (db1 := snd (Pages.insert_admin (utcnow env) username email h
                       (committed w))).
    set (db2 := insert_stats (u_id u) 0 0 None db1).
    assert (Hout1 : fst out1 = Ok tt /\ committed (snd out1) = db2
                    /\ login_id (snd out1) = login_id w).
    { subst out1. unfold App.handle, Pages.create_admin.
      set (w0 := set_session (committed w) w).
      unfold Bcrypt.generate_password_hash.
      rewrite (str_truthy_ne _ Hpw), Hshort.
      rewrite (bind_ok _ _ w0 w0 h) by reflexivity.
      rewrite (bind_ok _ _ w0 (set_session db1 w0) u) by reflexivity.
      rewrite (bind_ok _ _ _ _ _ (commit_ok env _ (Hcommit _))).
      unfold App.add_stats.
      erewrite bind_ok by reflexivity.
      rewrite (bind_ok _ _ _ _ _ (commit_ok env _ (Hcommit _))).
      cbn. auto. }
    destruct Hout1 as (Hr1 & Hdb & Hl1).
    rewrite Hanon in Hl1.
    assert (Hfind : user_by_username (Some username) (committed (snd out1))
                    = Some u).
    { rewrite Hdb. unfold db2, user_by_username. cbn [users insert_stats].
      unfold db1. cbn [Pages.insert_admin snd users].
      apply find_app_none; [exact Hname|]. cbn. apply String.eqb_refl. }
    assert (Hid : user_by_id (u_id u) (committed (snd out1)) = Some u).
    { rewrite Hdb. unfold db2, user_by_id. cbn [users insert_stats].
      unfold db1. cbn [Pages.insert_admin snd users].
      apply find_app_none; [|cbn; apply Nat.eqb_refl].
      destruct (find _ (users (committed w))) as [v|] eqn:Hf;
        [exfalso|reflexivity].
      apply find_some in Hf. destruct Hf as [Hin Hv].
      apply Nat.eqb_eq in Hv. cbn [u_id u Pages.insert_admin fst] in Hv.
      apply (fresh_not_used (map u_id (users (committed w)))).
      rewrite <- Hv. now apply in_map. }
    pose proof (login_known bcrypt_kdf cfg env' login_request username
                  password u (snd out1) Hl1 Hcred Hfind) as Hlogin.
    cbv zeta in Hlogin. fold out2 in Hlogin.
    change (u_password_hash u) with h in Hlogin.
    unfold h in Hlogin.
    rewrite (check_own_password bcrypt_kdf _ _ Hshort) in Hlogin.
    destruct Hlogin as (_ & Hl2 & Hdb2).
    assert (Hlog : logged_in u (snd out2))
      by (split; [exact Hl2|now rewrite Hdb2]).
    split; [exact Hr1|]. split.
    + exists u. split; [exact Hlog|].
      split; [reflexivity|]. split; [reflexivity|]. split; [reflexivity|].
      split.
      * rewrite Hdb. cbn. apply in_or_app. right. now left.
      * rewrite Hdb. unfold db2, stats_by_user, insert_stats.
        cbn [user_stats]. apply find_app_last. cbn. apply Nat.eqb_refl.
    + subst out3. rewrite (admin_shows u (snd out2) Hlog eq_refl).
      rewrite Hdb2, Hdb. cbn [fst].
      eexists. eexists. f_equal. f_equal. f_equal.
      * cbn. rewrite length_app. cbn. lia.
      * cbn. rewrite map_app, sum_app. cbn. lia.
Qed.

End AdminRights.

(** ** Monitoring and notifications *)

Section Monitoring.
Import Models Runtime Spec Notions.
Local Open Scope app_scope.

Lemma alike_refl (w : World) : alike w w.
Proof. repeat split. Qed.

Lemma alike_sym (w1 w2 : World) : alike w1 w2 -> alike w2 w1.
Proof. intros (A & B & C & D & E & F & G). repeat split; congruence. Qed.

Lemma alike_trans (w1 w2 w3 : World) :
  alike w1 w2 -> alike w2 w3 -> alike w1 w3.
Proof.
  intros (A & B & C & D & E & F & G) (A' & B' & C' & D' & E' & F' & G').
  repeat split; congruence.
Qed.

Lemma agree_ret {A} (a : A) : agree (ret a) (ret a).
Proof. intros w1 w2 H. now split. Qed.

Lemma agree_raise {A} (e : exn) : agree (@raise A e) (raise e).
Proof. intros w1 w2 H. now split. Qed.

Lemma agree_lift {A} (r : result A) : agree (lift r) (lift r).
Proof. intros w1 w2 H. now split. Qed.

Lemma agree_gets {A} (f : World -> A) :
  (forall w1 w2, alike w1 w2 -> f w1 = f w2) -> agree (gets f) (gets f).
Proof. intros Hf w1 w2 H. cbn. split; [now rewrite (Hf _ _ H)|exact H]. Qed.

Lemma agree_modify (f : World -> World) :
  (forall w1 w2, alike w1 w2 -> alike (f w1) (f w2)) ->
  agree (modify f) (modify f).
Proof. intros Hf w1 w2 H. cbn. split; [reflexivity|now apply Hf]. Qed.

Lemma agree_bind {A B} (m1 m2 : M A) (k1 k2 : A -> M B) :
  agree m1 m2 -> (forall a, agree (k1 a) (k2 a)) ->
  agree (bind m1 k1) (bind m2 k2).
Proof.
  intros Hm Hk w1 w2 H. unfold bind.
  destruct (Hm w1 w2 H) as [Hr Hw].
  destruct (m1 w1) as [[a|e] w1'], (m2 w2) as [[a'|e'] w2'];
    cbn in *; try discriminate.
  - injection Hr as <-. now apply Hk.
  - injection Hr as <-. now split.
Qed.

Lemma agree_try {A} (m1 m2 : M A) (h1 h2 : exn -> M A) :
  agree m1 m2 -> (forall e, agree (h1 e) (h2 e)) ->
  agree (try_except m1 h1) (try_except m2 h2).
Proof.
  intros Hm Hh w1 w2 H. unfold try_except.
  destruct (Hm w1 w2 H) as [Hr Hw].
  destruct (m1 w1) as [[a|e] w1'], (m2 w2) as [[a'|e'] w2'];
    cbn in *; try discriminate.
  - split; [exact Hr|exact Hw].
  - injection Hr as <-. now apply Hh.
Qed.

(** what a silent step returns is thrown away *)
Lemma agree_after_silent {A A' B} (m1 : M A) (m2 : M A') (k1 k2 : M B) :
  silent m1 -> silent m2 -> agree k1 k2 ->
  agree (m1 ;;; k1) (m2 ;;; k2).
Proof.
  intros H1 H2 Hk w1 w2 H. unfold bind.
  destruct (H1 w1) as [[a Ha] Hw1], (H2 w2) as [[a' Ha'] Hw2].
  destruct (m1 w1) as [r1 w1'], (m2 w2) as [r2 w2']. cbn in *.
  subst r1 r2. apply Hk.
  eapply alike_trans; [apply alike_sym; exact Hw1|].
  eapply alike_trans; [exact H|exact Hw2].
Qed.

Lemma silent_put_metric cfg env name value unit dims :
  silent (Metrics.put_metric cfg env name value unit dims).
Proof.
  intros w. unfold Metrics.put_metric.
  destruct (negb (cloudwatch_client cfg));
    [split; [now eexists|repeat split]|].
  destruct (put_metric_data env _); (split; [now eexists|repeat split]).
Qed.

Lemma silent_send_sns cfg env email subject msg :
  silent (App.send_sns_notification cfg env email subject msg).
Proof.
  intros w. unfold App.send_sns_notification.
  destruct (negb (sns_client cfg) || negb (Py.str_truthy (SNS_TOPIC_ARN cfg)));
    [split; [now eexists|repeat split]|].
  destruct (publish env _); (split; [now eexists|repeat split]).
Qed.

Lemma agree_commit (env env' : Env) :
  commit_accepted env' = commit_accepted env ->
  agree (commit env) (commit env').
Proof.
  intros He w1 w2 H. unfold commit. rewrite He.
  pose proof H as (A & B & C & D & E & F & G). rewrite B.
  destruct (commit_accepted env (session w2)); cbn;
    (split; [reflexivity|]); [|exact H].
  repeat split; cbn; congruence.
Qed.

Lemma agree_add_user (env env' : Env) (username email : string)
    (h : Bcrypt.pw_hash) :
  utcnow env' = utcnow env ->
  agree (App.add_user env username email h)
    (App.add_user env' username email h).
Proof.
  intros He w1 w2 H. unfold App.add_user. rewrite He.
  pose proof H as (A & B & C & D & E & F & G). rewrite B. cbn.
  split; [reflexivity|]. repeat split; cbn; congruence.
Qed.

Ltac alike_fun :=
  let A := fresh in let B := fresh in let C := fresh in let D := fresh in
  let E := fresh in let F := fresh in let G := fresh in
  intros ? ? (A & B & C & D & E & F & G);
  try (repeat split); cbn; congruence.

Ltac silent_step :=
  first [ apply silent_put_metric | apply silent_send_sns ].

Ltac agree_step :=
  lazymatch goal with
  | |- agree (ret _) (ret _) => apply agree_ret
  | |- agree (raise _) (raise _) => apply agree_raise
  | |- agree (lift _) (lift _) => apply agree_lift
  | |- agree (gets _) (gets _) => apply agree_gets; alike_fun
  | |- agree (modify _) (modify _) => apply agree_modify; alike_fun
  | |- agree (flash _ _) (flash _ _) => apply agree_modify; alike_fun
  | |- agree rollback rollback => apply agree_modify; alike_fun
  | |- agree (commit _) (commit _) => apply agree_commit; reflexivity
  | |- agree (App.add_user _ _ _ _) (App.add_user _ _ _ _) =>
      apply agree_add_user; reflexivity
  | |- agree (try_except _ _) (try_except _ _) =>
      apply agree_try; [|intros ?]
  | |- agree (bind ?m1 _) (bind ?m2 _) =>
      first [ apply agree_after_silent; [silent_step|silent_step|]
            | apply agree_bind; [|intros ?] ]
  | |- agree (if ?b then _ else _) (if ?b then _ else _) => destruct b
  | |- agree (match ?x with _ => _ end) (match ?x with _ => _ end) =>
      destruct x
  | |- agree (let '(_, _) := ?x in _) (let '(_, _) := ?x in _) =>
      destruct x
  end.

Variable bcrypt_kdf : string -> string -> string.
Variable cfg : Config.
Variable env : Env.
(** the other settings and answers *)
Variable cloudwatch sns : bool.
Variable topic namespace : string.
Variable metrics : MetricDatum -> bool.
Variable notices : Notification -> bool.
Variable elapsed : Z.

Local Notation "'cfg''" :=
  (monitoring_set cloudwatch sns topic namespace cfg).
Local Notation "'env''" :=
  (monitoring_answers metrics notices elapsed env).

Ltac settings :=
  cbn [monitoring_set monitoring_answers
       API_BASE_URL API_KEY AWS_REGION USE_S3 S3_BUCKET_NAME
       CLOUDFRONT_DOMAIN MEDIA_FOLDER s3_client
       requests_get requests_post put_object commit_accepted utcnow
       now_stamp uuid_hex8 gensalt write_accepted cwd root_path
       files_elsewhere row_clock].

Lemma agree_current_user : agree App.current_user App.current_user.
Proof. unfold App.current_user, App.load_user. repeat agree_step. Qed.

Lemma agree_store (data : bytes) (filename : string) :
  agree (App.store cfg env data filename) (App.store cfg' env' data filename).
Proof.
  unfold App.store, App.upload_to_s3, App.save_local, App.write_file,
    App.s3_put_object, App.get_cloudfront_url, Metrics.record_error,
    Metrics.increment_counter.
  settings. repeat agree_step.
Qed.

Lemma agree_save_image_from_url (url : Py.value) (filename : string) :
  agree (App.save_image_from_url cfg env url filename)
    (App.save_image_from_url cfg' env' url filename).
Proof.
  pose proof agree_store as Hstore.
  unfold App.save_image_from_url, App.http_get, Metrics.record_error,
    Metrics.increment_counter.
  settings. repeat (first [apply Hstore | agree_step]).
Qed.

Lemma agree_save_base64_image (b64 : Py.value) (filename : string) :
  agree (App.save_base64_image cfg env b64 filename)
    (App.save_base64_image cfg' env' b64 filename).
Proof.
  pose proof agree_store as Hstore.
  unfold App.save_base64_image, Metrics.record_error,
    Metrics.increment_counter.
  settings. repeat (first [apply Hstore | agree_step]).
Qed.

Lemma agree_generate_image (prompt model_id size quality : Py.value) :
  agree (App.generate_image cfg env prompt model_id size quality)
    (App.generate_image cfg' env' prompt model_id size quality).
Proof.
  unfold App.generate_image, Metrics.record_error, Metrics.record_time,
    Metrics.increment_counter.
  settings. repeat agree_step.
Qed.

Lemma agree_save_images (user : User) (prompt model_id size quality : Py.value)
    (entries : list Py.value) :
  forall i saved,
    agree (App.save_images cfg env user prompt model_id size quality i
             entries saved)
      (App.save_images cfg' env' user prompt model_id size quality i
         entries saved).
Proof.
  pose proof agree_save_image_from_url as Hurl.
  pose proof agree_save_base64_image as Hb64.
  induction entries as [|entry rest IH]; intros i saved;
    cbn [App.save_images]; [apply agree_ret|].
  unfold App.add_image. settings.
  repeat (first [apply IH | apply Hurl | apply Hb64 | agree_step]).
Qed.

Lemma agree_api_generate_view (json : option Py.value) (user : User) :
  agree (App.api_generate_view cfg env json user)
    (App.api_generate_view cfg' env' json user).
Proof.
  pose proof agree_generate_image as Hgen.
  pose proof agree_save_images as Hsave.
  unfold App.api_generate_view, App.record_stats, App.add_stats,
    Metrics.record_generation, Metrics.record_error,
    Metrics.increment_counter.
  settings.
  repeat (first [apply Hgen | apply Hsave | agree_step]).
Qed.

Lemma agree_login_required path (view view' : User -> M App.response) :
  (forall user, agree (view user) (view' user)) ->
  agree (App.login_required path view) (App.login_required path view').
Proof.
  intros Hview. unfold App.login_required.
  apply agree_bind; [apply agree_current_user|].
  intros [user|]; [apply Hview|repeat agree_step].
Qed.

Lemma agree_register (request : App.FormRequest) :
  agree (App.register bcrypt_kdf cfg env request)
    (App.register bcrypt_kdf cfg' env' request).
Proof.
  pose proof agree_current_user as Hcur.
  unfold App.register, App.add_stats, Metrics.record_user_registration,
    Metrics.record_error, Metrics.increment_counter.
  settings.
  repeat (first [apply Hcur | agree_step]).
Qed.

Lemma agree_login (request : App.FormRequest) :
  agree (App.login bcrypt_kdf cfg env request)
    (App.login bcrypt_kdf cfg' env' request).
Proof.
  pose proof agree_current_user as Hcur.
  unfold App.login, App.login_user, Metrics.record_login,
    Metrics.increment_counter.
  repeat (first [apply Hcur | agree_step]).
Qed.

Lemma agree_same_outcome {A} (m m' : M A) (w : World) :
  agree m m' -> same_outcome w m m'.
Proof.
  intros H. unfold same_outcome, App.handle.
  destruct (H (set_session (committed w) w) (set_session (committed w) w)
              (alike_refl _)) as [Hr Hw].
  destruct (m _) as [r1 w1], (m' _) as [r2 w2]. cbn in *.
  split; [now symmetry|].
  destruct Hw as (A1 & B & C & D & E & F & G).
  repeat split; cbn; congruence.
Qed.

(** X21.  Monitoring and notifications never matter to a request:
    whether CloudWatch and SNS are configured or not, whatever they
    answer and however long the generation call takes, /api/generate,
    /register and /login give the same answer and leave the same
    database, session, files, objects and notices. *)
Theorem monitoring_never_matters
    (json : option Py.value) (request : App.FormRequest) (w : World) :
  same_outcome w (App.api_generate cfg env json)
    (App.api_generate cfg' env' json)
  /\ same_outcome w (App.register bcrypt_kdf cfg env request)
       (App.register bcrypt_kdf cfg' env' request)
  /\ same_outcome w (App.login bcrypt_kdf cfg env request)
       (App.login bcrypt_kdf cfg' env' request).
Proof.
  split; [|split]; apply agree_same_outcome.
  - apply agree_login_required. intros user. apply agree_api_generate_view.
  - apply agree_register.
  - apply agree_login.
Qed.

End Monitoring.

(** ** Where the bytes of an image are *)

Section Places.
Import Models Runtime Spec Notions.
Local Open Scope app_scope.

Lemma hoare_ret {A} (P : World -> Prop) (a : A)
    (Q : result A -> World -> Prop) :
  (forall w, P w -> Q (Ok a) w) -> hoare P (ret a) Q.
Proof. intros H w Hw. now apply H. Qed.

Lemma hoare_lift {A} (P : World -> Prop) (r : result A)
    (Q : result A -> World -> Prop) :
  (forall w, P w -> Q r w) -> hoare P (lift r) Q.
Proof. intros H w Hw. now apply H. Qed.

Lemma hoare_bind {A B} (P : World -> Prop) (m : M A) (k : A -> M B)
    (Q : result B -> World -> Prop) (R : A -> World -> Prop) :
  hoare P m (fun r w => match r with
                        | Ok a => R a w
                        | Raise e => Q (Raise e) w
                        end) ->
  (forall a, hoare (R a) (k a) Q) ->
  hoare P (bind m k) Q.
Proof.
  intros Hm Hk w Hw. unfold bind. specialize (Hm w Hw).
  destruct (m w) as [[a|e] w1]; cbn in *; [now apply Hk|exact Hm].
Qed.

Lemma hoare_try {A} (P : World -> Prop) (m : M A) (h : exn -> M A)
    (Q : result A -> World -> Prop) (R : World -> Prop) :
  hoare P m (fun r w => match r with
                        | Ok a => Q (Ok a) w
                        | Raise _ => R w
                        end) ->
  (forall e, hoare R (h e) Q) ->
  hoare P (try_except m h) Q.
Proof.
  intros Hm Hh w Hw. unfold try_except. specialize (Hm w Hw).
  destruct (m w) as [[a|e] w1]; cbn in *; [exact Hm|now apply Hh].
Qed.

Lemma hoare_conseq {A} (P P' : World -> Prop) (m : M A)
    (Q Q' : result A -> World -> Prop) :
  (forall w, P' w -> P w) ->
  hoare P m Q ->
  (forall r w, Q r w -> Q' r w) ->
  hoare P' m Q'.
Proof. intros HP Hm HQ w Hw. apply HQ, Hm, HP, Hw. Qed.

Variable cfg : Config.
Variable env : Env.

Section Loop.
(** the image rows there were before the loop *)
Variable before : list Image.

Lemma placed_grows (w w' : World) (im : Image) :
  (forall f, Py.lookup f (media w) <> None ->
             Py.lookup f (media w') <> None) ->
  (forall k, Py.lookup k (bucket w) <> None ->
             Py.lookup k (bucket w') <> None) ->
  placed cfg w im -> placed cfg w' im.
Proof.
  intros Hm Hb [(A & B & C & D)|(A & B & C)]; [left|right]; auto.
Qed.

Lemma placing_grows (w w' : World) :
  images (session w') = images (session w) ->
  (forall f, Py.lookup f (media w) <> None ->
             Py.lookup f (media w') <> None) ->
  (forall k, Py.lookup k (bucket w) <> None ->
             Py.lookup k (bucket w') <> None) ->
  placing cfg before w -> placing cfg before w'.
Proof.
  intros Hi Hm Hb (new & H & Hall). exists new.
  split; [congruence|].
  eapply Forall_impl; [|exact Hall]. intros im. now apply placed_grows.
Qed.

Lemma placing_same (w w' : World) :
  images (session w') = images (session w) ->
  stored w' = stored w ->
  placing cfg before w -> placing cfg before w'.
Proof.
  intros Hi Hs. unfold stored in Hs. injection Hs as Hm Hb.
  apply placing_grows; [exact Hi| |]; intros x; congruence.
Qed.

Lemma lookup_grows {A} (f g : string) (x : A) (l : list (string * A)) :
  Py.lookup f l <> None -> Py.lookup f ((g, x) :: l) <> None.
Proof. cbn. now destruct (g =? f). Qed.

Lemma lookup_found {A} (f : string) (x : A) (l : list (string * A)) :
  Py.lookup f ((f, x) :: l) <> None.
Proof. cbn. now rewrite String.eqb_refl. Qed.

Lemma store_places (data : bytes) (filename : string) :
  hoare (placing cfg before) (App.store cfg env data filename)
    (saving cfg before filename).
Proof.
  intros w Hw. unfold saving.
  destruct (USE_S3 cfg) eqn:Huse.
  - pose proof (store_cases cfg env data filename w Huse) as H.
    cbv zeta in H.
    destruct (negb (s3_client cfg) || negb (Py.opt_truthy (S3_BUCKET_NAME cfg))).
    { rewrite H. cbn. split; [exact Hw|discriminate]. }
    destruct (put_object env _ data).
    + rewrite H. cbn [fst snd]. split.
      * revert Hw. apply placing_grows; [reflexivity|auto|].
        intros k. apply lookup_grows.
      * intros p [= <-] _ im Hf Hk Hu. left. rewrite Hf.
        cbn [fst snd] in *. rewrite Huse in *.
        repeat split; auto. apply lookup_found.
    + destruct H as (w1 & _ & Hm & Hb & (_ & Hs & _) & ->).
      destruct (write_accepted env filename data); cbn [fst snd].
      2:{ split; [|discriminate]. revert Hw.
          apply placing_same; [now rewrite Hs|unfold stored; congruence]. }
      split.
      * revert Hw. apply placing_grows.
        -- cbn. now rewrite Hs.
        -- intros f. cbn [media set_media]. rewrite Hm. apply lookup_grows.
        -- intros k. cbn [bucket set_media]. now rewrite Hb.
      * intros p [= <-] _ im Hf Hk Hu. right. rewrite Hf.
        cbn [fst snd] in *. rewrite Huse in *.
        repeat split; auto. apply lookup_found.
  - rewrite (store_local cfg env data filename w Huse).
    destruct (write_accepted env filename data); cbn [fst snd].
    2:{ split; [exact Hw|discriminate]. }
    split.
    + revert Hw. apply placing_grows; [reflexivity| |auto].
      intros f. apply lookup_grows.
    + intros p [= <-] _ im Hf Hk Hu. right. rewrite Hf.
      cbn [fst snd] in *. rewrite Huse in *.
      repeat split; auto. apply lookup_found.
Qed.

Lemma nothing_saved_places (error_type filename : string) :
  hoare (placing cfg before)
    (Metrics.record_error cfg env error_type ;;;
     ret (@None string, @None string))
    (saving cfg before filename).
Proof.
  intros w Hw. destruct (save_except cfg env error_type w) as [sent ->].
  cbn [fst snd]. split.
  - revert Hw. now apply placing_same.
  - intros p [= <-] Ht. discriminate.
Qed.

Lemma save_image_from_url_places (url : Py.value) (filename : string) :
  hoare (placing cfg before)
    (App.save_image_from_url cfg env url filename) (saving cfg before filename).
Proof.
  unfold App.save_image_from_url.
  apply (hoare_try _ _ _ _ (placing cfg before));
    [|intros e; apply nothing_saved_places].
  apply (hoare_bind _ _ _ _ (fun _ => placing cfg before)).
  - intros w Hw. unfold App.http_get.
    destruct url as [| | |url| |]; try exact Hw.
    destruct (requests_get env url); exact Hw.
  - intros [status content]. destruct (status =? 200)%nat.
    + eapply hoare_conseq; [|apply store_places|]; [auto|].
      intros [p|e] w [H1 H2]; [now split|exact H1].
    + intros w Hw. cbn. split; [exact Hw|].
      intros p [= <-] Ht. discriminate.
Qed.

Lemma save_base64_image_places (b64 : Py.value) (filename : string) :
  hoare (placing cfg before)
    (App.save_base64_image cfg env b64 filename) (saving cfg before filename).
Proof.
  unfold App.save_base64_image.
  apply (hoare_try _ _ _ _ (placing cfg before));
    [|intros e; apply nothing_saved_places].
  apply (hoare_bind _ _ _ _ (fun _ => placing cfg before)).
  - intros w Hw. cbn. now destruct (App.decode_payload b64).
  - intros data.
    eapply hoare_conseq; [|apply store_places|]; [auto|].
    intros [p|e] w [H1 H2]; [now split|exact H1].
Qed.

Lemma save_images_places (user : User)
    (prompt model_id size quality : Py.value) (entries : list Py.value) :
  forall i saved,
    hoare (placing cfg before)
      (App.save_images cfg env user prompt model_id size quality i entries
         saved)
      (fun _ => placing cfg before).
Proof.
  induction entries as [|image_data rest IH]; intros i saved.
  - intros w Hw. exact Hw.
  - cbn [App.save_images].
    set (filename := (now_stamp env ++ _)%string).
    apply (hoare_bind _ _ _ _ (fun _ => placing cfg before)).
    { intros w Hw. cbn. now destruct (Py.contains "url" image_data). }
    intros has_url.
    apply (hoare_bind _ _ _ _
             (fun saved0 w =>
                placing cfg before w
                /\ match saved0 with
                   | Some p => place_found cfg filename p w
                   | None => True
                   end)).
    { destruct has_url.
      - apply (hoare_bind _ _ _ _ (fun _ => placing cfg before)).
        { intros w Hw. cbn. now destruct (Py.getitem image_data "url"). }
        intros url.
        apply (hoare_bind _ _ _ _
                 (fun p w => placing cfg before w
                             /\ place_found cfg filename p w)).
        + eapply hoare_conseq;
            [|apply (save_image_from_url_places url filename)|]; [auto|].
          intros [p|e] w [H1 H2]; [split; auto|exact H1].
        + intros p w Hw. exact Hw.
      - apply (hoare_bind _ _ _ _ (fun _ => placing cfg before)).
        { intros w Hw. cbn. now destruct (Py.contains "b64_json" image_data). }
        intros [|]; [|intros w Hw; now split].
        apply (hoare_bind _ _ _ _ (fun _ => placing cfg before)).
        { intros w Hw. cbn. now destruct (Py.getitem image_data "b64_json"). }
        intros b64.
        apply (hoare_bind _ _ _ _
                 (fun p w => placing cfg before w
                             /\ place_found cfg filename p w)).
        + eapply hoare_conseq;
            [|apply (save_base64_image_places b64 filename)|]; [auto|].
          intros [p|e] w [H1 H2]; [split; auto|exact H1].
        + intros p w Hw. exact Hw. }
    intros [[s3_key image_url]|].
    2:{ eapply hoare_conseq; [|apply IH|]; [|auto]. now intros w [H _]. }
    destruct (Py.opt_truthy image_url) eqn:Ht.
    2:{ eapply hoare_conseq; [|apply IH|]; [|auto]. now intros w [H _]. }
    apply (hoare_bind _ _ _ _ (fun _ => placing cfg before)); [|intros _; apply IH].
    intros w [(new & Hnew & Hall) Hfound].
    unfold App.add_image. cbn [modify fst snd].
    eexists (new ++ [_]). split.
    + cbn [session set_session insert_image images].
      rewrite Hnew, <- app_assoc. reflexivity.
    + apply Forall_app. split.
      * eapply Forall_impl; [|exact Hall].
        intros im. now apply placed_grows.
      * constructor; [|constructor].
        apply (placed_grows w); [auto|auto|].
        now apply (Hfound Ht).
Qed.

End Loop.

(** X22.  The image rows that a request answered with 200 adds to the
    database lead to bytes that are stored: to the object under
    ["images/<filename>"] of the bucket, or to the file of that name in
    the media folder (always so in local mode; with object storage, after
    an upload that failed, in which case the row's [s3_key] holds the bare
    file name and its [cloudfront_url] the local URL). *)
Theorem image_rows_lead_to_stored_bytes
    (json : option Py.value) (user : User) (w : World) :
  logged_in user w ->
  let out := App.handle (App.api_generate cfg env json) w in
  status_of (fst out) = 200 ->
  exists new,
    images (committed (snd out)) = images (committed w) ++ new
    /\ Forall (placed cfg (snd out)) new.
Proof.
  intros Hlog out H200. subst out. unfold App.api_generate in *.
  rewrite (handle_logged_in user) in * by assumption.
  set (w0 := set_session (committed w) w) in *.
  destruct (App.api_generate_view cfg env json user w0) as [r w'] eqn:Hview.
  cbn [fst snd] in *.
  destruct (api_generate_view_200_steps cfg env json user w0 w' r Hview H200)
    as (prompt & model_id & size & quality & entries & wg & ws & saved & msg
        & -> & (_ & Gs & _) & Gst & Hsave & Himgs & Hst).
  assert (Hg : placing cfg (images (committed w)) wg).
  { exists []. rewrite Gs, app_nil_r. split; [reflexivity|constructor]. }
  apply (save_images_places (images (committed w)) user prompt model_id size
           quality entries 0 []) in Hg.
  rewrite Hsave in Hg. cbn [fst snd] in Hg.
  destruct Hg as (new & Hnew & Hall).
  exists new. cbn [committed set_session].
  split; [congruence|].
  unfold stored in Hst. injection Hst as Hm Hb.
  eapply Forall_impl; [|exact Hall].
  intros im. apply placed_grows; cbn; intros x; congruence.
Qed.

End Places.

(** ** Storage is never rolled back *)

Section Growth.
Import Models Runtime Spec Notions.
Local Open Scope app_scope.

Variable cfg : Config.
Variable env : Env.
Variable start : World.

Lemma nothing_lost_stored (w w' : World) :
  stored w' = stored w -> nothing_lost start w -> nothing_lost start w'.
Proof.
  unfold stored. intros [= Hm Hb] [H1 H2]. split; intros x; rewrite ?Hm, ?Hb; auto.
Qed.

Lemma nothing_lost_keeps {A} (m : M A) :
  keeps stored m -> invariant (nothing_lost start) m.
Proof. intros Hk w. apply nothing_lost_stored, Hk. Qed.

Lemma nothing_lost_write (filename : string) (data : bytes) :
  invariant (nothing_lost start) (App.write_file env filename data).
Proof.
  intros w [H1 H2]. unfold App.write_file.
  destruct (write_accepted env filename data); [|now split].
  split; [|exact H2].
  intros f Hf. cbn. now apply lookup_grows, H1.
Qed.

Lemma nothing_lost_put (key : string) (data : bytes) :
  invariant (nothing_lost start) (App.s3_put_object env key data).
Proof.
  intros w [H1 H2]. unfold App.s3_put_object.
  destruct (put_object env key data); [|now split].
  split; [exact H1|]. intros k Hk. cbn. now apply lookup_grows, H2.
Qed.

Ltac lost_step :=
  lazymatch goal with
  | |- invariant _ (ret _) => apply invariant_ret
  | |- invariant _ (raise _) => intros ? ?; assumption
  | |- invariant _ (lift _) => apply invariant_lift
  | |- invariant _ (gets _) => apply invariant_gets
  | |- invariant _ (App.write_file _ _ _) => apply nothing_lost_write
  | |- invariant _ (App.s3_put_object _ _ _) => apply nothing_lost_put
  | |- invariant _ (Metrics.put_metric _ _ _ _ _ _) =>
      apply nothing_lost_keeps, keeps_stored_put_metric
  | |- invariant _ (App.send_sns_notification _ _ _ _ _) =>
      apply nothing_lost_keeps, keeps_stored_send_sns
  | |- invariant _ (commit _) => apply nothing_lost_keeps, keeps_stored_commit
  | |- invariant _ (modify _) =>
      apply nothing_lost_keeps, keeps_modify; reflexivity
  | |- invariant _ rollback =>
      apply nothing_lost_keeps, keeps_modify; reflexivity
  | |- invariant _ (flash _ _) =>
      apply nothing_lost_keeps, keeps_modify; reflexivity
  | |- invariant _ (try_except _ _) => apply invariant_try; [|intros ?]
  | |- invariant _ (bind _ _) => apply invariant_bind; [|intros ?]
  | |- invariant _ (if ?b then _ else _) => destruct b
  | |- invariant _ (match ?x with _ => _ end) => destruct x
  | |- invariant _ (let '(_, _) := ?x in _) => destruct x
  end.

Lemma nothing_lost_store (data : bytes) (filename : string) :
  invariant (nothing_lost start) (App.store cfg env data filename).
Proof.
  unfold App.store, App.upload_to_s3, App.save_local, Metrics.record_error,
    Metrics.increment_counter.
  repeat lost_step.
Qed.

Lemma nothing_lost_save_images (user : User)
    (prompt model_id size quality : Py.value) (entries : list Py.value) :
  forall i saved,
    invariant (nothing_lost start)
      (App.save_images cfg env user prompt model_id size quality i entries
         saved).
Proof.
  pose proof nothing_lost_store as Hstore.
  induction entries as [|entry rest IH]; intros i saved;
    cbn [App.save_images]; [apply invariant_ret|].
  unfold App.save_image_from_url, App.save_base64_image, App.http_get,
    App.add_image, Metrics.record_error, Metrics.increment_counter.
  repeat (first [apply IH | apply Hstore | lost_step]).
Qed.

Lemma nothing_lost_api_generate (json : option Py.value) :
  invariant (nothing_lost start) (App.api_generate cfg env json).
Proof.
  pose proof nothing_lost_save_images as Hsave.
  unfold App.api_generate, App.login_required, App.current_user,
    App.load_user, App.api_generate_view, App.generate_image,
    App.record_stats, App.add_stats,
    Metrics.record_generation, Metrics.record_error, Metrics.record_time,
    Metrics.increment_counter.
  repeat (first [apply Hsave | lost_step]).
Qed.

End Growth.

Section Orphans.
Import Models Runtime Spec Notions.
Local Open Scope app_scope.
Variable cfg : Config.
Variable env : Env.

(** X23.  /api/generate never takes a file or an object away: whatever
    the request and its outcome, every name that led to a file of the
    media folder or to an object of the bucket before still does
    afterwards.  Together with the all-or-nothing commit this means that
    the images stored by a request that fails at the commit stay behind
    without a row. *)
Theorem api_generate_loses_nothing (json : option Py.value) (w : World) :
  nothing_lost w (snd (App.handle (App.api_generate cfg env json) w)).
Proof.
  unfold App.handle.
  assert (H : nothing_lost w (set_session (committed w) w))
    by (split; auto).
  apply (nothing_lost_api_generate cfg env w json) in H.
  destruct (App.api_generate cfg env json _) as [r w']. exact H.
Qed.

End Orphans.

(** ** The further properties on the sample data *)

Lemma decode_payload_ignores_noise_witness :
  Base64.all_chars Base64.is_ascii Cases.broken_payload = true
  /\ Py.startswith Cases.broken_payload "data:image" = false
  /\ Notions.significant Cases.broken_payload = Base64.b64encode Sample.png
  /\ App.decode_payload (Py.PStr Cases.broken_payload) = Ok Sample.png.
Proof.
  split; [reflexivity|]. split; [reflexivity|]. split; [reflexivity|].
  apply (decode_payload_ignores_noise Sample.png Cases.broken_payload);
    reflexivity.
Defined.

Lemma save_base64_image_drops_malformed_witness :
  (forall s, Cases.cut_payload = Py.PStr s ->
             Py.startswith s "data:image" = true /\ Py.free_of "," s = true)
  /\ Spec.dropped Sample.w_signed_in
       (App.save_base64_image Sample.cfg Sample.env Cases.cut_payload
          "cat.png" Sample.w_signed_in).
Proof.
  assert (H : forall s, Cases.cut_payload = Py.PStr s ->
                Py.startswith s "data:image" = true
                /\ Py.free_of "," s = true).
  { intros s [= <-]. split; reflexivity. }
  split; [exact H|].
  exact (proj1 (save_base64_image_drops_malformed Sample.cfg Sample.env
                  Cases.cut_payload "cat.png" Sample.w_signed_in H)).
Defined.

Lemma upload_stores_in_bucket_witness :
  USE_S3 Sample.cfg = true
  /\ s3_client Sample.cfg = true
  /\ Py.opt_truthy (S3_BUCKET_NAME Sample.cfg) = true
  /\ Runtime.put_object Sample.env "images/cat.png" Sample.png = true
  /\ Py.lookup "images/cat.png"
       (Runtime.bucket
          (snd (App.store Sample.cfg Sample.env Sample.png "cat.png"
                  Sample.w_signed_in)))
     = Some Sample.png.
Proof.
  do 4 (split; [reflexivity|]).
  exact (proj1 (proj2 (proj1
           (upload_stores_in_bucket Sample.cfg Sample.env Sample.png "cat.png"
              Sample.w_signed_in eq_refl eq_refl eq_refl eq_refl)))).
Defined.

Lemma api_generate_all_or_nothing_witness :
  Spec.status_of
    (fst (App.handle
            (App.api_generate Sample.cfg Sample.env
               (Some (Py.PDict Sample.no_prompt)))
            Sample.w_signed_in)) <> 200
  /\ Runtime.committed
       (snd (App.handle
               (App.api_generate Sample.cfg Sample.env
                  (Some (Py.PDict Sample.no_prompt)))
               Sample.w_signed_in))
     = Runtime.committed Sample.w_signed_in.
Proof.
  assert (H : Spec.status_of
                (fst (App.handle
                        (App.api_generate Sample.cfg Sample.env
                           (Some (Py.PDict Sample.no_prompt)))
                        Sample.w_signed_in)) <> 200).
  { intros E. apply Nat.eqb_eq in E. vm_compute in E. discriminate E. }
  split; [exact H|].
  exact (api_generate_all_or_nothing Sample.cfg Sample.env
           (Some (Py.PDict Sample.no_prompt)) Sample.w_signed_in H).
Defined.

Lemma user_stats_follow_generation_witness :
  Spec.logged_in Sample.alice Sample.w_signed_in
  /\ fst (App.handle App.api_user_stats Sample.w_signed_in)
     = Ok (App.Json 200 (App.StatsBody 0 0 None))
  /\ fst (App.handle App.api_user_stats Cases.w_generated)
     = Ok (App.Json 200 (App.StatsBody 1 1 (Some 7))).
Proof.
  assert (Hlog : Spec.logged_in Sample.alice Sample.w_signed_in)
    by (split; reflexivity).
  split; [exact Hlog|]. split; [reflexivity|].
  exact (user_stats_follow_generation Sample.cfg Sample.env
           (Some (Py.PDict Sample.cat)) Sample.alice Sample.w_signed_in
           0%Z 0%Z None Hlog eq_refl eq_refl).
Defined.

Lemma api_generate_nothing_to_save_witness :
  Spec.logged_in Sample.alice Sample.w_signed_in
  /\ Py.truthy (Spec.field "prompt" (Py.PStr "") Sample.cat) = true
  /\ (forall db, Runtime.commit_accepted Cases.env_no_images db = true)
  /\ fst (App.handle
            (App.api_generate Sample.cfg Cases.env_no_images
               (Some (Py.PDict Sample.cat)))
            Sample.w_signed_in)
     = Ok (App.Json 200
             (App.GeneratedBody [] "Generated 0 image(s) successfully!")).
Proof.
  assert (Hlog : Spec.logged_in Sample.alice Sample.w_signed_in)
    by (split; reflexivity).
  assert (Hcommit : forall db,
             Runtime.commit_accepted Cases.env_no_images db = true)
    by (intros db; reflexivity).
  split; [exact Hlog|]. split; [reflexivity|]. split; [exact Hcommit|].
  refine (proj1 (proj1 (api_generate_nothing_to_save Sample.cfg
                          Cases.env_no_images Sample.alice Sample.cat
                          Sample.w_signed_in Hlog eq_refl Hcommit)
                   [("data", Py.PList [])] [] eq_refl _ eq_refl eq_refl)).
  discriminate.
Defined.

Lemma local_mode_images_are_served_witness :
  USE_S3 Cases.cfg_local = false
  /\ Spec.logged_in Sample.alice Sample.w_signed_in
  /\ Runtime.bucket
       (snd (App.handle
               (App.api_generate Cases.cfg_local Sample.env
                  (Some (Py.PDict Sample.cat)))
               Sample.w_signed_in))
     = Runtime.bucket Sample.w_signed_in.
Proof.
  assert (Hlog : Spec.logged_in Sample.alice Sample.w_signed_in)
    by (split; reflexivity).
  split; [reflexivity|]. split; [exact Hlog|].
  destruct (local_mode_images_are_served Cases.cfg_local Sample.env
              (Some (Py.PDict Sample.cat)) Sample.alice Sample.w_signed_in
              eq_refl Hlog eq_refl)
    as (saved & msg & new & _ & _ & H & _).
  exact H.
Defined.

Lemma thumbnail_not_thumbnailed_again_witness :
  Thumbnail.lambda_handler Cases.shrink Cases.put_always
    (Thumbnail.s3_event "generated-images" "images/cat.png") Cases.uploaded
  = ({| Thumbnail.statusCode := 200;
        Thumbnail.body := Thumbnail.Created "thumbnails/cat.png" |},
     (("generated-images", "thumbnails/cat.png"), [x89; x50])
     :: Cases.uploaded)
  /\ Thumbnail.lambda_handler Cases.shrink Cases.put_always
       (Thumbnail.s3_event "generated-images" "thumbnails/cat.png")
       Cases.uploaded
     = ({| Thumbnail.statusCode := 200;
           Thumbnail.body := Thumbnail.AlreadyThumbnail |}, Cases.uploaded).
Proof.
  split; [reflexivity|].
  exact (proj2 (thumbnail_not_thumbnailed_again Cases.shrink Cases.put_always
                  (Thumbnail.s3_event "generated-images" "images/cat.png")
                  Cases.uploaded _ "thumbnails/cat.png" eq_refl)
           "generated-images" Cases.uploaded).
Defined.

Lemma thumbnail_of_uploaded_image_witness :
  Py.free_of "/" "cat.png" = true
  /\ Thumbnail.get_object Cases.uploaded "generated-images" "images/cat.png"
     = Some Sample.png
  /\ Cases.shrink Sample.png = Some [x89; x50]
  /\ Cases.put_always "generated-images" "thumbnails/cat.png" [x89; x50]
     = true
  /\ Thumbnail.lambda_handler Cases.shrink Cases.put_always
       (Thumbnail.s3_event "generated-images" "images/cat.png") Cases.uploaded
     = ({| Thumbnail.statusCode := 200;
           Thumbnail.body := Thumbnail.Created "thumbnails/cat.png" |},
        (("generated-images", "thumbnails/cat.png"), [x89; x50])
        :: Cases.uploaded).
Proof.
  do 4 (split; [reflexivity|]).
  exact (thumbnail_of_uploaded_image Cases.shrink Cases.put_always
           "generated-images" "cat.png" Sample.png [x89; x50] Cases.uploaded
           eq_refl eq_refl eq_refl eq_refl).
Defined.

Lemma gallery_shows_own_images_newest_first_witness :
  Spec.logged_in Sample.alice Cases.w_seven
  /\ map Pages.image_created_at
       (Models.images_of_user (Models.u_id Sample.alice)
          (Runtime.committed Cases.w_seven))
     = [8; 9; 10; 11; 12; 13; 14]
  /\ exists shown info,
       fst (App.handle (Pages.gallery Sample.cfg Sample.env) Cases.w_seven)
       = Ok (Pages.Template "gallery.html" (Pages.GalleryContext shown info))
       /\ map Pages.image_created_at shown = [14; 13; 12; 11; 10; 9; 8].
Proof.
  assert (Hlog : Spec.logged_in Sample.alice Cases.w_seven)
    by (split; reflexivity).
  split; [exact Hlog|]. split; [reflexivity|].
  destruct (gallery_shows_own_images_newest_first Sample.cfg Sample.env
              Sample.alice Cases.w_seven Hlog)
    as (shown & info & H & _).
  exists shown, info. split; [exact H|].
  vm_compute in H. injection H as <- _. reflexivity.
Defined.

Lemma dashboard_shows_six_newest_witness :
  Spec.logged_in Sample.alice Cases.w_seven
  /\ length (Models.images_of_user (Models.u_id Sample.alice)
               (Runtime.committed Cases.w_seven)) = 7
  /\ exists (recent_images left_out : list Models.Image),
       fst (App.handle Pages.dashboard Cases.w_seven)
       = Ok (Pages.Template "dashboard.html"
               (Pages.DashboardContext
                  (Models.stats_by_user (Models.u_id Sample.alice)
                     (Runtime.committed Cases.w_seven))
                  recent_images))
       /\ map Pages.image_created_at recent_images = [14; 13; 12; 11; 10; 9]
       /\ left_out <> [].
Proof.
  assert (Hlog : Spec.logged_in Sample.alice Cases.w_seven)
    by (split; reflexivity).
  split; [exact Hlog|]. split; [reflexivity|].
  destruct (dashboard_shows_six_newest Sample.alice Cases.w_seven Hlog)
    as (recent & left_out & H & _ & Hperm & _).
  exists recent, left_out. split; [exact H|].
  apply Permutation_length in Hperm.
  vm_compute in H. injection H as <-.
  split; [reflexivity|].
  intros ->. vm_compute in Hperm. discriminate Hperm.
Defined.

Lemma api_models_degrades_gracefully_witness :
  Spec.logged_in Sample.alice Sample.w_signed_in
  /\ fst (App.handle
            (Pages.api_models Sample.cfg Sample.env (Some (503, None)))
            Sample.w_signed_in)
     = Ok (Pages.Jsonify Pages.no_models).
Proof.
  assert (Hlog : Spec.logged_in Sample.alice Sample.w_signed_in)
    by (split; reflexivity).
  split; [exact Hlog|].
  exact (proj1 (proj2 (proj2
           (api_models_degrades_gracefully Sample.cfg Sample.env
              (Some (503, None)) Sample.alice Sample.w_signed_in Hlog)))).
Defined.

Lemma logout_closes_the_session_witness :
  Spec.logged_in Sample.alice Sample.w_signed_in
  /\ fst (App.handle App.logout Sample.w_signed_in)
     = Ok (App.Redirect "/login")
  /\ Spec.anonymous (snd (App.handle App.logout Sample.w_signed_in)).
Proof.
  assert (Hlog : Spec.logged_in Sample.alice Sample.w_signed_in)
    by (split; reflexivity).
  split; [exact Hlog|].
  pose proof (logout_closes_the_session Sample.alice Sample.w_signed_in Hlog)
    as (H1 & H2 & _).
  split; [exact H1|exact H2].
Defined.

Lemma registered_user_is_refused_admin_witness :
  Spec.anonymous Sample.w0
  /\ Spec.registration Sample.register_form "alice" "alice@x.com" "pw123"
  /\ Spec.credentials Sample.login_form "alice" "pw123"
  /\ fst (App.handle
            (App.register Sample.kdf Sample.cfg Sample.env
               Sample.register_form) Sample.w0)
     = Ok (App.Redirect "/login")
  /\ fst (App.handle Pages.admin Sample.w_signed_in)
     = Ok (Pages.Response (App.Redirect "/dashboard")).
Proof.
  assert (Hreg : Spec.registration Sample.register_form "alice" "alice@x.com"
                   "pw123").
  { repeat split; discriminate. }
  assert (Hcred : Spec.credentials Sample.login_form "alice" "pw123").
  { repeat split. }
  split; [reflexivity|]. split; [exact Hreg|]. split; [exact Hcred|].
  split; [reflexivity|].
  exact (proj1 (proj2 (registered_user_is_refused_admin Sample.kdf Sample.cfg
                         Sample.env Sample.env Sample.register_form
                         Sample.login_form "alice" "alice@x.com" "pw123"
                         Sample.w0 eq_refl Hreg Hcred eq_refl))).
Defined.

Lemma create_admin_opens_admin_page_witness :
  Spec.anonymous Sample.w0
  /\ Spec.credentials Cases.admin_login_form "root" "s3cret"
  /\ (forall db, Runtime.commit_accepted Sample.env db = true)
  /\ Py.utf8_length "s3cret" <= 72
  /\ fst (App.handle
            (Pages.create_admin Sample.kdf Sample.env "root" "root@x.com"
               "s3cret") Sample.w0)
     = Ok tt.
Proof.
  assert (Hcred : Spec.credentials Cases.admin_login_form "root" "s3cret").
  { repeat split. }
  assert (Hcommit : forall db, Runtime.commit_accepted Sample.env db = true)
    by (intros db; reflexivity).
  assert (Hshort : Py.utf8_length "s3cret" <= 72).
  { apply Nat.leb_le. reflexivity. }
  split; [reflexivity|]. split; [exact Hcred|]. split; [exact Hcommit|].
  split; [exact Hshort|].
  refine (proj1 (proj2 (create_admin_opens_admin_page Sample.kdf Sample.cfg
                          Sample.env Sample.env Cases.admin_login_form
                          "root" "root@x.com" "s3cret" Sample.w0
                          eq_refl Hcred eq_refl Hcommit) _ Hshort)).
  discriminate.
Defined.

Lemma image_rows_lead_to_stored_bytes_witness :
  Spec.logged_in Sample.alice Sample.w_signed_in
  /\ exists new,
       Models.images (Runtime.committed Cases.w_generated)
       = Models.images (Runtime.committed Sample.w_signed_in) ++ new
       /\ Forall (Notions.placed Sample.cfg Cases.w_generated) new.
Proof.
  assert (Hlog : Spec.logged_in Sample.alice Sample.w_signed_in)
    by (split; reflexivity).
  split; [exact Hlog|].
  exact (image_rows_lead_to_stored_bytes Sample.cfg Sample.env
           (Some (Py.PDict Sample.cat)) Sample.alice Sample.w_signed_in
           Hlog eq_refl).
Defined.
